(** * Tenant isolation in the multi-tenant to-do backend

    A shallow embedding of the tenant resolver ([middleware/tenant.js]),
    the access guard ([middleware/auth.js]), the tenant-scoped repository
    ([repositories/baseRepository.js] and its subclasses) and the auth and
    todo services, together with the properties the specification states
    about them.

    JavaScript objects are finite maps from property names to values, the
    Prisma client is an in-memory store of rows, and asynchronous methods
    are computations in a state-and-exception monad that also records every
    call made to the store. *)

From Stdlib Require Import ZArith SpecFloat Ascii String List.
From stdpp Require Import gmap strings pretty list fin_maps.

Local Open Scope string_scope.

(** ** JavaScript values *)

Module JS.

Inductive value :=
| VUndefined
| VNull
| VBool (b : bool)
| VNum (n : Z)
| VStr (s : string).

#[global] Instance value_eq_dec : EqDecision value.
Proof. solve_decision. Defined.

(** [!!v]: the values that are not falsy. *)
Definition truthy (v : value) : bool :=
  match v with
  | VUndefined | VNull => false
  | VBool b => b
  | VNum n => negb (n =? 0)%Z
  | VStr s => negb (bool_decide (s = ""))
  end.

(** [a === b] and [a !== b] on primitive values. *)
Definition strict_eq (a b : value) : bool := bool_decide (a = b).
Definition strict_ne (a b : value) : bool := negb (strict_eq a b).

(** An object literal or a decoded JSON object. *)
Abbreviation object := (gmap string value).

(** [o.k]: a missing property reads as [undefined]. *)
Definition prop (o : object) (k : string) : value := default VUndefined (o !! k).

(** [{...a, ...b}]: properties of [b] win. *)
Definition spread (a b : object) : object := b ∪ a.

(** [s.split(c)] for a one-character separator: the pieces between the
    occurrences of [c], of which there is always at least one. *)
Fixpoint split (c : ascii) (s : string) : list string :=
  match s with
  | EmptyString => [""]
  | String a rest =>
      let pieces := split c rest in
      if bool_decide (a = c) then "" :: pieces
      else String a (default "" (head pieces)) :: tail pieces
  end.

(** A string is held as the bytes of its UTF-8 encoding.  [s.length]
    counts UTF-16 code units: one for a character of one, two or three
    bytes, two for a character of four bytes; the bytes that continue a
    character count nothing. *)
Definition code_units (a : ascii) : nat :=
  let n := nat_of_ascii a in
  if (n <? 128)%nat then 1%nat
  else if (n <? 192)%nat then 0%nat
  else if (n <? 240)%nat then 1%nat
  else 2%nat.

Fixpoint utf16_length (s : string) : nat :=
  match s with
  | EmptyString => 0%nat
  | String a rest => (code_units a + utf16_length rest)%nat
  end.

(** [typeof v] *)
Definition typeof (v : value) : string :=
  match v with
  | VUndefined => "undefined"
  | VNull => "object"
  | VBool _ => "boolean"
  | VNum _ => "number"
  | VStr _ => "string"
  end.

(** Arithmetic on numbers is that of IEEE 754 doubles: 53 bits of
    precision, exponents up to 1024, rounding to the nearest even. *)
Definition double := spec_float.

(** An integer as a double. *)
Definition number (n : Z) : double := binary_normalize 53 1024 n 0 false.

(** [x / y] *)
Definition divide (x y : double) : double := SFdiv 53 1024 x y.

(** [x * y] *)
Definition times (x y : double) : double := SFmul 53 1024 x y.

(** [s.startsWith(p)] *)
Definition startsWith (p s : string) : bool := String.prefix p s.

(** [s.includes(p)] *)
Fixpoint includes (p s : string) : bool :=
  String.prefix p s ||
  match s with
  | EmptyString => false
  | String _ rest => includes p rest
  end.

End JS.
Import JS.

(** ** utils/errors.js and the other error classes that reach a handler *)

Module Errors.

Inductive ErrClass :=
| PlainError                 (* new Error(msg) *)
| ReferenceError             (* an unbound identifier was evaluated *)
| TypeError                  (* a property that is not a function was called *)
| BaseError
| ValidationError
| NotFoundError
| UnauthorizedError
| ForbiddenError
| ConflictError
| TenantNotFoundError
| RateLimitError
| ServiceUnavailableError
| BadRequestError
| JsonWebTokenError          (* jsonwebtoken *)
| TokenExpiredError          (* jsonwebtoken, extends JsonWebTokenError *)
| PrismaClientKnownRequestError (code : string)
| PrismaClientValidationError
| OtherError (name : string). (* an error of any other class, by its [name] *)

#[global] Instance ErrClass_eq_dec : EqDecision ErrClass.
Proof. solve_decision. Defined.

Record Err := mkErr { cls : ErrClass; message : string }.

#[global] Instance Err_eq_dec : EqDecision Err.
Proof. solve_decision. Defined.

(** The [extends] clauses. *)
Definition parent (c : ErrClass) : option ErrClass :=
  match c with
  | ValidationError | NotFoundError | UnauthorizedError | ForbiddenError
  | ConflictError | RateLimitError | ServiceUnavailableError
  | BadRequestError => Some BaseError
  | TenantNotFoundError => Some NotFoundError
  | TokenExpiredError => Some JsonWebTokenError
  | _ => None
  end.

(** [e instanceof C]; the class hierarchy has depth two below [BaseError]. *)
Definition instanceof (e : Err) (C : ErrClass) : bool :=
  bool_decide (cls e = C)
  || match parent (cls e) with
     | Some p =>
         bool_decide (p = C)
         || match parent p with
            | Some g => bool_decide (g = C)
            | None => false
            end
     | None => false
     end.

(** The [statusCode] each constructor passes to [BaseError]. *)
Definition statusCode (c : ErrClass) : option Z :=
  match c with
  | BaseError => Some 500%Z
  | ValidationError | BadRequestError => Some 400%Z
  | NotFoundError | TenantNotFoundError => Some 404%Z
  | UnauthorizedError => Some 401%Z
  | ForbiddenError => Some 403%Z
  | ConflictError => Some 409%Z
  | RateLimitError => Some 429%Z
  | ServiceUnavailableError => Some 503%Z
  | _ => None
  end.

(** The classes exported by utils/errors.js, by name. *)
Definition exported (name : string) : option ErrClass :=
  if bool_decide (name = "BaseError") then Some BaseError
  else if bool_decide (name = "ValidationError") then Some ValidationError
  else if bool_decide (name = "NotFoundError") then Some NotFoundError
  else if bool_decide (name = "UnauthorizedError") then Some UnauthorizedError
  else if bool_decide (name = "ForbiddenError") then Some ForbiddenError
  else if bool_decide (name = "ConflictError") then Some ConflictError
  else if bool_decide (name = "TenantNotFoundError") then Some TenantNotFoundError
  else if bool_decide (name = "RateLimitError") then Some RateLimitError
  else if bool_decide (name = "ServiceUnavailableError") then Some ServiceUnavailableError
  else if bool_decide (name = "BadRequestError") then Some BadRequestError
  else None.

(** [new C(msg)] evaluated in a module whose destructuring [require] of
    utils/errors.js binds the names in [scope]: an identifier the module
    never bound raises a ReferenceError instead of building the error. *)
Definition new_error (scope : list string) (ctor msg : string) : Err :=
  match (if bool_decide (ctor ∈ scope) then exported ctor else None) with
  | Some c => mkErr c msg
  | None => mkErr ReferenceError (ctor +:+ " is not defined")
  end.

End Errors.
Import Errors.

(** ** The Prisma client: an in-memory model of the store

    The persistence store is an external collaborator.  A table is the list
    of its rows in storage order, a row maps column names to values, and a
    [where] object maps column names to conditions that must all hold. *)

Module Prisma.

Inductive ModelName := MUser | MTodo | MTenant.

#[global] Instance ModelName_eq_dec : EqDecision ModelName.
Proof. solve_decision. Defined.

(** The property name under which the client exposes each model. *)
Definition modelName (m : ModelName) : string :=
  match m with
  | MUser => "user"
  | MTodo => "todo"
  | MTenant => "tenant"
  end.

(** Operators of a filter object, as in [{ lt: d }], [{ not: 'COMPLETED' }],
    [{ in: [...] }], [{ gte: a, lte: b }]. *)
Inductive op :=
| OpEquals (v : value)
| OpNot (v : value)
| OpLt (v : value)
| OpLte (v : value)
| OpGt (v : value)
| OpGte (v : value)
| OpIn (vs : list value).

#[global] Instance op_eq_dec : EqDecision op.
Proof. solve_decision. Defined.

(** A condition on one column: a bare value ([{ status: 'PENDING' }]) or a
    filter object whose operators must all hold. *)
Inductive cond :=
| CEq (v : value)
| CFilter (ops : list op).

#[global] Instance cond_eq_dec : EqDecision cond.
Proof. solve_decision. Defined.

Abbreviation Where := (gmap string cond).
Abbreviation row := (gmap string value).

(** A column of a row; a column that is not set holds NULL. *)
Definition column (r : row) (k : string) : value := default VNull (r !! k).

Definition value_lt (a b : value) : bool :=
  match a, b with
  | VNum x, VNum y => (x <? y)%Z
  | _, _ => false
  end.

(** The client drops a condition whose operand is [undefined]. *)
Definition unless_undefined (v : value) (b : bool) : bool :=
  match v with
  | VUndefined => true
  | _ => b
  end.

Definition op_holds (o : op) (fv : value) : bool :=
  match o with
  | OpEquals v => unless_undefined v (bool_decide (fv = v))
  | OpNot v =>
      unless_undefined v
        (negb (bool_decide (fv = v))
         && (bool_decide (v = VNull) || negb (bool_decide (fv = VNull))))
  | OpLt v => unless_undefined v (value_lt fv v)
  | OpLte v => unless_undefined v (value_lt fv v || bool_decide (fv = v))
  | OpGt v => unless_undefined v (value_lt v fv)
  | OpGte v => unless_undefined v (value_lt v fv || bool_decide (fv = v))
  | OpIn vs => bool_decide (fv ∈ vs)
  end.

Definition cond_holds (c : cond) (fv : value) : bool :=
  match c with
  | CEq v => unless_undefined v (bool_decide (fv = v))
  | CFilter ops => forallb (fun o => op_holds o fv) ops
  end.

(** A row satisfies a [where] object when every condition holds; a missing
    [where] selects every row. *)
Definition satisfies (w : Where) (r : row) : bool :=
  forallb (fun kc => cond_holds kc.2 (column r kc.1)) (map_to_list w).

Definition matches (w : option Where) (r : row) : bool :=
  match w with
  | None => true
  | Some w' => satisfies w' r
  end.

Inductive direction := Asc | Desc.

(** An [options] object as a repository method receives it.  The method
    spreads it last into the argument of its find call, so a key the
    object carries replaces the method's own.  Of the keys of a find call
    the model holds [orderBy], [select], [where], [skip] and [take]; for
    the last three, which the methods set themselves, [None] is a key that
    is absent and [Some v] a key that is present, [v] being [None] for the
    value [undefined]. *)
Record Options := mkOptions {
  orderBy : option (string * direction);
  select : option (list string);
  where_ : option (option Where);
  skip_ : option (option Z);
  take_ : option (option Z);
}.

(** [{}] *)
Definition no_options : Options := mkOptions None None None None None.

(** The argument of a find call, after any spread: the store reads
    [where], [skip] and [take] from the first three fields, and [orderBy]
    and [select] from the options. *)
Record FindArgs := mkFindArgs {
  fa_where : option Where;
  fa_skip : option Z;
  fa_take : option Z;
  fa_options : Options;
}.

(** [{ where, skip, take, ...options }]: the keys of [options] come last
    and win. *)
Definition with_options (w : option Where) (skip take : option Z) (options : Options)
    : FindArgs :=
  mkFindArgs (default w (where_ options)) (default skip (skip_ options))
    (default take (take_ options)) options.

(** [select]: keep the listed columns only. *)
Definition project (sel : option (list string)) (r : row) : row :=
  match sel with
  | None => r
  | Some fields => filter (fun kv => kv.1 ∈ fields) r
  end.

(** [take: n] keeps the first [n] rows, a negative [n] the last [-n]. *)
Definition take_rows (n : option Z) (l : list row) : list row :=
  match n with
  | None => l
  | Some n =>
      if (n <? 0)%Z then reverse (take (Z.to_nat (- n)) (reverse l))
      else take (Z.to_nat n) l
  end.

Definition skip_rows (n : option Z) (l : list row) : list row :=
  match n with
  | None => l
  | Some n => drop (Z.to_nat n) l
  end.

Record DB := mkDB {
  users : list row;
  todos : list row;
  tenants : list row;
  next_id : nat;
}.

Definition table (m : ModelName) (d : DB) : list row :=
  match m with
  | MUser => users d
  | MTodo => todos d
  | MTenant => tenants d
  end.

Definition set_table (m : ModelName) (t : list row) (d : DB) : DB :=
  match m with
  | MUser => mkDB t (todos d) (tenants d) (next_id d)
  | MTodo => mkDB (users d) t (tenants d) (next_id d)
  | MTenant => mkDB (users d) (todos d) t (next_id d)
  end.

(** Every request the application sends to the client. *)
Inductive StoreCall :=
| CallFindFirst (m : ModelName) (a : FindArgs)
| CallFindUnique (m : ModelName) (a : FindArgs)
| CallFindMany (m : ModelName) (a : FindArgs)
| CallCount (m : ModelName) (w : option Where)
| CallCreate (m : ModelName) (data : object)
| CallUpdate (m : ModelName) (id : value) (data : object)
| CallDelete (m : ModelName) (id : value).

End Prisma.
Import Prisma.

(** ** config/environment.js and the library collaborators *)

Record Config := mkConfig {
  nodeEnv : string;
  jwt_secret : string;
  jwt_expiresIn : string;
  domain_main : string;
  bcryptRounds : Z;
}.

(** What the code takes from outside the repository: the configuration,
    jsonwebtoken, bcryptjs, and the parts of the database schema that
    decide how the store orders rows and fills in a new row. *)
Class Env := mkEnv {
  config : Config;
  (* jwt.verify(token, secret): the payload, or the error it throws *)
  jwt_verify : string -> string -> Err + object;
  (* jwt.sign(payload, secret, { expiresIn }) *)
  jwt_sign : object -> string -> string -> string;
  (* new Date(v), as the value the store receives *)
  new_Date : value -> value;
  (* bcrypt.hash(plaintext, rounds) *)
  bcrypt_hash : string -> Z -> string;
  (* the order the store gives rows under an orderBy option *)
  order_rows : string * direction -> list row -> list row;
  (* the schema's default id for the n-th row created *)
  gen_id : ModelName -> nat -> string;
  (* the schema's column defaults *)
  schema_defaults : ModelName -> row;
}.

(** ** Asynchronous methods: state, exceptions and the log of store calls *)

Module Async.

Record World := mkWorld {
  db : DB;
  calls : list StoreCall;
}.

Inductive result (A : Type) :=
| Ok (a : A)
| Throw (e : Err).
Arguments Ok {A} a.
Arguments Throw {A} e.

Definition M (A : Type) : Type := World -> result A * World.

#[global] Instance M_ret : MRet M := fun A a w => (Ok a, w).

#[global] Instance M_bind : MBind M := fun A B f m w =>
  match m w with
  | (Ok a, w') => f a w'
  | (Throw e, w') => (Throw e, w')
  end.

Definition throw {A} (e : Err) : M A := fun w => (Throw e, w).

(** [try { body } catch (error) { handler }] *)
Definition try_catch {A} (body : M A) (handler : Err -> M A) : M A := fun w =>
  match body w with
  | (Ok a, w') => (Ok a, w')
  | (Throw e, w') => handler e w'
  end.

Definition get_db : M DB := fun w => (Ok (db w), w).
Definition put_db (d : DB) : M unit := fun w => (Ok tt, mkWorld d (calls w)).
Definition record_call (c : StoreCall) : M unit := fun w =>
  (Ok tt, mkWorld (db w) (calls w ++ [c])%list).

(** [Promise.all([a, b])]: both requests are issued; the first rejection,
    if any, is the one the caller sees. *)
Definition both {A B} (a : M A) (b : M B) : M (A * B) := fun w =>
  let (ra, w1) := a w in
  let (rb, w2) := b w1 in
  match ra, rb with
  | Ok x, Ok y => (Ok (x, y), w2)
  | Throw e, _ => (Throw e, w2)
  | Ok _, Throw e => (Throw e, w2)
  end.

(** Running a method on a database with an empty log. *)
Definition run {A} (m : M A) (d : DB) : result A * World := m (mkWorld d []).
Definition outcome {A} (m : M A) (d : DB) : result A := (run m d).1.
Definition db_after {A} (m : M A) (d : DB) : DB := db (run m d).2.
Definition calls_of {A} (m : M A) (d : DB) : list StoreCall := calls (run m d).2.

End Async.
Import Async.

(** ** The model delegates [prisma.user], [prisma.todo], [prisma.tenant] *)

Module Model.
Section Model.
Context `{Env}.

(** The rows a find call selects, before projection. *)
Definition select_rows (a : FindArgs) (t : list row) : list row :=
  let found := filter (fun r => matches (fa_where a) r = true) t in
  let sorted :=
    match orderBy (fa_options a) with
    | Some ob => order_rows ob found
    | None => found
    end in
  take_rows (fa_take a) (skip_rows (fa_skip a) sorted).

Definition find_rows (a : FindArgs) (t : list row) : list row :=
  project (select (fa_options a)) <$> select_rows a t.

Definition negative (n : option Z) : bool :=
  match n with
  | Some n => (n <? 0)%Z
  | None => false
  end.

Definition findFirst (m : ModelName) (a : FindArgs) : M (option row) :=
  _ ← record_call (CallFindFirst m a);
  d ← get_db;
  mret (head (find_rows a (table m d))).

Definition findUnique (m : ModelName) (a : FindArgs) : M (option row) :=
  _ ← record_call (CallFindUnique m a);
  d ← get_db;
  mret (head (find_rows a (table m d))).

Definition findMany (m : ModelName) (a : FindArgs) : M (list row) :=
  _ ← record_call (CallFindMany m a);
  d ← get_db;
  if negative (fa_skip a)
  then throw (mkErr PrismaClientValidationError "Invalid value for skip argument")
  else mret (find_rows a (table m d)).

Definition count (m : ModelName) (w : option Where) : M Z :=
  _ ← record_call (CallCount m w);
  d ← get_db;
  mret (Z.of_nat (length (filter (fun r => matches w r = true) (table m d)))).

(** The properties of [data] that are not [undefined]. *)
Definition defined_props (data : object) : object :=
  filter (fun kv => kv.2 ≠ VUndefined) data.

(** The row a create makes of its data: the data, a generated id when
    the data gives none, and the schema defaults for what is left. *)
Definition new_row (m : ModelName) (data : object) (n : nat) : row :=
  let given := defined_props data in
  let with_id :=
    match given !! "id" with
    | Some _ => given
    | None => <["id" := VStr (gen_id m n)]> given
    end in
  with_id ∪ schema_defaults m.

(** [create({ data })] *)
Definition create (m : ModelName) (data : object) : M row :=
  _ ← record_call (CallCreate m data);
  d ← get_db;
  let r := new_row m data (next_id d) in
  let d' := mkDB (users d) (todos d) (tenants d) (S (next_id d)) in
  _ ← put_db (set_table m (table m d' ++ [r])%list d');
  mret r.

Definition has_id (id : value) (r : row) : bool := bool_decide (column r "id" = id).

(** Replace the first row with the given id. *)
Fixpoint update_first (id : value) (data : object) (t : list row) : option (row * list row) :=
  match t with
  | [] => None
  | r :: rest =>
      if has_id id r then
        let r' := spread r (defined_props data) in Some (r', r' :: rest)
      else
        match update_first id data rest with
        | Some (r', rest') => Some (r', r :: rest')
        | None => None
        end
  end.

Fixpoint delete_first (id : value) (t : list row) : option (row * list row) :=
  match t with
  | [] => None
  | r :: rest =>
      if has_id id r then Some (r, rest)
      else
        match delete_first id rest with
        | Some (r', rest') => Some (r', r :: rest')
        | None => None
        end
  end.

Definition record_not_found : Err :=
  mkErr (PrismaClientKnownRequestError "P2025") "Record to update not found.".

Definition missing_unique : Err :=
  mkErr PrismaClientValidationError "Argument where needs at least one argument".

(** [update({ where: { id }, data })] *)
Definition update (m : ModelName) (id : value) (data : object) : M row :=
  _ ← record_call (CallUpdate m id data);
  d ← get_db;
  if bool_decide (id = VUndefined) then throw missing_unique
  else
    match update_first id data (table m d) with
    | None => throw record_not_found
    | Some (r, t) =>
        _ ← put_db (set_table m t d);
        mret r
    end.

(** [delete({ where: { id } })] *)
Definition delete (m : ModelName) (id : value) : M row :=
  _ ← record_call (CallDelete m id);
  d ← get_db;
  if bool_decide (id = VUndefined) then throw missing_unique
  else
    match delete_first id (table m d) with
    | None => throw record_not_found
    | Some (r, t) =>
        _ ← put_db (set_table m t d);
        mret r
    end.

(** [model.fields.tenantId]: the user and todo models carry a tenant
    column, the tenant model does not. *)
Definition fields_tenantId (m : ModelName) : bool :=
  match m with
  | MTenant => false
  | _ => true
  end.

End Model.
End Model.

(** ** repositories/baseRepository.js *)

Module BaseRepository.
Section BaseRepository.
Context `{Env}.
Variable model : ModelName.

Definition addTenantFilter (w : option Where) (tenantId : value) : option Where :=
  if negb (truthy tenantId) then w
  else
    match w with
    | None => Some {["tenantId" := CEq tenantId]}
    | Some w' => Some (<["tenantId" := CEq tenantId]> w')
    end.

Definition findById (id tenantId : value) (options : Options) : M (option row) :=
  let w := addTenantFilter (Some {["id" := CEq id]}) tenantId in
  Model.findFirst model (with_options w None None options).

Definition findOne (w : option Where) (tenantId : value) (options : Options) : M (option row) :=
  let filteredWhere := addTenantFilter w tenantId in
  Model.findFirst model (with_options filteredWhere None None options).

Definition findMany (w : option Where) (tenantId : value) (options : Options) : M (list row) :=
  let filteredWhere := addTenantFilter w tenantId in
  Model.findMany model (with_options filteredWhere None None options).

Definition create (data : object) (tenantId : value) : M row :=
  let finalData :=
    if truthy tenantId && Model.fields_tenantId model
    then <["tenantId" := tenantId]> data
    else data in
  Model.create model finalData.

Definition not_found : Err := mkErr PlainError (modelName model +:+ " not found").

Definition update (id : value) (data : object) (tenantId : value) : M row :=
  let w := addTenantFilter (Some {["id" := CEq id]}) tenantId in
  exists_ ← Model.findFirst model (mkFindArgs w None None no_options);
  match exists_ with
  | None => throw not_found
  | Some _ => Model.update model id data
  end.

Definition delete (id : value) (tenantId : value) : M row :=
  let w := addTenantFilter (Some {["id" := CEq id]}) tenantId in
  exists_ ← Model.findFirst model (mkFindArgs w None None no_options);
  match exists_ with
  | None => throw not_found
  | Some _ => Model.delete model id
  end.

Definition count (w : option Where) (tenantId : value) : M Z :=
  let filteredWhere := addTenantFilter w tenantId in
  Model.count model filteredWhere.

Record Pagination := mkPagination {
  total : Z;
  page : Z;
  pageSize : Z;
  totalPages : Z;
}.

Record Page := mkPage {
  data : list row;
  pagination : Pagination;
}.

(** [Math.ceil(total / pageSize)] on integers, for a divisor that is not
    zero: a row count is far below 2^53, where the quotient of the doubles
    rounds to the same ceiling as the exact quotient. *)
Definition ceil_div (a b : Z) : Z := (- ((- a) / b))%Z.

Definition findPaginated (w : option Where) (tenantId : value) (page pageSize : option Z)
    (options : Options) : M Page :=
  let page := default 1%Z page in
  let pageSize := default 10%Z pageSize in
  let filteredWhere := addTenantFilter w tenantId in
  let skip := ((page - 1) * pageSize)%Z in
  '(data, total) ← both
    (Model.findMany model (with_options filteredWhere (Some skip) (Some pageSize) options))
    (Model.count model filteredWhere);
  mret (mkPage data (mkPagination total page pageSize (ceil_div total pageSize))).

End BaseRepository.
End BaseRepository.

(** ** repositories/userRepository.js *)

Module UserRepository.
Section UserRepository.
Context `{Env}.

Definition findByEmail (email tenantId : value) : M (option row) :=
  BaseRepository.findOne MUser (Some {["email" := CEq email]}) tenantId no_options.

Definition create (data : object) (tenantId : value) : M row :=
  BaseRepository.create MUser data tenantId.

Definition updatePassword (userId : value) (hashedPassword : string) : M row :=
  Model.update MUser userId {["password" := VStr hashedPassword]}.

Definition findByRole (role tenantId : value) : M (list row) :=
  BaseRepository.findMany MUser (Some {["role" := CEq role]}) tenantId no_options.

Definition findActiveUsers (tenantId : value) : M (list row) :=
  BaseRepository.findMany MUser (Some {["isActive" := CEq (VBool true)]}) tenantId no_options.

(** The loop over [allowedFields] that copies the properties that are not
    [undefined]. *)
Definition pick (allowedFields : list string) (source : object) : object :=
  fold_left
    (fun updateData field =>
       if strict_ne (prop source field) VUndefined
       then <[field := prop source field]> updateData
       else updateData)
    allowedFields ∅.

Definition updateProfile (userId : value) (profileData : object) (tenantId : value) : M row :=
  let allowedFields := ["name"; "email"] in
  let updateData := pick allowedFields profileData in
  BaseRepository.update MUser userId updateData tenantId.

Definition toggleUserStatus (userId isActive tenantId : value) : M row :=
  BaseRepository.update MUser userId {["isActive" := isActive]} tenantId.

Definition countByTenant (tenantId : value) (filters : option Where) : M Z :=
  BaseRepository.count MUser filters tenantId.

End UserRepository.
End UserRepository.

(** ** repositories/todoRepository.js *)

Module TodoRepository.
Section TodoRepository.
Context `{Env}.

Record Statistics := mkStatistics {
  total : Z;
  completed : Z;
  inProgress : Z;
  pending : Z;
  overdue : Z;
  highPriority : Z;
  completionRate : double;
}.

(** [{ ...where, k: c }] *)
Definition and_also (w : option Where) (k : string) (c : cond) : option Where :=
  Some (<[k := c]> (default ∅ w)).

(** [now] is the value of [new Date()], in milliseconds. *)
Definition getStatistics (now : Z) (userId tenantId : value) : M Statistics :=
  let w := BaseRepository.addTenantFilter (Some {["userId" := CEq userId]}) tenantId in
  '(total, completed, inProgress, pending, overdue, highPriority) ←
    both (both (both (both (both
      (BaseRepository.count MTodo w tenantId)
      (BaseRepository.count MTodo
         (and_also w "status" (CEq (VStr "COMPLETED"))) tenantId))
      (BaseRepository.count MTodo
         (and_also w "status" (CEq (VStr "IN_PROGRESS"))) tenantId))
      (BaseRepository.count MTodo
         (and_also w "status" (CEq (VStr "PENDING"))) tenantId))
      (BaseRepository.count MTodo
         (and_also (and_also w "dueDate" (CFilter [OpLt (VNum now)]))
            "status" (CFilter [OpNot (VStr "COMPLETED")])) tenantId))
      (BaseRepository.count MTodo
         (and_also (and_also w "priority" (CFilter [OpIn [VStr "HIGH"; VStr "URGENT"]]))
            "status" (CFilter [OpNot (VStr "COMPLETED")])) tenantId);
  mret (mkStatistics total completed inProgress pending overdue highPriority
          (if (total >? 0)%Z
           then times (divide (number completed) (number total)) (number 100)
           else number 0)).

Definition findById (id tenantId : value) : M (option row) :=
  BaseRepository.findById MTodo id tenantId no_options.

Definition update (id : value) (data : object) (tenantId : value) : M row :=
  BaseRepository.update MTodo id data tenantId.

Definition delete (id tenantId : value) : M row :=
  BaseRepository.delete MTodo id tenantId.

Definition moveToList (todoId newTodoListId tenantId : value) : M row :=
  update todoId {["todoListId" := newTodoListId]} tenantId.

Definition updateStatus (todoId status tenantId : value) : M row :=
  update todoId {["status" := status]} tenantId.

End TodoRepository.
End TodoRepository.

(** ** repositories/tenantRepository.js *)

Module TenantRepository.
Section TenantRepository.
Context `{Env}.

Definition findBySubdomain (subdomain : value) : M (option row) :=
  BaseRepository.findOne MTenant (Some {["subdomain" := CEq subdomain]}) VNull no_options.

Definition findActiveTenants (options : Options) : M (list row) :=
  BaseRepository.findMany MTenant (Some {["isActive" := CEq (VBool true)]}) VNull options.

Definition countWithFilters (filters : object) : M Z :=
  let w : Where :=
    if strict_ne (prop filters "isActive") VUndefined
    then {["isActive" := CEq (prop filters "isActive")]}
    else ∅ in
  BaseRepository.count MTenant (Some w) VNull.

Definition isSubdomainAvailable (subdomain : value) : M bool :=
  existingTenant ← findBySubdomain subdomain;
  mret (match existingTenant with Some _ => false | None => true end).

Definition updateSettings (tenantId : value) (settingsData : object) : M row :=
  let allowedFields := ["primaryColor"; "logoUrl"; "name"] in
  let updateData := UserRepository.pick allowedFields settingsData in
  BaseRepository.update MTenant tenantId updateData VNull.

End TenantRepository.
End TenantRepository.

(** ** utils/validators.js *)

Module Validators.

(** A character of the class [[a-z0-9-]]. *)
Definition subdomain_char (a : ascii) : bool :=
  let n := nat_of_ascii a in
  ((97 <=? n) && (n <=? 122) || (48 <=? n) && (n <=? 57) || (n =? 45))%nat.

(** [/^[a-z0-9-]+$/.test(s)] on a string. *)
Definition subdomainRegex_test (s : string) : bool :=
  negb (bool_decide (s = "")) && forallb subdomain_char (list_ascii_of_string s).

(** [s.endsWith(p)] *)
Definition endsWith (p s : string) : bool :=
  let n := String.length s in
  let m := String.length p in
  (m <=? n)%nat && bool_decide (String.substring (n - m) m s = p).

Definition isValidSubdomain (subdomain : value) : bool :=
  match subdomain with
  | VStr s =>
      (3 <=? String.length s)%nat && (String.length s <=? 63)%nat
      && subdomainRegex_test s
      && negb (startsWith "-" s) && negb (endsWith "-" s)
  | _ => false
  end.

End Validators.

(** ** utils/jwt.js *)

Module Jwt.
Section Jwt.
Context `{Env}.

Definition generateToken (payload : object) (expiresIn : option string) : string :=
  jwt_sign payload (jwt_secret config) (default (jwt_expiresIn config) expiresIn).

(** [jwt.verify(token, secret)]; a token that is not a string is rejected
    with a JsonWebTokenError. *)
Definition verify (token : value) : M object :=
  match token with
  | VStr t =>
      match jwt_verify t (jwt_secret config) with
      | inr decoded => mret decoded
      | inl error => throw error
      end
  | VUndefined | VNull => throw (mkErr JsonWebTokenError "jwt must be provided")
  | _ => throw (mkErr JsonWebTokenError "jwt must be a string")
  end.

Definition verifyToken (token : value) : M object :=
  try_catch (verify token)
    (fun error =>
       if instanceof error TokenExpiredError then throw (mkErr PlainError "Token expired")
       else if instanceof error JsonWebTokenError then throw (mkErr PlainError "Invalid token")
       else throw error).

End Jwt.
End Jwt.

(** ** services/authService.js *)

Module AuthService.
Section AuthService.
Context `{Env}.

(** The names bound by the module's [require('../utils/errors')]. *)
Definition scope : list string :=
  ["ValidationError"; "UnauthorizedError"; "ConflictError"; "NotFoundError"].

(** [bcrypt.hash(s, rounds)] rejects an argument that is not a string. *)
Definition hash (plaintext : value) : M string :=
  match plaintext with
  | VStr s => mret (bcrypt_hash s (bcryptRounds config))
  | _ => throw (mkErr PlainError ("Illegal arguments: " +:+ typeof plaintext +:+ ", number"))
  end.

Record Registered := mkRegistered {
  reg_user : row;
  reg_token : string;
}.

Definition registerUser (userData : object) (tenantId : value) : M Registered :=
  existingUser ← UserRepository.findByEmail (prop userData "email") tenantId;
  match existingUser with
  | Some _ =>
      throw (new_error scope "ConflictError" "Email already registered in this organization")
  | None =>
      hashedPassword ← hash (prop userData "password");
      user ← UserRepository.create
        (<["role" := VStr "USER"]> (<["password" := VStr hashedPassword]> userData)) tenantId;
      let token := Jwt.generateToken
        (<["userId" := column user "id"]>
           (<["tenantId" := column user "tenantId"]> {["role" := column user "role"]}))
        None in
      mret (mkRegistered user token)
  end.

Definition resetPassword (resetToken : value) (newPassword : value) : M bool :=
  try_catch
    (decoded ← Jwt.verifyToken resetToken;
     if strict_ne (prop decoded "purpose") (VStr "password-reset")
     then throw (new_error scope "ValidationError" "Invalid reset token")
     else
       hashedPassword ← hash newPassword;
       _ ← UserRepository.updatePassword (prop decoded "userId") hashedPassword;
       mret true)
    (fun error => throw (new_error scope "ValidationError" "Invalid or expired reset token")).

End AuthService.

Section Sessions.
Context `{Env}.

(** bcryptjs's compare is taken from outside, like its hash. *)
Variable bcrypt_compare : string -> string -> bool.

(** [bcrypt.compare(s, hash)] rejects an argument that is not a string. *)
Definition compare (plaintext digest : value) : M bool :=
  match plaintext, digest with
  | VStr s, VStr h => mret (bcrypt_compare s h)
  | _, _ =>
      throw (mkErr PlainError
               ("Illegal arguments: " +:+ typeof plaintext +:+ ", " +:+ typeof digest))
  end.

(** The payload of an access token. *)
Definition access_payload (user : row) : object :=
  <["userId" := column user "id"]>
    (<["tenantId" := column user "tenantId"]> {["role" := column user "role"]}).

Definition loginUser (email password tenantId : value) : M Registered :=
  user ← UserRepository.findByEmail email tenantId;
  match user with
  | None => throw (new_error scope "UnauthorizedError" "Invalid email or password")
  | Some user =>
      isPasswordValid ← compare password (column user "password");
      if negb isPasswordValid
      then throw (new_error scope "UnauthorizedError" "Invalid email or password")
      else if negb (truthy (column user "isActive"))
      then throw (new_error scope "UnauthorizedError" "Account is deactivated")
      else mret (mkRegistered user (Jwt.generateToken (access_payload user) None))
  end.

Definition getUserProfile (userId tenantId : value) : M row :=
  user ← BaseRepository.findById MUser userId tenantId no_options;
  match user with
  | None => throw (new_error scope "NotFoundError" "User not found")
  | Some user => mret user
  end.

Definition refreshToken (refreshToken : value) : M Registered :=
  try_catch
    (decoded ← Jwt.verifyToken refreshToken;
     user ← BaseRepository.findById MUser (prop decoded "userId") (prop decoded "tenantId")
               no_options;
     match user with
     | None => throw (new_error scope "UnauthorizedError" "Invalid refresh token")
     | Some user =>
         if negb (truthy (column user "isActive"))
         then throw (new_error scope "UnauthorizedError" "Invalid refresh token")
         else mret (mkRegistered user (Jwt.generateToken (access_payload user) None))
     end)
    (fun error =>
       throw (new_error scope "UnauthorizedError" "Invalid or expired refresh token")).

(** The payload of a reset token. *)
Definition reset_payload (user : row) : object :=
  <["userId" := column user "id"]> {["purpose" := VStr "password-reset"]}.

(** Returns the reset token, or [undefined] when the email is unknown. *)
Definition requestPasswordReset (email tenantId : value) : M (option string) :=
  user ← UserRepository.findByEmail email tenantId;
  match user with
  | None => mret None
  | Some user => mret (Some (Jwt.generateToken (reset_payload user) (Some "1h")))
  end.

End Sessions.
End AuthService.

(** ** services/todoService.js *)

Module TodoService.
Section TodoService.
Context `{Env}.

(** The names bound by the module's [require('../utils/errors')]:
    [const { ValidationError, NotFoundError } = require('../utils/errors')]. *)
Definition scope : list string := ["ValidationError"; "NotFoundError"].

Definition getTodoById (todoId userId tenantId : value) : M row :=
  todo ← TodoRepository.findById todoId tenantId;
  match todo with
  | None => throw (new_error scope "NotFoundError" "Todo not found")
  | Some todo =>
      if strict_ne (column todo "userId") userId
      then throw (new_error scope "ForbiddenError" "Not authorized to access this todo")
      else mret todo
  end.

(** The white space and line terminators that [trim] strips.  Of one
    byte: space, tab, line feed, vertical tab, form feed and carriage
    return. *)
Definition is_space (a : ascii) : bool :=
  bool_decide (a ∈ [" "; "009"; "010"; "011"; "012"; "013"]%char).

(** Of two bytes: U+00A0, the no-break space. *)
Definition wide_space2 (a b : ascii) : bool :=
  ((nat_of_ascii a =? 194) && (nat_of_ascii b =? 160))%nat.

(** Of three bytes: U+1680, U+2000 to U+200A, U+2028, U+2029, U+202F,
    U+205F, U+3000 and U+FEFF. *)
Definition wide_space3 (a b c : ascii) : bool :=
  let x := nat_of_ascii a in
  let y := nat_of_ascii b in
  let z := nat_of_ascii c in
  ((x =? 225) && (y =? 154) && (z =? 128)
   || (x =? 226) && (y =? 128)
      && ((128 <=? z) && (z <=? 138) || (z =? 168) || (z =? 169) || (z =? 175))
   || (x =? 226) && (y =? 129) && (z =? 159)
   || (x =? 227) && (y =? 128) && (z =? 128)
   || (x =? 239) && (y =? 187) && (z =? 191))%nat.

(** Strip the white space a string starts with; with [backwards] the
    string is one read from its end, whose characters come with their
    bytes in reverse. *)
Fixpoint trim_start (backwards : bool) (s : string) : string :=
  match s with
  | String a rest1 =>
      if is_space a then trim_start backwards rest1
      else
        match rest1 with
        | String b rest2 =>
            if (if backwards then wide_space2 b a else wide_space2 a b)
            then trim_start backwards rest2
            else
              match rest2 with
              | String c rest3 =>
                  if (if backwards then wide_space3 c b a else wide_space3 a b c)
                  then trim_start backwards rest3
                  else s
              | EmptyString => s
              end
        | EmptyString => s
        end
  | EmptyString => s
  end.

(** [s.trim()] *)
Definition trim (s : string) : string :=
  String.rev (trim_start true (String.rev (trim_start false s))).

(** [!title || title.trim().length === 0]; [trim] exists on strings only. *)
Definition blank_title (title : value) : M bool :=
  if negb (truthy title) then mret true
  else
    match title with
    | VStr s => mret (bool_decide (utf16_length (trim s) = 0))
    | _ => throw (mkErr TypeError "updateData.title.trim is not a function")
    end.

Definition updateTodo (todoId : value) (updateData : object) (userId tenantId : value) : M row :=
  todo ← getTodoById todoId userId tenantId;
  blank ←
    (if strict_ne (prop updateData "title") VUndefined
     then blank_title (prop updateData "title")
     else mret false);
  if (blank : bool) then throw (new_error scope "ValidationError" "Title cannot be empty")
  else
    let updateData :=
      if truthy (prop updateData "dueDate")
      then <["dueDate" := new_Date (prop updateData "dueDate")]> updateData
      else updateData in
    TodoRepository.update todoId updateData tenantId.

Definition deleteTodo (todoId userId tenantId : value) : M row :=
  _ ← getTodoById todoId userId tenantId;
  TodoRepository.delete todoId tenantId.

Definition updateTodoStatus (todoId status userId tenantId : value) : M row :=
  let validStatuses := [VStr "PENDING"; VStr "IN_PROGRESS"; VStr "COMPLETED"; VStr "CANCELLED"] in
  if negb (bool_decide (status ∈ validStatuses))
  then throw (new_error scope "ValidationError"
                "Invalid status. Must be one of: PENDING, IN_PROGRESS, COMPLETED, CANCELLED")
  else
    _ ← getTodoById todoId userId tenantId;
    TodoRepository.updateStatus todoId status tenantId.

Definition moveTodoToList (todoId newTodoListId userId tenantId : value) : M row :=
  _ ← getTodoById todoId userId tenantId;
  TodoRepository.moveToList todoId newTodoListId tenantId.

End TodoService.

Section Creation.
Context `{Env}.

(** [isNaN(new Date(v).getTime())], taken from outside. *)
Variable invalid_date : value -> bool.

(** [v.length > n]; a value that is not a string has no length, and the
    comparison with [undefined] is false. *)
Definition longer_than (n : nat) (v : value) : bool :=
  match v with
  | VStr s => bool_decide (n < utf16_length s)
  | _ => false
  end.

(** [!title || title.trim().length === 0]; [trim] exists on strings only. *)
Definition title_missing (title : value) : M bool :=
  if negb (truthy title) then mret true
  else
    match title with
    | VStr s => mret (bool_decide (utf16_length (trim s) = 0))
    | _ => throw (mkErr TypeError "todoData.title.trim is not a function")
    end.

Definition validateTodoData (todoData : object) : M unit :=
  missing ← title_missing (prop todoData "title");
  if (missing : bool) then throw (new_error scope "ValidationError" "Title is required")
  else if longer_than 255 (prop todoData "title")
  then throw (new_error scope "ValidationError" "Title cannot exceed 255 characters")
  else if truthy (prop todoData "description") && longer_than 1000 (prop todoData "description")
  then throw (new_error scope "ValidationError" "Description cannot exceed 1000 characters")
  else
    let validPriorities := [VStr "LOW"; VStr "MEDIUM"; VStr "HIGH"; VStr "URGENT"] in
    if truthy (prop todoData "priority")
       && negb (bool_decide (prop todoData "priority" ∈ validPriorities))
    then throw (new_error scope "ValidationError"
                  "Invalid priority. Must be one of: LOW, MEDIUM, HIGH, URGENT")
    else if truthy (prop todoData "dueDate") && invalid_date (prop todoData "dueDate")
    then throw (new_error scope "ValidationError" "Invalid due date")
    else mret tt.

(** [a || b] *)
Definition or_else (a b : value) : value := if truthy a then a else b.

Definition createTodo (todoData : object) (userId tenantId : value) : M row :=
  _ ← validateTodoData todoData;
  let todo :=
    <["priority" := or_else (prop todoData "priority") (VStr "MEDIUM")]>
      (<["status" := or_else (prop todoData "status") (VStr "PENDING")]>
         (<["userId" := userId]> todoData)) in
  let todo :=
    if truthy (prop todo "dueDate")
    then <["dueDate" := new_Date (prop todo "dueDate")]> todo
    else todo in
  BaseRepository.create MTodo todo tenantId.

End Creation.
End TodoService.

(** ** services/tenantService.js *)

Module TenantService.
Section TenantService.
Context `{Env}.

Definition scope : list string := ["ValidationError"; "NotFoundError"; "ConflictError"].

(** [/^[a-z0-9-]+$/.test(v)]: [test] turns its argument into a string
    first, so that [undefined], [null], the booleans and the integers
    below 10^21, whose strings are lowercase letters, digits and a minus
    sign, pass. *)
Definition subdomain_format (v : value) : bool :=
  match v with
  | VStr s => Validators.subdomainRegex_test s
  | VNum n => bool_decide (Z.abs n < 10 ^ 21)%Z
  | _ => true
  end.

Definition createTenant (tenantData : object) : M row :=
  if negb (subdomain_format (prop tenantData "subdomain"))
  then throw (new_error scope "ValidationError"
                "Subdomain can only contain lowercase letters, numbers and hyphens")
  else
    existingTenant ← TenantRepository.findBySubdomain (prop tenantData "subdomain");
    match existingTenant with
    | Some _ => throw (new_error scope "ConflictError" "Subdomain already exists")
    | None => BaseRepository.create MTenant tenantData VUndefined
    end.

Definition getTenantById (id : value) : M row :=
  tenant ← BaseRepository.findById MTenant id VUndefined no_options;
  match tenant with
  | None => throw (new_error scope "NotFoundError" "Tenant not found")
  | Some tenant => mret tenant
  end.

Definition updateTenant (id : value) (updateData : object) : M row :=
  _ ←
    (if truthy (prop updateData "subdomain") then
       existingTenant ← TenantRepository.findBySubdomain (prop updateData "subdomain");
       match existingTenant with
       | Some existingTenant =>
           if strict_ne (column existingTenant "id") id
           then throw (new_error scope "ConflictError" "Subdomain already exists")
           else mret tt
       | None => mret tt
       end
     else mret tt);
  BaseRepository.update MTenant id updateData VUndefined.

Definition updateTenantStatus (id isActive : value) : M row :=
  _ ← getTenantById id;
  BaseRepository.update MTenant id {["isActive" := isActive]} VUndefined.

Definition checkSubdomainAvailability (subdomain : value) : M bool :=
  if negb (subdomain_format subdomain)
  then throw (new_error scope "ValidationError" "Invalid subdomain format")
  else
    existingTenant ← TenantRepository.findBySubdomain subdomain;
    mret (match existingTenant with Some _ => false | None => true end).

End TenantService.
End TenantService.

(** ** Requests and responses *)

Record Request := mkRequest {
  hostname : string;
  authorization : value;      (* req.headers.authorization *)
  params : object;
  body : object;
  isMainDomain : value;
  tenant : option row;
  tenantId : value;
  user : option row;
  userId : value;
}.

Record Response := mkResponse {
  status : Z;
  json : object;
}.

(** A middleware either passes the request on or answers it; [req] is
    mutated in place, so the request comes back in both cases. *)
Inductive Action :=
| Next
| Respond (res : Response).

Definition error_body (error message : string) : object :=
  {["error" := VStr error; "message" := VStr message]}.

(** [error.name], which [BaseError] sets to the constructor's name. *)
Definition error_name (c : ErrClass) : string :=
  match c with
  | PlainError => "Error"
  | ReferenceError => "ReferenceError"
  | TypeError => "TypeError"
  | BaseError => "BaseError"
  | ValidationError => "ValidationError"
  | NotFoundError => "NotFoundError"
  | UnauthorizedError => "UnauthorizedError"
  | ForbiddenError => "ForbiddenError"
  | ConflictError => "ConflictError"
  | TenantNotFoundError => "TenantNotFoundError"
  | RateLimitError => "RateLimitError"
  | ServiceUnavailableError => "ServiceUnavailableError"
  | BadRequestError => "BadRequestError"
  | JsonWebTokenError => "JsonWebTokenError"
  | TokenExpiredError => "TokenExpiredError"
  | PrismaClientKnownRequestError _ => "PrismaClientKnownRequestError"
  | PrismaClientValidationError => "PrismaClientValidationError"
  | OtherError name => name
  end.

(** ** utils/errors.js: the handler registered last in app.js *)

Module ErrorHandler.

(** [err.code], which the store's request errors carry. *)
Definition code (c : ErrClass) : value :=
  match c with
  | PrismaClientKnownRequestError code => VStr code
  | _ => VUndefined
  end.

Definition errorHandler (err : Err) : Response :=
  if instanceof err BaseError then
    mkResponse (default 500%Z (statusCode (cls err)))
      (error_body (error_name (cls err)) (message err))
  else if bool_decide (error_name (cls err) = "PrismaClientKnownRequestError")
          && strict_eq (code (cls err)) (VStr "P2002") then
    mkResponse 409 (error_body "ConflictError" "Record with unique constraint already exists")
  else if bool_decide (error_name (cls err) = "PrismaClientKnownRequestError")
          && strict_eq (code (cls err)) (VStr "P2025") then
    mkResponse 404 (error_body "NotFoundError" "Record not found")
  else if bool_decide (error_name (cls err) = "ValidationError") then
    mkResponse 400 (error_body "ValidationError" (message err))
  else
    mkResponse 500 (error_body "InternalServerError" "An unexpected error occurred").

End ErrorHandler.

(** ** middleware/tenant.js *)

Module TenantMiddleware.
Section TenantMiddleware.
Context `{Env}.

Definition scope : list string := ["TenantNotFoundError"].

Definition tenant_select : option (list string) :=
  Some ["id"; "name"; "subdomain"; "primaryColor"; "logoUrl"].

Definition with_tenant (req : Request) (t : row) (main : bool) : Request :=
  mkRequest (hostname req) (authorization req) (params req) (body req)
    (VBool main) (Some t) (column t "id") (user req) (userId req).

Definition mark_main (req : Request) : Request :=
  mkRequest (hostname req) (authorization req) (params req) (body req)
    (VBool true) (tenant req) (tenantId req) (user req) (userId req).

(** [hostname === config.domain.main || hostname.includes('localhost')] *)
Definition on_main_domain (host : string) : bool :=
  bool_decide (host = domain_main config) || includes "localhost" host.

(** [hostname.split('.')[0]] *)
Definition subdomain_of (host : string) : string :=
  default "" (head (split "."%char host)).

Definition tenantMiddleware (req : Request) : M (Request * Action) :=
  try_catch
    (let hostname := hostname req in
     if on_main_domain hostname then
       found ←
         (if bool_decide (nodeEnv config = "development") then
            try_catch
              (Model.findFirst MTenant
                 (mkFindArgs (Some {["isActive" := CEq (VBool true)]}) None None
                    (mkOptions (Some ("createdAt", Asc)) tenant_select None None None)))
              (fun err => mret None)
          else mret None);
       match found with
       | Some defaultTenant => mret (with_tenant req defaultTenant true, Next)
       | None => mret (mark_main req, Next)
       end
     else
       let subdomain := subdomain_of hostname in
       tenant ← Model.findUnique MTenant
         (mkFindArgs
            (Some {["subdomain" := CEq (VStr subdomain); "isActive" := CEq (VBool true)]})
            None None (mkOptions None tenant_select None None None));
       match tenant with
       | None =>
           throw (new_error scope "TenantNotFoundError"
                    ("Tenant with subdomain '" +:+ subdomain +:+ "' not found"))
       | Some tenant => mret (with_tenant req tenant false, Next)
       end)
    (fun error =>
       if instanceof error TenantNotFoundError
       then mret (req, Respond (mkResponse 404 (error_body "Tenant not found" (message error))))
       else mret (req, Respond (mkResponse 500
                    (error_body "Internal server error" "Unable to identify tenant")))).

(** [requireTenant]; [path] is [req.path]. *)
Definition requireTenant (path : string) (req : Request) : Request * Action :=
  if negb (truthy (tenantId req)) then
    if bool_decide (nodeEnv config = "development") && includes "/auth/register" path
    then (req, Next)
    else (req, Respond (mkResponse 403
            (error_body "Tenant required" "This operation requires a valid tenant context")))
  else (req, Next).

End TenantMiddleware.
End TenantMiddleware.

(** ** middleware/auth.js *)

Module AuthMiddleware.
Section AuthMiddleware.
Context `{Env}.

Definition scope : list string := ["UnauthorizedError"; "ForbiddenError"].

Definition user_select : option (list string) :=
  Some ["id"; "email"; "name"; "role"; "tenantId"].

Definition with_user (req : Request) (u : row) : Request :=
  mkRequest (hostname req) (authorization req) (params req) (body req)
    (isMainDomain req) (tenant req) (tenantId req) (Some u) (column u "id").

(** [a[i]] on the result of [split]. *)
Definition at_index (l : list string) (i : nat) : value :=
  match l !! i with
  | Some s => VStr s
  | None => VUndefined
  end.

Definition authMiddleware (req : Request) : M (Request * Action) :=
  try_catch
    (match authorization req with
     | VStr authHeader =>
         if negb (startsWith "Bearer " authHeader)
         then throw (new_error scope "UnauthorizedError" "No token provided")
         else
           let token := at_index (split " "%char authHeader) 1 in
           decoded ← Jwt.verify token;
           user ← Model.findFirst MUser
             (mkFindArgs
                (Some {["id" := CEq (prop decoded "userId"); "isActive" := CEq (VBool true)]})
                None None (mkOptions None user_select None None None));
           match user with
           | None => throw (new_error scope "UnauthorizedError" "User not found or inactive")
           | Some user =>
               if negb (truthy (isMainDomain req))
                  && strict_ne (column user "tenantId") (tenantId req)
               then throw (new_error scope "ForbiddenError" "User does not belong to this tenant")
               else mret (with_user req user, Next)
           end
     | _ => throw (new_error scope "UnauthorizedError" "No token provided")
     end)
    (fun error =>
       if instanceof error JsonWebTokenError then
         mret (req, Respond (mkResponse 401
                 (error_body "Invalid token" "The provided token is invalid")))
       else if instanceof error TokenExpiredError then
         mret (req, Respond (mkResponse 401
                 (error_body "Token expired" "The provided token has expired")))
       else if instanceof error UnauthorizedError || instanceof error ForbiddenError then
         mret (req, Respond (mkResponse (if instanceof error UnauthorizedError then 401 else 403)
                 (error_body (error_name (cls error)) (message error))))
       else
         mret (req, Respond (mkResponse 500
                 (error_body "Internal server error" "Authentication failed")))).

(** [requireRole(roles)], the role gate placed after [authMiddleware]. *)
Definition requireRole (roles : list value) (req : Request) : Request * Action :=
  match user req with
  | None =>
      (req, Respond (mkResponse 401 (error_body "Unauthorized" "Authentication required")))
  | Some u =>
      if negb (bool_decide (column u "role" ∈ roles))
      then (req, Respond (mkResponse 403 (error_body "Forbidden" "Insufficient permissions")))
      else (req, Next)
  end.

Definition optionalAuth (req : Request) : M (Request * Action) :=
  try_catch
    (match authorization req with
     | VStr authHeader =>
         if negb (startsWith "Bearer " authHeader)
         then mret (req, Next)
         else
           let token := at_index (split " "%char authHeader) 1 in
           decoded ← Jwt.verify token;
           user ← Model.findFirst MUser
             (mkFindArgs
                (Some {["id" := CEq (prop decoded "userId"); "isActive" := CEq (VBool true)]})
                None None (mkOptions None user_select None None None));
           match user with
           | Some user => mret (with_user req user, Next)
           | None => mret (req, Next)
           end
     | _ => mret (req, Next)
     end)
    (fun error => mret (req, Next)).

End AuthMiddleware.
End AuthMiddleware.

(** ** controllers/authController.js *)

Module AuthController.
Section AuthController.
Context `{Env}.

Definition scope : list string := ["ValidationError"; "UnauthorizedError"; "ConflictError"].

Definition handleError (error : Err) : Response :=
  if instanceof error ValidationError then
    mkResponse 400 (error_body "Validation Error" (message error))
  else if instanceof error UnauthorizedError then
    mkResponse 401 (error_body "Unauthorized" (message error))
  else if instanceof error ConflictError then
    mkResponse 409 (error_body "Conflict" (message error))
  else
    mkResponse 500 (error_body "Internal Server Error" "An unexpected error occurred").

Definition resetPassword (req : Request) : M Response :=
  try_catch
    (let token := prop (params req) "token" in
     let password := prop (body req) "password" in
     if negb (truthy password)
     then throw (new_error scope "ValidationError" "New password is required")
     else
       _ ← AuthService.resetPassword token password;
       mret (mkResponse 200 {["message" := VStr "Password reset successful"]}))
    (fun error => mret (handleError error)).

Definition forgotPassword (req : Request) : M Response :=
  try_catch
    (let email := prop (body req) "email" in
     let tenantId := tenantId req in
     _ ← AuthService.requestPasswordReset email tenantId;
     mret (mkResponse 200 {["message" := VStr "Password reset instructions sent to email"]}))
    (fun error => mret (handleError error)).

End AuthController.
End AuthController.

(** ** controllers/todoController.js *)

Module TodoController.

Definition scope : list string := ["ValidationError"; "NotFoundError"; "ForbiddenError"].

Definition handleError (error : Err) : Response :=
  if instanceof error ValidationError then
    mkResponse 400 (error_body "Validation Error" (message error))
  else if instanceof error NotFoundError then
    mkResponse 404 (error_body "Not Found" (message error))
  else if instanceof error ForbiddenError then
    mkResponse 403 (error_body "Forbidden" (message error))
  else
    mkResponse 500 (error_body "Internal Server Error" "An unexpected error occurred").

End TodoController.

(** ** app.js, routes/todo.js and routes/tenant.js: the order of the middleware *)

Module Routes.
Section Routes.
Context `{Env}.

Abbreviation Middleware := (Request -> M (Request * Action)).

(** [app.use(first); app.use(second)]: the second middleware runs on the
    request the first one passed on, and not at all once it has answered. *)
Definition and_then (first second : Middleware) : Middleware := fun req =>
  '(req', action) ← first req;
  match action with
  | Next => second req'
  | Respond res => mret (req', Respond res)
  end.

(** A middleware that does no input or output. *)
Definition sync (f : Request -> Request * Action) : Middleware := fun req => mret (f req).

(** The first middleware of routes/tenant.js. *)
Definition mainDomainOnly (req : Request) : Request * Action :=
  if negb (truthy (isMainDomain req))
  then (req, Respond (mkResponse 403
          (error_body "Forbidden" "Tenant management is only available on the main domain")))
  else (req, Next).

(** What runs before every handler of routes/todo.js: app.js installs
    [tenantMiddleware], the router [authMiddleware] and [requireTenant]. *)
Definition todoRoutes (path : string) : Middleware :=
  and_then TenantMiddleware.tenantMiddleware
    (and_then AuthMiddleware.authMiddleware
       (sync (TenantMiddleware.requireTenant path))).

(** What runs before every handler of routes/tenant.js. *)
Definition tenantRoutes : Middleware :=
  and_then TenantMiddleware.tenantMiddleware
    (and_then (sync mainDomainOnly)
       (and_then AuthMiddleware.authMiddleware
          (sync (AuthMiddleware.requireRole [VStr "ADMIN"])))).

End Routes.
End Routes.

(** ** A concrete deployment, for the examples

    Two tenants, [acme] and [other]; Alice and Bob belong to [acme], Carol
    to [other]; each todo belongs to the user and tenant its row names. *)

Module Sample.

Definition sample_config : Config := mkConfig "production" "s3cret" "24h" "meuapp.com" 10.

Definition sample_verify (token secret : string) : Err + object :=
  if bool_decide (secret = "s3cret") then
    if bool_decide (token = "alice-access") then
      inr {["userId" := VStr "u1"; "tenantId" := VStr "t-acme"; "role" := VStr "USER"]}
    else if bool_decide (token = "alice-reset") then
      inr {["userId" := VStr "u1"; "purpose" := VStr "password-reset"]}
    else if bool_decide (token = "stale") then
      inl (mkErr TokenExpiredError "jwt expired")
    else inl (mkErr JsonWebTokenError "invalid signature")
  else inl (mkErr JsonWebTokenError "invalid signature").

Definition sample_env : Env :=
  mkEnv sample_config sample_verify
    (fun payload secret expiresIn => "signed")
    (fun v => v)
    (fun plaintext rounds => "$2a$" +:+ plaintext)
    (fun ob rows => rows)
    (fun m n => modelName m +:+ "-" +:+ pretty n)
    (fun m =>
       match m with
       | MUser => {["isActive" := VBool true; "role" := VStr "USER"]}
       | MTodo => {["status" := VStr "PENDING"; "priority" := VStr "MEDIUM"]}
       | MTenant => {["isActive" := VBool true]}
       end).

Definition acme : row :=
  {["id" := VStr "t-acme"; "name" := VStr "Acme"; "subdomain" := VStr "acme";
    "isActive" := VBool true]}.

Definition other : row :=
  {["id" := VStr "t-other"; "name" := VStr "Other"; "subdomain" := VStr "other";
    "isActive" := VBool true]}.

Definition closed_shop : row :=
  {["id" := VStr "t-closed"; "name" := VStr "Closed"; "subdomain" := VStr "closed";
    "isActive" := VBool false]}.

Definition mk_user (id email tenantId : string) : row :=
  {["id" := VStr id; "email" := VStr email; "name" := VStr id;
    "password" := VStr "$2a$old"; "role" := VStr "USER";
    "tenantId" := VStr tenantId; "isActive" := VBool true]}.

Definition alice : row := mk_user "u1" "alice@x.com" "t-acme".
Definition bob : row := mk_user "u2" "bob@x.com" "t-acme".
Definition carol : row := mk_user "u3" "carol@x.com" "t-other".

Definition mk_todo (id title status userId tenantId : string) : row :=
  {["id" := VStr id; "title" := VStr title; "status" := VStr status;
    "priority" := VStr "MEDIUM"; "userId" := VStr userId; "tenantId" := VStr tenantId]}.

Definition sample_db : DB :=
  mkDB [alice; bob; carol]
       [mk_todo "d1" "write" "PENDING" "u1" "t-acme";
        mk_todo "d2" "review" "COMPLETED" "u1" "t-acme";
        mk_todo "d3" "ship" "PENDING" "u2" "t-acme";
        mk_todo "d4" "plan" "IN_PROGRESS" "u3" "t-other";
        mk_todo "d5" "drop" "CANCELLED" "u1" "t-acme"]
       [acme; other; closed_shop]
       0.

(** The same deployment before Carol wrote her todo d4. *)
Definition db_without_d4 : DB :=
  mkDB [alice; bob; carol]
       [mk_todo "d1" "write" "PENDING" "u1" "t-acme";
        mk_todo "d2" "review" "COMPLETED" "u1" "t-acme";
        mk_todo "d3" "ship" "PENDING" "u2" "t-acme";
        mk_todo "d5" "drop" "CANCELLED" "u1" "t-acme"]
       [acme; other; closed_shop]
       0.

(** A request as it arrives, before any middleware has run. *)
Definition request_to (host : string) (auth : value) : Request :=
  mkRequest host auth ∅ ∅ VUndefined None VUndefined None VUndefined.

(** Alice's access token presented on the other tenant's subdomain, after
    the tenant resolver has run. *)
Definition alice_at_other : Request :=
  mkRequest "other.meuapp.com" (VStr "Bearer alice-access") ∅ ∅
    (VBool false) (Some other) (VStr "t-other") None VUndefined.

(** Alice's row as the access guard selects it. *)
Definition alice_as_read : row :=
  {["id" := VStr "u1"; "email" := VStr "alice@x.com"; "name" := VStr "u1";
    "role" := VStr "USER"; "tenantId" := VStr "t-acme"]}.

(** The same deployment run in development on localhost. *)
Definition dev_config : Config := mkConfig "development" "s3cret" "24h" "localhost:3000" 10.

Definition dev_env : Env :=
  mkEnv dev_config sample_verify
    (fun payload secret expiresIn => "signed")
    (fun v => v)
    (fun plaintext rounds => "$2a$" +:+ plaintext)
    (fun ob rows => rows)
    (fun m n => modelName m +:+ "-" +:+ pretty n)
    (fun m =>
       match m with
       | MUser => {["isActive" := VBool true; "role" := VStr "USER"]}
       | MTodo => {["status" := VStr "PENDING"; "priority" := VStr "MEDIUM"]}
       | MTenant => {["isActive" := VBool true]}
       end).

(** The operator of the platform, an administrator. *)
Definition root : row :=
  {["id" := VStr "u0"; "email" := VStr "root@meuapp.com"; "name" := VStr "u0";
    "password" := VStr "$2a$old"; "role" := VStr "ADMIN";
    "tenantId" := VStr "t-acme"; "isActive" := VBool true]}.

(** Root's row as the access guard selects it. *)
Definition root_as_read : row :=
  {["id" := VStr "u0"; "email" := VStr "root@meuapp.com"; "name" := VStr "u0";
    "role" := VStr "ADMIN"; "tenantId" := VStr "t-acme"]}.

(** A signer and a verifier that agree on Alice's and root's tokens. *)
Definition office_sign (payload : object) (secret expiresIn : string) : string :=
  if bool_decide (payload !! "userId" = Some (VStr "u1")) then
    if bool_decide (payload !! "purpose" = Some (VStr "password-reset"))
    then "alice-reset" else "alice-access"
  else if bool_decide (payload !! "userId" = Some (VStr "u0")) then "root-access"
  else "signed".

Definition office_verify (token secret : string) : Err + object :=
  if bool_decide (secret = "s3cret") && bool_decide (token = "root-access") then
    inr {["userId" := VStr "u0"; "tenantId" := VStr "t-acme"; "role" := VStr "ADMIN"]}
  else sample_verify token secret.

Definition office_env : Env :=
  mkEnv sample_config office_verify office_sign
    (fun v => v)
    (fun plaintext rounds => "$2a$" +:+ plaintext)
    (fun ob rows => rows)
    (fun m n => modelName m +:+ "-" +:+ pretty n)
    (fun m =>
       match m with
       | MUser => {["isActive" := VBool true; "role" := VStr "USER"]}
       | MTodo => {["status" := VStr "PENDING"; "priority" := VStr "MEDIUM"]}
       | MTenant => {["isActive" := VBool true]}
       end).

(** The sample deployment with root among its users. *)
Definition office_db : DB :=
  mkDB [root; alice; bob; carol] (todos sample_db) (tenants sample_db) 0.

(** A comparison that agrees with the sample hash. *)
Definition sample_compare (plaintext digest : string) : bool :=
  bool_decide (digest = "$2a$" +:+ plaintext).

(** A date check that rejects one string. *)
Definition sample_invalid_date (v : value) : bool := bool_decide (v = VStr "someday").

End Sample.

(** ** Vocabulary of the specification *)

Module Spec.

(** The caller's predicate augmented with [tenantId = t]. *)
Definition scoped (w : option Where) (t : value) : option Where :=
  Some (<["tenantId" := CEq t]> (default ∅ w)).

(** The rows of a table that a predicate selects, in storage order. *)
Definition selected (w : option Where) (t : list row) : list row :=
  filter (fun r => matches w r = true) t.

(** A row with the given id that belongs to the given tenant. *)
Definition owned_by (id tenantId : value) (r : row) : Prop :=
  column r "id" = id ∧ column r "tenantId" = tenantId.

(** The store orders rows without adding or losing any. *)
Definition ordering_is_permutation `{Env} : Prop :=
  ∀ ob (l : list row), order_rows ob l ≡ₚ l.

(** An options object that carries none of the keys the repositories set
    themselves; the default [{}] is one. *)
Definition plain_options (o : Options) : Prop :=
  where_ o = None ∧ skip_ o = None ∧ take_ o = None.

(** The rows in the order an options object asks for. *)
Definition listed `{Env} (o : Options) (l : list row) : list row :=
  match orderBy o with
  | Some ob => order_rows ob l
  | None => l
  end.

(** The lookup the access guard makes for the user a token names. *)
Definition active_user_lookup (decoded : object) : FindArgs :=
  mkFindArgs
    (Some {["id" := CEq (prop decoded "userId"); "isActive" := CEq (VBool true)]})
    None None (mkOptions None AuthMiddleware.user_select None None None).

(** The request carries a bearer credential that verifies and names a
    user the store finds active; [u] is that user as the guard reads it. *)
Definition authenticates `{Env} (req : Request) (d : DB) (u : row) : Prop :=
  ∃ header token decoded,
    authorization req = VStr header
    ∧ startsWith "Bearer " header = true
    ∧ split " "%char header !! 1%nat = Some token
    ∧ jwt_verify token (jwt_secret config) = inr decoded
    ∧ head (Model.find_rows (active_user_lookup decoded) (users d)) = Some u.

(** The lookup the tenant resolver makes for a subdomain. *)
Definition active_tenant_lookup (subdomain : string) : FindArgs :=
  mkFindArgs
    (Some {["subdomain" := CEq (VStr subdomain); "isActive" := CEq (VBool true)]})
    None None (mkOptions None TenantMiddleware.tenant_select None None None).

(** An active tenant registered under a subdomain. *)
Definition active_tenant (subdomain : string) (t : row) : Prop :=
  column t "subdomain" = VStr subdomain ∧ column t "isActive" = VBool true.

(** [label] is the part of [host] before its first dot, or all of it. *)
Definition leftmost_label (label host : string) : Prop :=
  ("."%char ∉ list_ascii_of_string label)
  ∧ (host = label ∨ ∃ rest, host = label +:+ String "."%char rest).

(** The statuses a todo can have. *)
Definition statuses : list value :=
  [VStr "PENDING"; VStr "IN_PROGRESS"; VStr "COMPLETED"; VStr "CANCELLED"].

(** The number of rows of a table a predicate selects. *)
Definition tally (w : option Where) (t : list row) : Z :=
  Z.of_nat (length (selected w t)).

(** The todos of one user under a tenant id, as the statistics select
    them, and those among them with a given status. *)
Definition todos_of (userId tenantId : value) : option Where :=
  BaseRepository.addTenantFilter (Some {["userId" := CEq userId]}) tenantId.


(** A user row registered under an email within a tenant. *)
Definition registered (email : string) (tenantId : value) (r : row) : Prop :=
  column r "email" = VStr email ∧ column r "tenantId" = tenantId.

(** The lookup the tenant resolver makes for a default tenant. *)
Definition default_tenant_lookup : FindArgs :=
  mkFindArgs (Some {["isActive" := CEq (VBool true)]}) None None
    (mkOptions (Some ("createdAt", Asc)) TenantMiddleware.tenant_select None None None).

(** A request on which no middleware has run yet. *)
Definition fresh (req : Request) : Prop :=
  isMainDomain req = VUndefined ∧ tenant req = None ∧ tenantId req = VUndefined
  ∧ user req = None ∧ userId req = VUndefined.

(** jsonwebtoken rejects a token with a JsonWebTokenError or one of its
    subclasses only. *)
Definition verify_throws_jwt_errors `{Env} : Prop :=
  ∀ token secret e, jwt_verify token secret = inl e → instanceof e JsonWebTokenError = true.

(** The data array of one page, empty when the call fails. *)
Definition page_data `{Env} (m : ModelName) (w : option Where) (t : value)
    (pageSize : Z) (o : Options) (d : DB) (page : Z) : list row :=
  match outcome (BaseRepository.findPaginated m w t (Some page) (Some pageSize) o) d with
  | Ok pg => BaseRepository.data pg
  | Throw _ => []
  end.

(** The predicates of the two other statistics queries. *)
Definition overdue_todos (now : Z) (userId tenantId : value) : option Where :=
  TodoRepository.and_also
    (TodoRepository.and_also (todos_of userId tenantId) "dueDate" (CFilter [OpLt (VNum now)]))
    "status" (CFilter [OpNot (VStr "COMPLETED")]).

Definition pressing_todos (userId tenantId : value) : option Where :=
  TodoRepository.and_also
    (TodoRepository.and_also (todos_of userId tenantId) "priority"
       (CFilter [OpIn [VStr "HIGH"; VStr "URGENT"]]))
    "status" (CFilter [OpNot (VStr "COMPLETED")]).

(** The first row of a table registered under an email within a tenant. *)
Definition first_registered (email : string) (tenantId : value) (l : list row) (u : row) : Prop :=
  ∃ pre post,
    l = (pre ++ u :: post)%list
    ∧ registered email tenantId u
    ∧ ∀ r, r ∈ pre → ¬ registered email tenantId r.

(** The one lookup by email within a tenant. *)
Definition email_lookup (email : string) (tenantId : value) : StoreCall :=
  CallFindFirst MUser
    (mkFindArgs (scoped (Some {["email" := CEq (VStr email)]}) tenantId) None None no_options).

End Spec.
Import Spec.

(** * Properties *)

(** ** How the model delegates run *)

Section StoreFacts.
Context `{Env}.

Lemma findFirst_run (m : ModelName) (a : FindArgs) (w : World) :
  Model.findFirst m a w
  = (Ok (head (Model.find_rows a (table m (db w)))),
     mkWorld (db w) (calls w ++ [CallFindFirst m a])).
Proof. reflexivity. Qed.

Lemma findUnique_run (m : ModelName) (a : FindArgs) (w : World) :
  Model.findUnique m a w
  = (Ok (head (Model.find_rows a (table m (db w)))),
     mkWorld (db w) (calls w ++ [CallFindUnique m a])).
Proof. reflexivity. Qed.

Lemma count_run (m : ModelName) (q : option Where) (w : World) :
  Model.count m q w
  = (Ok (Z.of_nat (length (selected q (table m (db w))))),
     mkWorld (db w) (calls w ++ [CallCount m q])).
Proof. reflexivity. Qed.

(** Without options a find returns the selected rows as they are. *)
Lemma find_rows_plain (q : option Where) (t : list row) :
  Model.find_rows (mkFindArgs q None None no_options) t = selected q t.
Proof.
  unfold Model.find_rows, Model.select_rows, selected. simpl.
  apply list_fmap_id.
Qed.

(** With a [select] and nothing else, a find projects the selected rows. *)
Lemma find_rows_select (q : option Where) (sel : option (list string)) (t : list row) :
  Model.find_rows (mkFindArgs q None None (mkOptions None sel None None None)) t
  = project sel <$> selected q t.
Proof. reflexivity. Qed.

(** Spreading plain options leaves the repository's own keys in place. *)
Lemma with_options_plain (q : option Where) (skip take : option Z) (o : Options) :
  plain_options o → with_options q skip take o = mkFindArgs q skip take o.
Proof. intros (Hw & Hs & Ht). unfold with_options. by rewrite Hw, Hs, Ht. Qed.

Lemma with_no_options (q : option Where) (skip take : option Z) :
  with_options q skip take no_options = mkFindArgs q skip take no_options.
Proof. reflexivity. Qed.

Lemma try_catch_run {A} (body : M A) (handler : Err → M A) (w : World) :
  try_catch body handler w
  = match body w with
    | (Ok a, w') => (Ok a, w')
    | (Throw e, w') => handler e w'
    end.
Proof. reflexivity. Qed.

Lemma bind_run {A B} (m : M A) (f : A → M B) (w : World) :
  (m ≫= f) w
  = match m w with
    | (Ok a, w') => f a w'
    | (Throw e, w') => (Throw e, w')
    end.
Proof. reflexivity. Qed.

End StoreFacts.

(** ** The tenant filter (claims C2 and C9) *)

Section TenantFilter.
Context `{Env}.

Lemma satisfies_spec (w : Where) (r : row) :
  satisfies w r = true ↔ ∀ k c, w !! k = Some c → cond_holds c (column r k) = true.
Proof.
  unfold satisfies. rewrite forallb_forall. split.
  - intros Hall k c Hk. apply (Hall (k, c)).
    apply list_elem_of_In, elem_of_map_to_list, Hk.
  - intros Hall [k c] Hin. apply list_elem_of_In, elem_of_map_to_list in Hin.
    simpl. eauto.
Qed.

Lemma addTenantFilter_truthy (w : option Where) (t : value) :
  truthy t = true → BaseRepository.addTenantFilter w t = scoped w t.
Proof.
  intros Ht. unfold BaseRepository.addTenantFilter, scoped. rewrite Ht. simpl.
  destruct w as [w|]; simpl; [done|]. by rewrite insert_empty.
Qed.

Lemma addTenantFilter_falsy (w : option Where) (t : value) :
  truthy t = false → BaseRepository.addTenantFilter w t = w.
Proof. intros Ht. unfold BaseRepository.addTenantFilter. by rewrite Ht. Qed.

(** A truthy value is never [undefined], so the store does not drop the
    tenant condition. *)
Lemma truthy_defined (t : value) : truthy t = true → t ≠ VUndefined.
Proof. by destruct t. Qed.

(** Every row a scoped predicate selects belongs to the tenant. *)
Lemma scoped_matches_tenant (w : option Where) (t : value) (r : row) :
  truthy t = true → matches (scoped w t) r = true → column r "tenantId" = t.
Proof.
  intros Ht Hm. simpl in Hm. rewrite satisfies_spec in Hm.
  specialize (Hm "tenantId" (CEq t)). rewrite lookup_insert_eq in Hm.
  specialize (Hm eq_refl). simpl in Hm.
  destruct t; simpl in *; try done; by apply bool_decide_eq_true in Hm.
Qed.

(** What the filter buys: with a truthy tenant id and plain options,
    every row findMany returns through the repository is a row of that
    tenant. *)
Lemma findMany_stays_in_tenant (m : ModelName) (w : option Where) (t : value)
    (o : Options) (d : DB) (rows : list row) :
  ordering_is_permutation →
  plain_options o →
  truthy t = true →
  outcome (BaseRepository.findMany m w t o) d = Ok rows →
  ∀ r, r ∈ rows →
    ∃ r0, r0 ∈ table m d ∧ column r0 "tenantId" = t ∧ r = project (select o) r0.
Proof.
  intros Hperm Hplain Ht Hrows r Hr.
  unfold outcome, run, BaseRepository.findMany in Hrows.
  rewrite addTenantFilter_truthy, with_options_plain in Hrows by done.
  injection Hrows as <-.
  unfold Model.find_rows, Model.select_rows in Hr. simpl in Hr.
  apply list_elem_of_fmap in Hr as (r0 & -> & Hr0).
  exists r0. split; [|split; [|done]].
  - destruct (orderBy o) as [ob|].
    + rewrite (Hperm ob) in Hr0. by apply list_elem_of_filter in Hr0 as [_ ?].
    + by apply list_elem_of_filter in Hr0 as [_ ?].
  - apply (scoped_matches_tenant w t r0 Ht).
    destruct (orderBy o) as [ob|].
    + rewrite (Hperm ob) in Hr0. by apply list_elem_of_filter in Hr0 as [? _].
    + by apply list_elem_of_filter in Hr0 as [? _].
Qed.

(** C9, as amended: for every where predicate that already contains a
    tenantId key and every truthy supplied tenantId t (not null, not
    undefined, and not the empty string, 0 or false), addTenantFilter
    yields a predicate whose tenantId constraint is t, every other
    constraint being the caller's: the supplied tenant id overrides the
    caller-embedded one. *)
Theorem addTenantFilter_overrides_embedded_tenant (w : Where) (c : cond) (t : value) :
  w !! "tenantId" = Some c →
  truthy t = true →
  ∃ w', BaseRepository.addTenantFilter (Some w) t = Some w'
        ∧ w' !! "tenantId" = Some (CEq t)
        ∧ ∀ k, k ≠ "tenantId" → w' !! k = w !! k.
Proof.
  intros _ Ht. exists (<["tenantId" := CEq t]> w). split; [|split].
  - by rewrite addTenantFilter_truthy.
  - apply lookup_insert_eq.
  - intros k Hk. by apply lookup_insert_ne.
Qed.


End TenantFilter.

(** ** Pagination (claim C7) *)

Section Pagination.
Context `{Env}.

Lemma ceil_div_bounds (a b : Z) :
  (1 ≤ b)%Z →
  ((BaseRepository.ceil_div a b - 1) * b < a ≤ BaseRepository.ceil_div a b * b)%Z.
Proof.
  intros Hb. unfold BaseRepository.ceil_div.
  pose proof (Z.div_mod (- a) b ltac:(lia)) as Hdm.
  pose proof (Z.mod_pos_bound (- a) b ltac:(lia)) as Hmod.
  nia.
Qed.

(** The number of pages is the least [n] with [n * pageSize ≥ total]. *)
Lemma ceil_div_least (a b n : Z) :
  (1 ≤ b)%Z → (a ≤ n * b)%Z → (BaseRepository.ceil_div a b ≤ n)%Z.
Proof. intros Hb Hn. pose proof (ceil_div_bounds a b Hb). nia. Qed.

Lemma listed_length (o : Options) (l : list row) :
  ordering_is_permutation → length (listed o l) = length l.
Proof.
  intros Hperm. unfold listed. destruct (orderBy o); [|done].
  apply Permutation_length, Hperm.
Qed.

(** C7, as amended: for every predicate, pageSize ≥ 1, page ≥ 1 and
    options object whose only keys are orderBy and select, so that it
    carries no where, skip or take key of its own (the default among
    them), findPaginated returns total = the number of matches, page
    and pageSize echoed, totalPages = ceil(total / pageSize), and as data
    the matches at positions (page-1)*pageSize .. (page-1)*pageSize +
    pageSize - 1 of the listing; for page > totalPages the data array is
    empty, with the same total and totalPages, and the call does not
    fail. *)
Theorem findPaginated_returns_the_page (m : ModelName) (w : option Where) (t : value)
    (page pageSize : Z) (o : Options) (d : DB) :
  ordering_is_permutation →
  plain_options o →
  (1 ≤ page)%Z →
  (1 ≤ pageSize)%Z →
  let found := selected (BaseRepository.addTenantFilter w t) (table m d) in
  let listing := project (select o) <$> listed o found in
  ∃ pg,
    outcome (BaseRepository.findPaginated m w t (Some page) (Some pageSize) o) d = Ok pg
    ∧ BaseRepository.total (BaseRepository.pagination pg) = Z.of_nat (length found)
    ∧ BaseRepository.page (BaseRepository.pagination pg) = page
    ∧ BaseRepository.pageSize (BaseRepository.pagination pg) = pageSize
    ∧ ((BaseRepository.totalPages (BaseRepository.pagination pg) - 1) * pageSize
         < Z.of_nat (length found)
         ≤ BaseRepository.totalPages (BaseRepository.pagination pg) * pageSize)%Z
    ∧ (∀ i : nat, (Z.of_nat i < pageSize)%Z →
         BaseRepository.data pg !! i
           = listing !! (Z.to_nat ((page - 1) * pageSize) + i)%nat)
    ∧ (Z.of_nat (length (BaseRepository.data pg)) ≤ pageSize)%Z
    ∧ ((BaseRepository.totalPages (BaseRepository.pagination pg) < page)%Z →
         BaseRepository.data pg = []).
Proof.
  intros Hperm Hplain Hpage Hsize found listing.
  set (skip := ((page - 1) * pageSize)%Z).
  assert (Hskip : (0 ≤ skip)%Z) by (unfold skip; nia).
  set (rows := take (Z.to_nat pageSize) (drop (Z.to_nat skip) listing)).
  exists (BaseRepository.mkPage rows
            (BaseRepository.mkPagination (Z.of_nat (length found)) page pageSize
               (BaseRepository.ceil_div (Z.of_nat (length found)) pageSize))).
  split.
  { unfold outcome, run, BaseRepository.findPaginated.
    rewrite with_options_plain by done.
    unfold both, Model.findMany, Model.count.
    simpl. fold skip.
    destruct (skip <? 0)%Z eqn:Hneg; [lia|]. simpl.
    unfold Model.find_rows, Model.select_rows. simpl.
    destruct (pageSize <? 0)%Z eqn:Hps; [lia|].
    unfold rows, listing, listed, found, selected.
    by rewrite fmap_take, fmap_drop. }
  simpl. repeat split; try done.
  - by apply ceil_div_bounds.
  - by apply ceil_div_bounds.
  - intros i Hi. unfold rows.
    rewrite lookup_take_lt by lia. by rewrite lookup_drop.
  - unfold rows. rewrite length_take. lia.
  - intros Hlast. unfold rows.
    rewrite drop_ge; [apply take_nil|].
    unfold listing. rewrite length_fmap, listed_length by done.
    pose proof (ceil_div_bounds (Z.of_nat (length found)) pageSize Hsize).
    unfold skip. nia.
Qed.

End Pagination.

(** ** Update and delete under a tenant (claim C3) *)

Section UpdateDelete.
Context `{Env}.

(** A predicate on one column, scoped to a tenant, selects the rows
    that hold the value in that column and belong to the tenant. *)
Lemma by_key_matches (key : string) (v t : value) (r : row) :
  key ≠ "tenantId" → truthy t = true → v ≠ VUndefined →
  matches (scoped (Some {[key := CEq v]}) t) r = true
  ↔ column r key = v ∧ column r "tenantId" = t.
Proof.
  intros Hkey Ht Hv. simpl. rewrite satisfies_spec. split.
  - intros Hall. split.
    + specialize (Hall key (CEq v)).
      rewrite lookup_insert_ne, lookup_singleton_eq in Hall by done.
      specialize (Hall eq_refl). simpl in Hall.
      destruct v; try done; by apply bool_decide_eq_true in Hall.
    + specialize (Hall "tenantId" (CEq t)). rewrite lookup_insert_eq in Hall.
      specialize (Hall eq_refl). simpl in Hall.
      destruct t; try done; by apply bool_decide_eq_true in Hall.
  - intros [Hi Hten] k c Hk.
    apply lookup_insert_Some in Hk as [[<- <-]|[_ Hk]].
    + simpl. rewrite Hten. destruct t; try done; by apply bool_decide_eq_true.
    + apply lookup_singleton_Some in Hk as [<- <-].
      simpl. rewrite Hi. destruct v; try done; by apply bool_decide_eq_true.
Qed.

Lemma by_id_matches (id t : value) (r : row) :
  truthy t = true → id ≠ VUndefined →
  matches (scoped (Some {["id" := CEq id]}) t) r = true ↔ owned_by id t r.
Proof. intros Ht Hid. by apply by_key_matches. Qed.

Lemma something_selected (w : option Where) (l : list row) (r : row) :
  r ∈ l → matches w r = true → ∃ r', head (selected w l) = Some r'.
Proof.
  intros Hin Hm. destruct (head (selected w l)) as [r'|] eqn:Hhead; [eauto|].
  apply head_None in Hhead.
  by destruct (filter_nil_not_elem_of _ _ r Hhead Hm).
Qed.

Lemma nothing_selected (w : option Where) (l : list row) :
  (∀ r, r ∈ l → matches w r ≠ true) → selected w l = [].
Proof.
  intros Hnone. unfold selected. induction l as [|r l IH]; [done|].
  rewrite filter_cons. destruct (decide (matches w r = true)) as [Hm|_].
  - exfalso. by apply (Hnone r); [left|].
  - apply IH. intros r' Hr'. apply Hnone. by right.
Qed.

(** The tenant-scoped re-read finds nothing when no row with the id is
    owned by the tenant. *)
Lemma reread_misses (m : ModelName) (id t : value) (w : World) :
  truthy t = true → id ≠ VUndefined →
  (∀ r, r ∈ table m (db w) → ¬ owned_by id t r) →
  Model.findFirst m
    (mkFindArgs (BaseRepository.addTenantFilter (Some {["id" := CEq id]}) t)
       None None no_options) w
  = (Ok None,
     mkWorld (db w)
       (calls w ++ [CallFindFirst m
          (mkFindArgs (scoped (Some {["id" := CEq id]}) t) None None no_options)])).
Proof.
  intros Ht Hid Hnone. rewrite addTenantFilter_truthy by done.
  rewrite findFirst_run, find_rows_plain, nothing_selected; [done|].
  intros r Hr Hm. apply (Hnone r Hr). by apply by_id_matches.
Qed.

(** C3, as amended: for every id and every truthy tenantId, repository
    update and delete first re-read the target row under the tenant-scoped
    predicate; when no row with that id exists under that tenant (the id
    is absent from the table, or rows with that id carry another tenantId)
    the operation fails with a plain Error whose message is
    "<model> not found" (not the NotFoundError class), the failure is the
    same in both cases, no update or delete reaches the store, and the
    store is left unchanged. *)
Theorem update_delete_fail_alike_when_not_owned (m : ModelName) (id : string) (t : value)
    (patch : object) (d_missing d_foreign : DB) :
  truthy t = true →
  (∀ r, r ∈ table m d_missing → column r "id" ≠ VStr id) →
  (∀ r, r ∈ table m d_foreign → column r "id" = VStr id → column r "tenantId" ≠ t) →
  let failure : result row := Throw (mkErr PlainError (modelName m +:+ " not found")) in
  let reread :=
    [CallFindFirst m
       (mkFindArgs (scoped (Some {["id" := CEq (VStr id)]}) t) None None no_options)] in
  (∀ d, d = d_missing ∨ d = d_foreign →
     outcome (BaseRepository.update m (VStr id) patch t) d = failure
     ∧ db_after (BaseRepository.update m (VStr id) patch t) d = d
     ∧ calls_of (BaseRepository.update m (VStr id) patch t) d = reread
     ∧ outcome (BaseRepository.delete m (VStr id) t) d = failure
     ∧ db_after (BaseRepository.delete m (VStr id) t) d = d
     ∧ calls_of (BaseRepository.delete m (VStr id) t) d = reread).
Proof.
  intros Ht Hmissing Hforeign failure reread d Hd.
  assert (Hnone : ∀ r, r ∈ table m d → ¬ owned_by (VStr id) t r).
  { intros r Hr [Hi Hten]. destruct Hd as [-> | ->].
    - by apply (Hmissing r).
    - by apply (Hforeign r). }
  unfold outcome, db_after, calls_of, run, BaseRepository.update, BaseRepository.delete.
  rewrite !bind_run, (reread_misses m (VStr id) t (mkWorld d [])) by done.
  done.
Qed.

End UpdateDelete.

(** ** Ownership of todos (claim C4) *)

Section TodoOwnership.
Context `{Env}.

Lemma findById_run (m : ModelName) (id t : value) (w : World) :
  BaseRepository.findById m id t no_options w
  = (Ok (head (selected (BaseRepository.addTenantFilter (Some {["id" := CEq id]}) t)
                 (table m (db w)))),
     mkWorld (db w)
       (calls w ++ [CallFindFirst m
          (mkFindArgs (BaseRepository.addTenantFilter (Some {["id" := CEq id]}) t)
             None None no_options)])).
Proof.
  unfold BaseRepository.findById.
  by rewrite with_no_options, findFirst_run, find_rows_plain.
Qed.

(** The tenant-scoped load comes first: a todo that is absent, or that
    belongs to another tenant, is reported as NotFoundError. *)
Lemma getTodoById_not_in_tenant (todoId : string) (u t : value) (d : DB) :
  truthy t = true →
  (∀ r, r ∈ todos d → ¬ owned_by (VStr todoId) t r) →
  outcome (TodoService.getTodoById (VStr todoId) u t) d
    = Throw (mkErr NotFoundError "Todo not found")
  ∧ db_after (TodoService.getTodoById (VStr todoId) u t) d = d.
Proof.
  intros Ht Hnone.
  unfold outcome, db_after, run, TodoService.getTodoById, TodoRepository.findById.
  rewrite bind_run, findById_run, addTenantFilter_truthy by done. simpl.
  rewrite nothing_selected; [done|].
  intros r Hr Hm. apply (Hnone r Hr). by apply by_id_matches.
Qed.

(** What the ownership check does on a todo of another user: the
    identifier ForbiddenError is not bound in todoService.js, so the throw
    statement raises a ReferenceError. *)
Lemma getTodoById_other_owner (todoId u t : value) (todo : row) (w : World) :
  head (selected (BaseRepository.addTenantFilter (Some {["id" := CEq todoId]}) t)
          (todos (db w))) = Some todo →
  column todo "userId" ≠ u →
  ∃ log, TodoService.getTodoById todoId u t w
         = (Throw (mkErr ReferenceError "ForbiddenError is not defined"),
            mkWorld (db w) log).
Proof.
  intros Hload Hother. eexists.
  unfold TodoService.getTodoById, TodoRepository.findById.
  rewrite bind_run, findById_run.
  change (table MTodo (db w)) with (todos (db w)). rewrite Hload.
  unfold strict_ne, strict_eq. rewrite bool_decide_eq_false_2 by done.
  reflexivity.
Qed.

(** No operation of the service returns or changes a todo of another
    user: each ends in an exception and leaves the store as it was. *)
Lemma other_owner_is_never_served (todoId u t status list : value) (patch : object)
    (todo : row) (d : DB) :
  head (selected (BaseRepository.addTenantFilter (Some {["id" := CEq todoId]}) t)
          (todos d)) = Some todo →
  column todo "userId" ≠ u →
  (∃ e, outcome (TodoService.getTodoById todoId u t) d = Throw e)
  ∧ (∃ e, outcome (TodoService.updateTodo todoId patch u t) d = Throw e)
  ∧ (∃ e, outcome (TodoService.deleteTodo todoId u t) d = Throw e)
  ∧ (∃ e, outcome (TodoService.updateTodoStatus todoId status u t) d = Throw e)
  ∧ (∃ e, outcome (TodoService.moveTodoToList todoId list u t) d = Throw e)
  ∧ db_after (TodoService.getTodoById todoId u t) d = d
  ∧ db_after (TodoService.updateTodo todoId patch u t) d = d
  ∧ db_after (TodoService.deleteTodo todoId u t) d = d
  ∧ db_after (TodoService.updateTodoStatus todoId status u t) d = d
  ∧ db_after (TodoService.moveTodoToList todoId list u t) d = d.
Proof.
  intros Hload Hother.
  destruct (getTodoById_other_owner todoId u t todo (mkWorld d []) Hload Hother)
    as [log Hget].
  unfold outcome, db_after, run, TodoService.updateTodo, TodoService.deleteTodo,
    TodoService.updateTodoStatus, TodoService.moveTodoToList.
  rewrite !bind_run, Hget. simpl.
  destruct (negb (bool_decide (status ∈ _))); simpl;
    [|rewrite bind_run, Hget]; eauto 20.
Qed.

End TodoOwnership.

(** ** The access guard (claim C1) *)

Section AccessGuard.
Context `{Env}.

Lemma verify_run (token : string) (decoded : object) (w : World) :
  jwt_verify token (jwt_secret config) = inr decoded →
  Jwt.verify (VStr token) w = (Ok decoded, w).
Proof. intros Hverify. unfold Jwt.verify. by rewrite Hverify. Qed.

(** The guard's run on a request that authenticates as [u], up to the
    tenant check. *)
Lemma authMiddleware_authenticated (req : Request) (d : DB) (u : row) :
  authenticates req d u →
  outcome (AuthMiddleware.authMiddleware req) d
  = if negb (truthy (isMainDomain req))
       && strict_ne (column u "tenantId") (tenantId req)
    then Ok (req, Respond (mkResponse 403
               (error_body "ForbiddenError" "User does not belong to this tenant")))
    else Ok (AuthMiddleware.with_user req u, Next).
Proof.
  intros (header & token & decoded & Hauth & Hbearer & Htoken & Hverify & Hfind).
  unfold outcome, run, AuthMiddleware.authMiddleware.
  rewrite try_catch_run, Hauth, Hbearer. change (negb true) with false. cbv iota.
  unfold AuthMiddleware.at_index. rewrite Htoken.
  rewrite bind_run, (verify_run token decoded) by done.
  rewrite bind_run, findFirst_run.
  change (table MUser (db (mkWorld d []))) with (users d).
  fold (active_user_lookup decoded). rewrite Hfind. cbv iota beta.
  by destruct (negb (truthy (isMainDomain req))
               && strict_ne (column u "tenantId") (tenantId req)).
Qed.

Lemma verify_pure (token : value) (w w' : World) (r : result object) :
  Jwt.verify token w = (r, w') → w' = w.
Proof.
  unfold Jwt.verify, throw, mret, M_ret. intros Hrun.
  repeat case_match; by simplify_eq.
Qed.

(** Whatever the request carries, the guard passes it on outside the
    main domain only with a user of the request's tenant attached. *)
Lemma authMiddleware_passes_only_tenant_users (req req' : Request) (d : DB) :
  truthy (isMainDomain req) = false →
  outcome (AuthMiddleware.authMiddleware req) d = Ok (req', Next) →
  ∃ u, user req' = Some u ∧ column u "tenantId" = tenantId req
       ∧ tenantId req' = tenantId req.
Proof.
  intros Hmain Hnext.
  unfold outcome, run, AuthMiddleware.authMiddleware in Hnext.
  rewrite try_catch_run, Hmain in Hnext.
  destruct (authorization req) as [| | | |header];
    try (vm_compute in Hnext; discriminate).
  destruct (startsWith "Bearer " header);
    [|vm_compute in Hnext; discriminate].
  change (negb true) with false in Hnext. cbv iota in Hnext.
  rewrite bind_run in Hnext.
  destruct (Jwt.verify _ _) as [[decoded|error] w1] eqn:Hverify.
  - assert (Hw1 : w1 = mkWorld d []).
    { by apply verify_pure in Hverify. }
    subst w1. rewrite bind_run, findFirst_run in Hnext.
    destruct (head _) as [u|]; [|vm_compute in Hnext; discriminate].
    change (negb false) with true in Hnext. rewrite andb_true_l in Hnext.
    unfold strict_ne, strict_eq in Hnext.
    destruct (decide (column u "tenantId" = tenantId req)) as [Heq|Hne].
    + rewrite bool_decide_eq_true_2 in Hnext by done.
      change (negb true) with false in Hnext. cbv iota in Hnext.
      injection Hnext as <-. by exists u.
    + rewrite bool_decide_eq_false_2 in Hnext by done.
      vm_compute in Hnext. discriminate.
  - cbv iota beta in Hnext. repeat case_match; by simplify_eq.
Qed.

(** C1: for every request whose tenant context is not main-domain and
    every authenticated, active user, authenticate passes the request on
    only if the user's tenantId equals the resolved tenant's id; whenever
    they differ it answers 403 (ForbiddenError) and the request comes back
    as it was, with no user identity attached. *)
Theorem authMiddleware_enforces_tenant_match (req : Request) (d : DB) (u : row) :
  truthy (isMainDomain req) = false →
  authenticates req d u →
  (column u "tenantId" ≠ tenantId req →
     outcome (AuthMiddleware.authMiddleware req) d
     = Ok (req, Respond (mkResponse 403
             (error_body "ForbiddenError" "User does not belong to this tenant"))))
  ∧ (column u "tenantId" = tenantId req →
     outcome (AuthMiddleware.authMiddleware req) d
     = Ok (AuthMiddleware.with_user req u, Next))
  ∧ (∀ req', outcome (AuthMiddleware.authMiddleware req) d = Ok (req', Next) →
     column u "tenantId" = tenantId req).
Proof.
  intros Hmain Hauth.
  rewrite (authMiddleware_authenticated req d u Hauth), Hmain. simpl.
  unfold strict_ne, strict_eq.
  destruct (decide (column u "tenantId" = tenantId req)) as [Heq|Hne].
  - rewrite bool_decide_eq_true_2 by done. simpl. by repeat split.
  - rewrite bool_decide_eq_false_2 by done. simpl. by repeat split.
Qed.

End AccessGuard.

(** ** The tenant resolver (claim C5) *)

Section TenantResolver.
Context `{Env}.

Lemma split_head (c : ascii) (s : string) :
  ∃ label, head (split c s) = Some label
           ∧ (c ∉ list_ascii_of_string label)
           ∧ (s = label ∨ ∃ rest, s = label +:+ String c rest).
Proof.
  induction s as [|a s (label & Hhead & Hfree & Hshape)]; simpl.
  - exists "". split; [done|]. split; [apply not_elem_of_nil | by left].
  - destruct (bool_decide (a = c)) eqn:Hac; simpl.
    + apply bool_decide_eq_true in Hac as ->.
      exists "". split; [done|]. split; [apply not_elem_of_nil|].
      right. by exists s.
    + apply bool_decide_eq_false in Hac.
      exists (String a label). rewrite Hhead. split; [done|]. split.
      * simpl. rewrite not_elem_of_cons. split; [congruence | done].
      * destruct Hshape as [-> | [rest ->]]; [by left|].
        right. by exists rest.
Qed.

Lemma subdomain_of_leftmost (host : string) :
  leftmost_label (TenantMiddleware.subdomain_of host) host.
Proof.
  unfold leftmost_label, TenantMiddleware.subdomain_of.
  destruct (split_head "."%char host) as (label & -> & Hfree & Hshape). done.
Qed.

Lemma subdomain_matches (subdomain : string) (t : row) :
  matches (fa_where (active_tenant_lookup subdomain)) t = true
  ↔ active_tenant subdomain t.
Proof.
  unfold active_tenant. simpl. rewrite satisfies_spec. split.
  - intros Hall. split.
    + specialize (Hall "subdomain" (CEq (VStr subdomain))).
      rewrite lookup_insert_eq in Hall. specialize (Hall eq_refl).
      by apply bool_decide_eq_true in Hall.
    + specialize (Hall "isActive" (CEq (VBool true))).
      rewrite lookup_insert_ne, lookup_singleton_eq in Hall by done.
      specialize (Hall eq_refl). by apply bool_decide_eq_true in Hall.
  - intros [Hsub Hact] k c Hk.
    apply lookup_insert_Some in Hk as [[<- <-]|[_ Hk]].
    + simpl. by apply bool_decide_eq_true.
    + apply lookup_singleton_Some in Hk as [<- <-].
      simpl. by apply bool_decide_eq_true.
Qed.

(** A selected column survives the projection. *)
Lemma project_column (fields : list string) (k : string) (r : row) :
  k ∈ fields → column (project (Some fields) r) k = column r k.
Proof.
  intros Hk. unfold column, project.
  destruct (r !! k) as [v|] eqn:Hr; simpl.
  - by rewrite (map_lookup_filter_Some_2 _ _ _ v).
  - rewrite (proj2 (map_lookup_filter_None _ _ _)); [done|]. by left.
Qed.

(** The resolver's run on a host outside the main domain. *)
Lemma tenantMiddleware_subdomain (req : Request) (d : DB) :
  TenantMiddleware.on_main_domain (hostname req) = false →
  let label := TenantMiddleware.subdomain_of (hostname req) in
  run (TenantMiddleware.tenantMiddleware req) d
  = (match head (selected (fa_where (active_tenant_lookup label)) (tenants d)) with
     | Some t =>
         Ok (TenantMiddleware.with_tenant req
               (project TenantMiddleware.tenant_select t) false, Next)
     | None =>
         Ok (req, Respond (mkResponse 404
               (error_body "Tenant not found"
                  ("Tenant with subdomain '" +:+ label +:+ "' not found"))))
     end,
     mkWorld d [CallFindUnique MTenant (active_tenant_lookup label)]).
Proof.
  intros Hmain label.
  unfold run, TenantMiddleware.tenantMiddleware.
  rewrite try_catch_run, Hmain. cbv iota.
  rewrite bind_run, findUnique_run. fold label. fold (active_tenant_lookup label).
  change (table MTenant (db (mkWorld d []))) with (tenants d).
  unfold active_tenant_lookup at 1. rewrite find_rows_select.
  by destruct (selected _ _).
Qed.

(** C5: for every hostname outside the main domain (it is not the
    configured main domain and does not contain "localhost"), the resolver
    takes the leftmost dot-separated label as the candidate subdomain and
    looks it up requiring isActive = true: if an active tenant with that
    subdomain exists, the request receives such a tenant, its id as
    tenantId, and isMainDomain = false; if none exists the resolver answers
    404 ("Tenant not found") and passes nothing on. *)
Theorem tenantMiddleware_resolves_subdomain (req : Request) (d : DB) :
  TenantMiddleware.on_main_domain (hostname req) = false →
  let label := TenantMiddleware.subdomain_of (hostname req) in
  leftmost_label label (hostname req)
  ∧ calls_of (TenantMiddleware.tenantMiddleware req) d
    = [CallFindUnique MTenant (active_tenant_lookup label)]
  ∧ ((∃ t, t ∈ tenants d ∧ active_tenant label t) →
     ∃ t req',
       t ∈ tenants d ∧ active_tenant label t
       ∧ outcome (TenantMiddleware.tenantMiddleware req) d = Ok (req', Next)
       ∧ tenant req' = Some (project TenantMiddleware.tenant_select t)
       ∧ tenantId req' = column t "id"
       ∧ isMainDomain req' = VBool false)
  ∧ ((∀ t, t ∈ tenants d → ¬ active_tenant label t) →
     outcome (TenantMiddleware.tenantMiddleware req) d
     = Ok (req, Respond (mkResponse 404
             (error_body "Tenant not found"
                ("Tenant with subdomain '" +:+ label +:+ "' not found"))))).
Proof.
  intros Hmain label. split; [apply subdomain_of_leftmost|].
  unfold calls_of, outcome.
  rewrite (tenantMiddleware_subdomain req d Hmain). fold label. cbn [fst snd calls].
  split; [done|]. split.
  - intros (t0 & Hin0 & Hact0).
    destruct (head (selected (fa_where (active_tenant_lookup label)) (tenants d)))
      as [t|] eqn:Hhead.
    + apply head_Some_elem_of in Hhead.
      apply list_elem_of_filter in Hhead as [Hm Hin].
      apply subdomain_matches in Hm.
      exists t, (TenantMiddleware.with_tenant req
                   (project TenantMiddleware.tenant_select t) false).
      repeat split; try done; try apply Hm.
      simpl. apply project_column. set_solver.
    + exfalso. apply head_None in Hhead.
      eapply (filter_nil_not_elem_of _ _ t0 Hhead); [|done].
      by apply subdomain_matches.
  - intros Hnone. rewrite nothing_selected; [done|].
    intros t Hin Hm. apply (Hnone t Hin). by apply subdomain_matches.
Qed.

End TenantResolver.

(** ** Arithmetic on doubles *)

Section Doubles.
Local Open Scope Z_scope.
























End Doubles.

(** ** Statistics (claim C8) *)

Section Statistics.

Lemma satisfies_insert_fresh (w : Where) (k : string) (c : cond) (r : row) :
  w !! k = None →
  satisfies (<[k := c]> w) r = cond_holds c (column r k) && satisfies w r.
Proof.
  intros Hfresh. apply eq_true_iff_eq.
  rewrite andb_true_iff, !satisfies_spec. split.
  - intros Hall. split.
    + apply Hall, lookup_insert_eq.
    + intros k' c' Hk'. apply Hall. rewrite lookup_insert_ne; [done|congruence].
  - intros [Hc Hall] k' c' Hk'.
    apply lookup_insert_Some in Hk' as [[<- <-]|[_ Hk']]; eauto.
Qed.





Lemma both_run {A B} (a : M A) (b : M B) (w w1 w2 : World) (x : A) (y : B) :
  a w = (Ok x, w1) → b w1 = (Ok y, w2) → both a b w = (Ok (x, y), w2).
Proof. intros Ha Hb. unfold both. by rewrite Ha, Hb. Qed.

Lemma tally_cons (w : option Where) (r : row) (l : list row) :
  tally w (r :: l) = ((if matches w r then 1 else 0) + tally w l)%Z.
Proof.
  unfold tally, selected. rewrite filter_cons.
  destruct (matches w r); case_decide; try done; simpl length; lia.
Qed.




End Statistics.

(** ** Registration (claim C6) *)

Section Registration.
Context `{Env}.

Lemma findByEmail_run (email t : value) (w : World) :
  UserRepository.findByEmail email t w
  = (Ok (head (selected (BaseRepository.addTenantFilter (Some {["email" := CEq email]}) t)
                 (users (db w)))),
     mkWorld (db w)
       (calls w ++ [CallFindFirst MUser
          (mkFindArgs (BaseRepository.addTenantFilter (Some {["email" := CEq email]}) t)
             None None no_options)])).
Proof.
  unfold UserRepository.findByEmail, BaseRepository.findOne. rewrite with_no_options.
  by rewrite findFirst_run, find_rows_plain.
Qed.

(** A column the data defines is the column of the new row. *)
Lemma new_row_column (m : ModelName) (data : object) (n : nat) (k : string) (v : value) :
  data !! k = Some v → v ≠ VUndefined → column (Model.new_row m data n) k = v.
Proof.
  intros Hk Hv. unfold column, Model.new_row.
  assert (Hgiven : Model.defined_props data !! k = Some v).
  { unfold Model.defined_props. by apply map_lookup_filter_Some_2. }
  erewrite lookup_union_Some_l; [done|].
  destruct (Model.defined_props data !! "id") eqn:Hid; [done|].
  rewrite lookup_insert_ne; [done|]. intros <-. congruence.
Qed.

Lemma create_user_run (data : object) (t : value) (w : World) :
  truthy t = true →
  UserRepository.create data t w
  = (let u := Model.new_row MUser (<["tenantId" := t]> data) (next_id (db w)) in
     (Ok u,
      mkWorld (mkDB (users (db w) ++ [u]) (todos (db w)) (tenants (db w))
                 (S (next_id (db w))))
        (calls w ++ [CallCreate MUser (<["tenantId" := t]> data)]))).
Proof.
  intros Ht. unfold UserRepository.create, BaseRepository.create. rewrite Ht.
  reflexivity.
Qed.

Lemma hash_run (p : string) (w : World) :
  AuthService.hash (VStr p) w = (Ok (bcrypt_hash p (bcryptRounds config)), w).
Proof. reflexivity. Qed.

(** A first registration. *)
Lemma register_fresh (userData : object) (e p : string) (t : value) (w : World) :
  truthy t = true →
  userData !! "email" = Some (VStr e) →
  userData !! "password" = Some (VStr p) →
  (∀ r, r ∈ users (db w) → ¬ registered e t r) →
  ∃ u token log,
    AuthService.registerUser userData t w
    = (Ok (AuthService.mkRegistered u token),
       mkWorld (mkDB (users (db w) ++ [u]) (todos (db w)) (tenants (db w))
                  (S (next_id (db w)))) log)
    ∧ registered e t u
    ∧ column u "password" = VStr (bcrypt_hash p (bcryptRounds config))
    ∧ column u "role" = VStr "USER".
Proof.
  intros Ht He Hp Hfree.
  unfold AuthService.registerUser.
  rewrite bind_run, findByEmail_run, addTenantFilter_truthy by done.
  unfold prop. rewrite He, Hp.
  rewrite nothing_selected; cycle 1.
  { intros r Hr Hm. apply (Hfree r Hr).
    by apply (by_key_matches "email" (VStr e) t r). }
  simpl (head _). simpl (default _ _). cbv iota beta.
  rewrite bind_run, hash_run. cbv iota beta.
  rewrite bind_run, create_user_run by done. cbv zeta iota beta.
  do 3 eexists. split; [reflexivity|]. cbn [db].
  pose proof (truthy_defined t Ht) as Hdef.
  repeat split.
  - apply new_row_column; [|done].
    by do 3 rewrite lookup_insert_ne by done.
  - apply new_row_column; [|done]. by rewrite lookup_insert_eq.
  - apply new_row_column; [|done].
    do 2 rewrite lookup_insert_ne by done. by rewrite lookup_insert_eq.
  - apply new_row_column; [|done].
    rewrite lookup_insert_ne by done. by rewrite lookup_insert_eq.
Qed.

(** A registration of an email the tenant already has. *)
Lemma register_taken (userData : object) (e : string) (t : value) (w : World) (r : row) :
  truthy t = true →
  userData !! "email" = Some (VStr e) →
  r ∈ users (db w) → registered e t r →
  ∃ log,
    AuthService.registerUser userData t w
    = (Throw (mkErr ConflictError "Email already registered in this organization"),
       mkWorld (db w) log).
Proof.
  intros Ht He Hin Hreg.
  unfold AuthService.registerUser.
  rewrite bind_run, findByEmail_run, addTenantFilter_truthy by done.
  unfold prop. rewrite He. simpl (default _ _).
  destruct (something_selected (scoped (Some {["email" := CEq (VStr e)]}) t)
              (users (db w)) r Hin) as [r' ->].
  { by apply (by_key_matches "email" (VStr e) t r). }
  eexists. reflexivity.
Qed.

(** C6: for every tenant, email and password, a first registration of
    the email in the tenant succeeds and creates a user with the hashed
    password and role USER; a second registration of the same email in the
    same tenant fails with ConflictError and creates no user; and
    registering the same email in a different tenant succeeds. *)
Theorem registration_is_unique_per_tenant (userData again : object) (e p p' : string)
    (t t' : value) (d : DB) :
  truthy t = true → truthy t' = true → t' ≠ t →
  userData !! "email" = Some (VStr e) → userData !! "password" = Some (VStr p) →
  again !! "email" = Some (VStr e) → again !! "password" = Some (VStr p') →
  (∀ r, r ∈ users d → ¬ registered e t r) →
  (∀ r, r ∈ users d → ¬ registered e t' r) →
  ∃ u token,
    outcome (AuthService.registerUser userData t) d = Ok (AuthService.mkRegistered u token)
    ∧ registered e t u
    ∧ column u "password" = VStr (bcrypt_hash p (bcryptRounds config))
    ∧ column u "role" = VStr "USER"
    ∧ users (db_after (AuthService.registerUser userData t) d) = (users d ++ [u])%list
    ∧ let d1 := db_after (AuthService.registerUser userData t) d in
      outcome (AuthService.registerUser again t) d1
        = Throw (mkErr ConflictError "Email already registered in this organization")
      ∧ db_after (AuthService.registerUser again t) d1 = d1
      ∧ ∃ u' token',
          outcome (AuthService.registerUser again t') d1
            = Ok (AuthService.mkRegistered u' token')
          ∧ registered e t' u'
          ∧ users (db_after (AuthService.registerUser again t') d1)
            = (users d1 ++ [u'])%list.
Proof.
  intros Ht Ht' Hne He Hp He' Hp' Hfree Hfree'.
  destruct (register_fresh userData e p t (mkWorld d []) Ht He Hp Hfree)
    as (u & token & log & Hrun & Hreg & Hpw & Hrole).
  exists u, token.
  unfold outcome, db_after, run. rewrite Hrun. cbn [fst snd db users].
  repeat (split; [done|]).
  set (d1 := mkDB (users d ++ [u]) (todos d) (tenants d) (S (next_id d))).
  destruct (register_taken again e t (mkWorld d1 []) u Ht He') as [log2 Htaken].
  { cbn. set_solver. }
  { done. }
  rewrite Htaken. cbn [fst snd db].
  repeat (split; [done|]).
  destruct (register_fresh again e p' t' (mkWorld d1 []) Ht' He' Hp')
    as (u' & token' & log3 & Hrun' & Hreg' & _ & _).
  { cbn. intros r Hr Hr'. apply elem_of_app in Hr as [Hr|Hr].
    - by apply (Hfree' r).
    - apply list_elem_of_singleton in Hr as ->.
      destruct Hreg as [_ Hu], Hr' as [_ Hu']. congruence. }
  exists u', token'. rewrite Hrun'. cbn [fst snd db users]. done.
Qed.

End Registration.

(** ** Password reset (claim C10) *)

Section PasswordReset.
Context `{Env}.

(** [update_first] rewrites the first row that has the id, and only it. *)
Lemma update_first_found (id : value) (patch : object) (pre post : list row) (u : row) :
  (∀ r, r ∈ pre → column r "id" ≠ id) →
  column u "id" = id →
  Model.update_first id patch (pre ++ u :: post)%list
  = Some (spread u (Model.defined_props patch),
          (pre ++ spread u (Model.defined_props patch) :: post)%list).
Proof.
  intros Hpre Hu. induction pre as [|r pre IH]; simpl.
  - unfold Model.has_id. by rewrite bool_decide_eq_true_2.
  - unfold Model.has_id at 1. rewrite bool_decide_eq_false_2.
    + rewrite IH; [done|]. intros r' Hr'. apply Hpre. by right.
    + apply Hpre. by left.
Qed.

Lemma update_first_missing (id : value) (patch : object) (l : list row) :
  (∀ r, r ∈ l → column r "id" ≠ id) → Model.update_first id patch l = None.
Proof.
  intros Hl. induction l as [|r l IH]; [done|]. simpl.
  unfold Model.has_id at 1. rewrite bool_decide_eq_false_2.
  - rewrite IH; [done|]. intros r' Hr'. apply Hl. by right.
  - apply Hl. by left.
Qed.

(** Writing one defined property changes that property and nothing else. *)
Lemma spread_one (u : row) (k : string) (v : value) :
  v ≠ VUndefined → spread u (Model.defined_props {[k := v]}) = <[k := v]> u.
Proof.
  intros Hv. unfold spread, Model.defined_props.
  rewrite map_filter_singleton_True by done.
  by rewrite insert_union_singleton_l.
Qed.

Lemma verifyToken_run (token : string) (decoded : object) (w : World) :
  jwt_verify token (jwt_secret config) = inr decoded →
  Jwt.verifyToken (VStr token) w = (Ok decoded, w).
Proof.
  intros Hverify. unfold Jwt.verifyToken.
  by rewrite try_catch_run, (verify_run token decoded).
Qed.

Lemma update_run (m : ModelName) (id : value) (patch : object) (w : World) :
  id ≠ VUndefined →
  Model.update m id patch w
  = match Model.update_first id patch (table m (db w)) with
    | Some (r, t) =>
        (Ok r, mkWorld (set_table m t (db w)) (calls w ++ [CallUpdate m id patch]))
    | None =>
        (Throw Model.record_not_found,
         mkWorld (db w) (calls w ++ [CallUpdate m id patch]))
    end.
Proof.
  intros Hid. unfold Model.update.
  rewrite bind_run. cbn [record_call]. rewrite bind_run. cbn [get_db db calls].
  rewrite bool_decide_eq_false_2 by done.
  by destruct (Model.update_first id patch (table m (db w))) as [[r t]|].
Qed.

(** The service's run on a token that verifies with the reset purpose. *)
Lemma resetPassword_run (token newPassword : string) (decoded : object) (w : World) :
  jwt_verify token (jwt_secret config) = inr decoded →
  prop decoded "purpose" = VStr "password-reset" →
  prop decoded "userId" ≠ VUndefined →
  let patch : object := {["password" := VStr (bcrypt_hash newPassword (bcryptRounds config))]} in
  let log := (calls w ++ [CallUpdate MUser (prop decoded "userId") patch])%list in
  AuthService.resetPassword (VStr token) (VStr newPassword) w
  = match Model.update_first (prop decoded "userId") patch (users (db w)) with
    | Some (r, t) =>
        (Ok true, mkWorld (mkDB t (todos (db w)) (tenants (db w)) (next_id (db w))) log)
    | None =>
        (Throw (mkErr ValidationError "Invalid or expired reset token"),
         mkWorld (db w) log)
    end.
Proof.
  intros Hverify Hpurpose Hid patch log.
  unfold AuthService.resetPassword.
  rewrite try_catch_run, bind_run, (verifyToken_run token decoded) by done.
  cbv iota beta. rewrite Hpurpose.
  change (strict_ne (VStr "password-reset") (VStr "password-reset")) with false.
  cbv iota. rewrite bind_run, hash_run. cbv iota beta.
  rewrite bind_run. unfold UserRepository.updatePassword.
  rewrite update_run by done. fold patch. fold log.
  change (table MUser (db w)) with (users (db w)).
  by destruct (Model.update_first (prop decoded "userId") patch (users (db w)))
    as [[r t]|].
Qed.

(** C10: for every valid reset token whose payload has purpose =
    'password-reset', resetPassword updates the password of the user
    identified by the token's userId alone: the only store call is an
    update by that id, with no tenant filter; the controller's outcome does
    not depend on the tenant context of the request; and only that user's
    password column changes, every other column and every other row staying
    as it was. *)
Theorem resetPassword_rewrites_one_password (token newPassword : string)
    (decoded : object) (d : DB) (pre post : list row) (u : row) :
  jwt_verify token (jwt_secret config) = inr decoded →
  prop decoded "purpose" = VStr "password-reset" →
  prop decoded "userId" ≠ VUndefined →
  newPassword ≠ "" →
  users d = (pre ++ u :: post)%list →
  column u "id" = prop decoded "userId" →
  (∀ r, r ∈ pre → column r "id" ≠ prop decoded "userId") →
  let hashed := VStr (bcrypt_hash newPassword (bcryptRounds config)) in
  let d' := mkDB (pre ++ <["password" := hashed]> u :: post)%list (todos d) (tenants d)
              (next_id d) in
  let log := [CallUpdate MUser (prop decoded "userId") {["password" := hashed]}] in
  run (AuthService.resetPassword (VStr token) (VStr newPassword)) d
    = (Ok true, mkWorld d' log)
  ∧ ∀ req : Request,
      prop (params req) "token" = VStr token →
      prop (body req) "password" = VStr newPassword →
      run (AuthController.resetPassword req) d
      = (Ok (mkResponse 200 {["message" := VStr "Password reset successful"]}),
         mkWorld d' log).
Proof.
  intros Hverify Hpurpose Hid Hpw Husers Hu Hpre hashed d' log.
  assert (Hservice :
    AuthService.resetPassword (VStr token) (VStr newPassword) (mkWorld d [])
    = (Ok true, mkWorld d' log)).
  { rewrite (resetPassword_run token newPassword decoded) by done.
    cbn [db calls]. rewrite Husers, update_first_found by done.
    rewrite spread_one by done. reflexivity. }
  split; [exact Hservice|].
  intros req Htoken Hbody.
  unfold run, AuthController.resetPassword.
  rewrite try_catch_run, Htoken, Hbody.
  assert (Htruthy : truthy (VStr newPassword) = true).
  { simpl. by rewrite bool_decide_eq_false_2. }
  rewrite Htruthy. change (negb true) with false. cbv iota.
  by rewrite bind_run, Hservice.
Qed.

(** When the token names no user, the reset fails as an invalid token
    and the store is left as it was. *)
Lemma resetPassword_unknown_user (token newPassword : string) (decoded : object) (d : DB) :
  jwt_verify token (jwt_secret config) = inr decoded →
  prop decoded "purpose" = VStr "password-reset" →
  prop decoded "userId" ≠ VUndefined →
  (∀ r, r ∈ users d → column r "id" ≠ prop decoded "userId") →
  outcome (AuthService.resetPassword (VStr token) (VStr newPassword)) d
    = Throw (mkErr ValidationError "Invalid or expired reset token")
  ∧ db_after (AuthService.resetPassword (VStr token) (VStr newPassword)) d = d.
Proof.
  intros Hverify Hpurpose Hid Hnone. unfold outcome, db_after, run.
  rewrite (resetPassword_run token newPassword decoded) by done.
  cbn [db calls]. by rewrite update_first_missing.
Qed.

End PasswordReset.

(** * Further properties of the code *)

(** ** The guards one by one *)

Section Guards.
Context `{Env}.

(** The guard always answers or passes on, never throws, and its store
    access is the one user lookup. *)
Lemma authMiddleware_shape (req : Request) (w : World) :
  ∃ req' action w',
    AuthMiddleware.authMiddleware req w = (Ok (req', action), w')
    ∧ db w' = db w
    ∧ ((action = Next
        ∧ ∃ u, req' = AuthMiddleware.with_user req u
               ∧ (truthy (isMainDomain req) = false → column u "tenantId" = tenantId req))
       ∨ (∃ res, action = Respond res ∧ req' = req)).
Proof.
  unfold AuthMiddleware.authMiddleware. rewrite try_catch_run.
  destruct (authorization req) as [| | | |header];
    try (do 3 eexists; split; [reflexivity|split; [done|right; eauto]]).
  destruct (startsWith "Bearer " header);
    [|do 3 eexists; split; [reflexivity|split; [done|right; eauto]]].
  change (negb true) with false. cbv iota. rewrite bind_run.
  destruct (Jwt.verify _ w) as [[decoded|error] w1] eqn:Hverify;
    apply verify_pure in Hverify as Hw1; subst w1.
  - rewrite bind_run, findFirst_run.
    destruct (head _) as [u|];
      [|do 3 eexists; split; [reflexivity|split; [done|right; eauto]]].
    cbv iota beta.
    destruct (negb (truthy (isMainDomain req))
              && strict_ne (column u "tenantId") (tenantId req)) eqn:Hcheck.
    + do 3 eexists. split; [reflexivity|split; [done|right; eauto]].
    + do 3 eexists. split; [reflexivity|]. split; [done|]. left. split; [done|].
      exists u. split; [done|]. intros Hmain. rewrite Hmain in Hcheck.
      unfold strict_ne, strict_eq in Hcheck. simpl in Hcheck.
      apply negb_false_iff in Hcheck. by apply bool_decide_eq_true in Hcheck.
  - cbv iota beta.
    destruct (instanceof error JsonWebTokenError);
      [do 3 eexists; split; [reflexivity|split; [done|right; eauto]]|].
    destruct (instanceof error TokenExpiredError);
      [do 3 eexists; split; [reflexivity|split; [done|right; eauto]]|].
    destruct (instanceof error UnauthorizedError || instanceof error ForbiddenError);
      do 3 eexists; (split; [reflexivity|split; [done|right; eauto]]).
Qed.

(** The guard's run, from any log, on a request that authenticates. *)
Lemma authMiddleware_authenticated_at (req : Request) (w : World) (u : row) :
  authenticates req (db w) u →
  ∃ log,
    AuthMiddleware.authMiddleware req w
    = (if negb (truthy (isMainDomain req))
          && strict_ne (column u "tenantId") (tenantId req)
       then Ok (req, Respond (mkResponse 403
                  (error_body "ForbiddenError" "User does not belong to this tenant")))
       else Ok (AuthMiddleware.with_user req u, Next),
       mkWorld (db w) log).
Proof.
  intros (header & token & decoded & Hauth & Hbearer & Htoken & Hverify & Hfind).
  unfold AuthMiddleware.authMiddleware.
  rewrite try_catch_run, Hauth, Hbearer. change (negb true) with false. cbv iota.
  unfold AuthMiddleware.at_index. rewrite Htoken.
  rewrite bind_run, (verify_run token decoded) by done.
  rewrite bind_run, findFirst_run.
  change (table MUser (db w)) with (users (db w)).
  fold (active_user_lookup decoded). rewrite Hfind. cbv iota beta.
  eexists.
  by destruct (negb (truthy (isMainDomain req))
               && strict_ne (column u "tenantId") (tenantId req)).
Qed.

Lemma expired_is_a_jwt_error (e : Err) :
  instanceof e TokenExpiredError = true → instanceof e JsonWebTokenError = true.
Proof. destruct e as [c msg]. by destruct c. Qed.

(** The errors the guard reports by name are of its two classes. *)
Lemma reported_name_is_a_class_name (e : Err) :
  instanceof e UnauthorizedError || instanceof e ForbiddenError = true →
  error_name (cls e) ≠ "Token expired".
Proof. destruct e as [c msg]. by destruct c. Qed.

Lemma verify_throws (token : value) (e : Err) (w w' : World) :
  verify_throws_jwt_errors →
  Jwt.verify token w = (Throw e, w') → instanceof e JsonWebTokenError = true.
Proof.
  intros Hjwt. unfold Jwt.verify, throw, mret, M_ret. intros Hrun.
  repeat case_match; simplify_eq; try done. by eapply Hjwt.
Qed.

(** Whatever the guard answers, the error field is not "Token expired". *)
Lemma authMiddleware_error_field (req req' : Request) (res : Response) (d : DB) :
  outcome (AuthMiddleware.authMiddleware req) d = Ok (req', Respond res) →
  prop (json res) "error" ≠ VStr "Token expired".
Proof.
  unfold outcome, run, AuthMiddleware.authMiddleware. rewrite try_catch_run.
  set (w := mkWorld d []).
  destruct (authorization req) as [| | | |header];
    try (intros [= <- <-]; vm_compute; discriminate).
  destruct (startsWith "Bearer " header);
    [|intros [= <- <-]; vm_compute; discriminate].
  change (negb true) with false. cbv iota. rewrite bind_run.
  destruct (Jwt.verify _ w) as [[decoded|error] w1] eqn:Hverify;
    apply verify_pure in Hverify as Hw1; subst w1.
  - rewrite bind_run, findFirst_run.
    destruct (head _) as [u|]; [|intros [= <- <-]; vm_compute; discriminate].
    cbv iota beta.
    destruct (negb (truthy (isMainDomain req))
              && strict_ne (column u "tenantId") (tenantId req));
      [intros [= <- <-]; vm_compute; discriminate|discriminate].
  - cbv iota beta.
    destruct (instanceof error JsonWebTokenError) eqn:Hjwt;
      [intros [= <- <-]; vm_compute; discriminate|].
    destruct (instanceof error TokenExpiredError) eqn:Hexp.
    { apply expired_is_a_jwt_error in Hexp. congruence. }
    destruct (instanceof error UnauthorizedError || instanceof error ForbiddenError)
      eqn:Hclass; intros [= <- <-].
    + unfold error_body, prop. cbn [json].
      rewrite lookup_insert_eq. simpl.
      intros [= Hname]. by apply (reported_name_is_a_class_name error) in Hname.
    + vm_compute. discriminate.
Qed.

(** An expired token is answered like a forged one. *)
Lemma authMiddleware_expired_token (req : Request) (header token : string) (e : Err) (d : DB) :
  authorization req = VStr header →
  startsWith "Bearer " header = true →
  split " "%char header !! 1%nat = Some token →
  jwt_verify token (jwt_secret config) = inl e →
  instanceof e TokenExpiredError = true →
  run (AuthMiddleware.authMiddleware req) d
  = (Ok (req, Respond (mkResponse 401
           (error_body "Invalid token" "The provided token is invalid"))),
     mkWorld d []).
Proof.
  intros Hauth Hbearer Htoken Hverify Hexp.
  unfold run, AuthMiddleware.authMiddleware.
  rewrite try_catch_run, Hauth, Hbearer. change (negb true) with false. cbv iota.
  unfold AuthMiddleware.at_index. rewrite Htoken, bind_run.
  unfold Jwt.verify at 1. rewrite Hverify. unfold throw at 1. cbv iota beta.
  by rewrite (expired_is_a_jwt_error e Hexp).
Qed.

(** X1: the guard never answers "Token expired".  The guard hands the
    bearer token to jwt.verify itself, and its handler tests
    JsonWebTokenError before TokenExpiredError, a subclass of it: a token
    that jwt.verify rejects with TokenExpiredError is answered 401
    "Invalid token", like a forged one, before any store call; and
    whatever else the guard answers, the error field of the response is
    not "Token expired". *)
Theorem authMiddleware_never_reports_expiry (req : Request) (d : DB) :
  (∀ req' res,
     outcome (AuthMiddleware.authMiddleware req) d = Ok (req', Respond res) →
     prop (json res) "error" ≠ VStr "Token expired")
  ∧ (∀ header token e,
       authorization req = VStr header →
       startsWith "Bearer " header = true →
       split " "%char header !! 1%nat = Some token →
       jwt_verify token (jwt_secret config) = inl e →
       instanceof e TokenExpiredError = true →
       outcome (AuthMiddleware.authMiddleware req) d
       = Ok (req, Respond (mkResponse 401
               (error_body "Invalid token" "The provided token is invalid")))
       ∧ calls_of (AuthMiddleware.authMiddleware req) d = []).
Proof.
  split.
  - intros req' res. apply authMiddleware_error_field.
  - intros header token e Hauth Hbearer Htoken Hverify Hexp.
    unfold outcome, calls_of.
    by rewrite (authMiddleware_expired_token req header token e d).
Qed.

(** X2: when jsonwebtoken raises its own errors only, the guard refuses
    with 401 or 403 and nothing else, 403 only outside the main domain;
    a refused request comes back as it was, and the store is never
    written. *)
Theorem authMiddleware_refuses_with_401_or_403 (req : Request) (d : DB) :
  verify_throws_jwt_errors →
  ∃ req' action,
    outcome (AuthMiddleware.authMiddleware req) d = Ok (req', action)
    ∧ db_after (AuthMiddleware.authMiddleware req) d = d
    ∧ match action with
      | Next => ∃ u, req' = AuthMiddleware.with_user req u
      | Respond res =>
          req' = req
          ∧ (status res = 401%Z
             ∨ (status res = 403%Z ∧ truthy (isMainDomain req) = false))
      end.
Proof.
  intros Hjwt.
  unfold outcome, db_after, run, AuthMiddleware.authMiddleware. rewrite try_catch_run.
  set (w := mkWorld d []).
  destruct (authorization req) as [| | | |header];
    try (do 2 eexists; split; [reflexivity|split; [done|split; [done|by left]]]).
  destruct (startsWith "Bearer " header);
    [|do 2 eexists; split; [reflexivity|split; [done|split; [done|by left]]]].
  change (negb true) with false. cbv iota. rewrite bind_run.
  destruct (Jwt.verify _ w) as [[decoded|error] w1] eqn:Hverify;
    apply verify_pure in Hverify as Hw1; subst w1.
  - rewrite bind_run, findFirst_run.
    destruct (head _) as [u|];
      [|do 2 eexists; split; [reflexivity|split; [done|split; [done|by left]]]].
    cbv iota beta.
    destruct (negb (truthy (isMainDomain req))) eqn:Hmain; simpl andb.
    + destruct (strict_ne (column u "tenantId") (tenantId req)).
      * do 2 eexists. split; [reflexivity|]. split; [done|]. split; [done|].
        right. split; [done|]. by apply negb_true_iff.
      * do 2 eexists. split; [reflexivity|]. split; [done|]. by exists u.
    + do 2 eexists. split; [reflexivity|]. split; [done|]. by exists u.
  - cbv iota beta. rewrite (verify_throws _ _ _ _ Hjwt Hverify).
    do 2 eexists. split; [reflexivity|split; [done|split; [done|by left]]].
Qed.

(** X3: optionalAuth never refuses a request and never writes the store; it
    attaches the user a valid token names, and does so without comparing
    the user's tenant with the tenant of the request. *)
Theorem optionalAuth_always_passes (req : Request) (d : DB) :
  (∃ req',
     outcome (AuthMiddleware.optionalAuth req) d = Ok (req', Next)
     ∧ db_after (AuthMiddleware.optionalAuth req) d = d
     ∧ (req' = req ∨ ∃ u, req' = AuthMiddleware.with_user req u))
  ∧ ∀ u, authenticates req d u →
      outcome (AuthMiddleware.optionalAuth req) d = Ok (AuthMiddleware.with_user req u, Next).
Proof.
  unfold outcome, db_after, run, AuthMiddleware.optionalAuth. rewrite try_catch_run.
  set (w := mkWorld d []). split.
  - destruct (authorization req) as [| | | |header];
      try (eexists; split; [reflexivity|split; [done|by left]]).
    destruct (startsWith "Bearer " header);
      [|eexists; split; [reflexivity|split; [done|by left]]].
    change (negb true) with false. cbv iota. rewrite bind_run.
    destruct (Jwt.verify _ w) as [[decoded|error] w1] eqn:Hverify;
      apply verify_pure in Hverify as Hw1; subst w1.
    + rewrite bind_run, findFirst_run.
      destruct (head _) as [u|].
      * eexists. split; [reflexivity|split; [done|right; by exists u]].
      * eexists. split; [reflexivity|split; [done|by left]].
    + eexists. split; [reflexivity|split; [done|by left]].
  - intros u (header & token & decoded & Hauth & Hbearer & Htoken & Hverify & Hfind).
    rewrite Hauth, Hbearer. change (negb true) with false. cbv iota.
    unfold AuthMiddleware.at_index. rewrite Htoken.
    rewrite bind_run, (verify_run token decoded) by done.
    rewrite bind_run, findFirst_run.
    change (table MUser (db w)) with (users d).
    fold (active_user_lookup decoded). by rewrite Hfind.
Qed.

End Guards.

(** ** The tenant resolver on the main domain *)

Section MainDomain.
Context `{Env}.

Lemma tenantMiddleware_main_production (req : Request) (w : World) :
  TenantMiddleware.on_main_domain (hostname req) = true →
  nodeEnv config ≠ "development" →
  TenantMiddleware.tenantMiddleware req w = (Ok (TenantMiddleware.mark_main req, Next), w).
Proof.
  intros Hmain Hprod. unfold TenantMiddleware.tenantMiddleware.
  rewrite try_catch_run, Hmain. cbv iota.
  by rewrite bind_run, bool_decide_eq_false_2.
Qed.

Lemma tenantMiddleware_main_development (req : Request) (w : World) :
  TenantMiddleware.on_main_domain (hostname req) = true →
  nodeEnv config = "development" →
  TenantMiddleware.tenantMiddleware req w
  = (Ok (match head (Model.find_rows default_tenant_lookup (tenants (db w))) with
         | Some t => TenantMiddleware.with_tenant req t true
         | None => TenantMiddleware.mark_main req
         end, Next),
     mkWorld (db w) (calls w ++ [CallFindFirst MTenant default_tenant_lookup])).
Proof.
  intros Hmain Hdev. unfold TenantMiddleware.tenantMiddleware.
  rewrite try_catch_run, Hmain. cbv iota.
  rewrite bind_run, bool_decide_eq_true_2 by done. cbv iota.
  rewrite try_catch_run, findFirst_run. fold default_tenant_lookup.
  change (table MTenant (db w)) with (tenants (db w)).
  by destruct (head _).
Qed.

Lemma tenantMiddleware_subdomain_at (req : Request) (w : World) :
  TenantMiddleware.on_main_domain (hostname req) = false →
  let label := TenantMiddleware.subdomain_of (hostname req) in
  TenantMiddleware.tenantMiddleware req w
  = (match head (selected (fa_where (active_tenant_lookup label)) (tenants (db w))) with
     | Some t =>
         Ok (TenantMiddleware.with_tenant req
               (project TenantMiddleware.tenant_select t) false, Next)
     | None =>
         Ok (req, Respond (mkResponse 404
               (error_body "Tenant not found"
                  ("Tenant with subdomain '" +:+ label +:+ "' not found"))))
     end,
     mkWorld (db w) (calls w ++ [CallFindUnique MTenant (active_tenant_lookup label)])).
Proof.
  intros Hmain label.
  unfold TenantMiddleware.tenantMiddleware.
  rewrite try_catch_run, Hmain. cbv iota.
  rewrite bind_run, findUnique_run. fold label. fold (active_tenant_lookup label).
  change (table MTenant (db w)) with (tenants (db w)).
  unfold active_tenant_lookup at 1. rewrite find_rows_select.
  by destruct (selected _ _).
Qed.

Lemma by_one_key_matches (key : string) (v : value) (r : row) :
  v ≠ VUndefined →
  matches (Some {[key := CEq v]}) r = true ↔ column r key = v.
Proof.
  intros Hv. simpl. rewrite satisfies_spec. split.
  - intros Hall. specialize (Hall key (CEq v)).
    rewrite lookup_singleton_eq in Hall. specialize (Hall eq_refl). simpl in Hall.
    destruct v; try done; by apply bool_decide_eq_true in Hall.
  - intros Hcol k c Hk. apply lookup_singleton_Some in Hk as [<- <-].
    simpl. rewrite Hcol. destruct v; try done; by apply bool_decide_eq_true.
Qed.

(** X4: on a main-domain host the resolver never refuses.  In production it
    asks the store nothing and only sets the flag; in development it
    attaches an active tenant when there is one (the first the store lists
    by creation time), and still flags the request as main-domain. *)
Theorem tenantMiddleware_on_main_domain (req : Request) (d : DB) :
  ordering_is_permutation →
  TenantMiddleware.on_main_domain (hostname req) = true →
  (nodeEnv config ≠ "development" →
     run (TenantMiddleware.tenantMiddleware req) d
     = (Ok (TenantMiddleware.mark_main req, Next), mkWorld d []))
  ∧ (nodeEnv config = "development" →
     ∃ req',
       run (TenantMiddleware.tenantMiddleware req) d
       = (Ok (req', Next), mkWorld d [CallFindFirst MTenant default_tenant_lookup])
       ∧ isMainDomain req' = VBool true
       ∧ ((∃ t, t ∈ tenants d ∧ column t "isActive" = VBool true
                ∧ tenant req' = Some (project TenantMiddleware.tenant_select t)
                ∧ tenantId req' = column t "id")
          ∨ ((∀ t, t ∈ tenants d → column t "isActive" ≠ VBool true)
             ∧ tenant req' = tenant req ∧ tenantId req' = tenantId req))).
Proof.
  intros Hperm Hmain. split; intros Henv.
  - unfold run. by rewrite tenantMiddleware_main_production.
  - unfold run. rewrite tenantMiddleware_main_development by done.
    eexists. split; [reflexivity|].
    unfold Model.find_rows, Model.select_rows. cbn [db].
    set (active := filter _ (tenants d)).
    assert (Hactive : ∀ t, t ∈ active ↔ column t "isActive" = VBool true ∧ t ∈ tenants d).
    { intros t. unfold active. rewrite list_elem_of_filter.
      change (fa_where default_tenant_lookup)
        with (Some ({["isActive" := CEq (VBool true)]} : Where)).
      by rewrite by_one_key_matches. }
    simpl. pose proof (Hperm ("createdAt", Asc) active) as Hsame.
    destruct (order_rows ("createdAt", Asc) active) as [|t rest]; simpl.
    + split; [done|]. right. split; [|done].
      intros t Ht Hact. apply Permutation_nil_l in Hsame.
      assert (Hin : t ∈ active) by by apply Hactive.
      rewrite <- Hsame in Hin. by apply elem_of_nil in Hin.
    + split; [done|]. left. exists t.
      assert (Ht : t ∈ active) by (rewrite <- Hsame; left).
      apply Hactive in Ht as [Hact Hin].
      repeat split; try done. apply project_column. by left.
Qed.

End MainDomain.

(** ** The guards in the order the routers install them *)

Section Pipelines.
Context `{Env}.

Lemma and_then_run (first second : Request → M (Request * Action)) (req : Request)
    (w : World) :
  Routes.and_then first second req w
  = match first req w with
    | (Ok (req', Next), w') => second req' w'
    | (Ok (req', Respond res), w') => (Ok (req', Respond res), w')
    | (Throw e, w') => (Throw e, w')
    end.
Proof.
  unfold Routes.and_then. rewrite bind_run.
  by destruct (first req w) as [[[req' [|res]]|e] w'].
Qed.

Lemma sync_run (f : Request → Request * Action) (req : Request) (w : World) :
  Routes.sync f req w = (Ok (f req), w).
Proof. reflexivity. Qed.

(** X5: in production every request that reaches a handler of the todo
    routes was sent to the subdomain of an active tenant, carries that
    tenant's id, and carries a user of that same tenant; no guard on the
    way has written the store. *)
Theorem todoRoutes_production_isolation (path : string) (req req' : Request) (d : DB) :
  nodeEnv config ≠ "development" →
  truthy (tenantId req) = false →
  outcome (Routes.todoRoutes path req) d = Ok (req', Next) →
  TenantMiddleware.on_main_domain (hostname req) = false
  ∧ db_after (Routes.todoRoutes path req) d = d
  ∧ ∃ t u,
      t ∈ tenants d
      ∧ active_tenant (TenantMiddleware.subdomain_of (hostname req)) t
      ∧ isMainDomain req' = VBool false
      ∧ tenantId req' = column t "id"
      ∧ truthy (column t "id") = true
      ∧ user req' = Some u
      ∧ column u "tenantId" = column t "id".
Proof.
  intros Hprod Hfresh.
  unfold outcome, db_after, run, Routes.todoRoutes.
  set (w := mkWorld d []). rewrite and_then_run.
  destruct (TenantMiddleware.on_main_domain (hostname req)) eqn:Hmain.
  - rewrite tenantMiddleware_main_production by done.
    rewrite and_then_run.
    destruct (authMiddleware_shape (TenantMiddleware.mark_main req) w)
      as (r1 & a1 & w1 & -> & Hdb & [[-> (u & -> & _)]|(res & -> & ->)]);
      [|discriminate].
    unfold Routes.sync, TenantMiddleware.requireTenant.
    cbn [tenantId AuthMiddleware.with_user TenantMiddleware.mark_main].
    rewrite Hfresh, bool_decide_eq_false_2 by done. discriminate.
  - rewrite (tenantMiddleware_subdomain_at req w Hmain).
    destruct (head _) as [t|] eqn:Hhead; [|discriminate].
    apply head_Some_elem_of, list_elem_of_filter in Hhead as [Hm Hin].
    apply subdomain_matches in Hm.
    rewrite and_then_run.
    set (req1 := TenantMiddleware.with_tenant req _ false).
    destruct (authMiddleware_shape req1 (mkWorld (db w)
                (calls w ++ [CallFindUnique MTenant
                   (active_tenant_lookup (TenantMiddleware.subdomain_of (hostname req)))])))
      as (r1 & a1 & w1 & -> & Hdb & [[-> (u & -> & Hsame)]|(res & -> & ->)]);
      [|discriminate].
    specialize (Hsame eq_refl).
    assert (Hid : tenantId req1 = column t "id").
    { unfold req1. cbn. apply project_column. by left. }
    unfold Routes.sync, TenantMiddleware.requireTenant.
    cbn [tenantId AuthMiddleware.with_user]. rewrite Hid.
    destruct (truthy (column t "id")) eqn:Htruthy; cbn [negb].
    + intros [= <-]. split; [done|]. split; [exact Hdb|].
      exists t, u. rewrite Hid in Hsame.
      split; [exact Hin|]. split; [exact Hm|]. by repeat split.
    + rewrite bool_decide_eq_false_2 by done. discriminate.
Qed.

(** X6: in development a main-domain host (localhost) gets the default
    tenant, and the guard, seeing the main-domain flag, does not compare
    tenants: a user of any tenant reaches the todo handlers with the
    default tenant's id as the tenant of the request. *)
Theorem todoRoutes_development_default_tenant (path : string) (req : Request) (d : DB)
    (t u : row) :
  nodeEnv config = "development" →
  TenantMiddleware.on_main_domain (hostname req) = true →
  head (Model.find_rows default_tenant_lookup (tenants d)) = Some t →
  truthy (column t "id") = true →
  authenticates req d u →
  outcome (Routes.todoRoutes path req) d
  = Ok (AuthMiddleware.with_user (TenantMiddleware.with_tenant req t true) u, Next).
Proof.
  intros Hdev Hmain Hdefault Htruthy
    (header & token & decoded & Hauth & Hbearer & Htoken & Hverify & Hfind).
  unfold outcome, run, Routes.todoRoutes.
  rewrite and_then_run, tenantMiddleware_main_development by done.
  cbn [db calls]. rewrite Hdefault, and_then_run.
  destruct (authMiddleware_authenticated_at (TenantMiddleware.with_tenant req t true)
              (mkWorld d ([] ++ [CallFindFirst MTenant default_tenant_lookup])) u)
    as [log ->].
  { by exists header, token, decoded. }
  cbn [isMainDomain TenantMiddleware.with_tenant truthy negb andb]. cbv iota.
  unfold Routes.sync, TenantMiddleware.requireTenant.
  cbn [tenantId AuthMiddleware.with_user TenantMiddleware.with_tenant].
  by rewrite Htruthy.
Qed.

(** X7: every request that reaches a handler of the tenant administration
    routes was sent to a main-domain host and carries a user whose role is
    ADMIN, of whatever tenant; no guard on the way has written the
    store. *)
Theorem tenantRoutes_admit_admins_on_main_domain (req req' : Request) (d : DB) :
  outcome (Routes.tenantRoutes req) d = Ok (req', Next) →
  TenantMiddleware.on_main_domain (hostname req) = true
  ∧ db_after (Routes.tenantRoutes req) d = d
  ∧ isMainDomain req' = VBool true
  ∧ ∃ u, user req' = Some u ∧ column u "role" = VStr "ADMIN".
Proof.
  unfold outcome, db_after, run, Routes.tenantRoutes.
  set (w := mkWorld d []). rewrite and_then_run.
  destruct (TenantMiddleware.tenantMiddleware req w) as [[[req1 [|res1]]|e1] w1] eqn:Hresolve;
    try discriminate.
  assert (Hfacts : TenantMiddleware.on_main_domain (hostname req) = true
                   ∧ db w1 = d ∧ isMainDomain req1 = VBool true
                   ∨ isMainDomain req1 = VBool false).
  { destruct (TenantMiddleware.on_main_domain (hostname req)) eqn:Hmain.
    - left. split; [done|].
      destruct (decide (nodeEnv config = "development")) as [Hdev|Hprod].
      + rewrite tenantMiddleware_main_development in Hresolve by done.
        injection Hresolve as <- <-. split; [done|]. by destruct (head _).
      + rewrite tenantMiddleware_main_production in Hresolve by done.
        by injection Hresolve as <- <-.
    - right. rewrite (tenantMiddleware_subdomain_at req w Hmain) in Hresolve.
      destruct (head _); by simplify_eq. }
  rewrite and_then_run, sync_run. unfold Routes.mainDomainOnly.
  destruct Hfacts as [(Hmain & Hdb1 & Hflag)|Hflag]; rewrite Hflag; cbn [truthy negb];
    [|discriminate].
  cbv iota. rewrite and_then_run.
  destruct (authMiddleware_shape req1 w1)
    as (r2 & a2 & w2 & -> & Hdb2 & [[-> (u & -> & _)]|(res & -> & ->)]);
    [|discriminate].
  rewrite sync_run. unfold AuthMiddleware.requireRole. cbn [user AuthMiddleware.with_user].
  destruct (decide (column u "role" ∈ [VStr "ADMIN"])) as [Hrole|Hrole].
  - rewrite bool_decide_eq_true_2 by done. cbn [negb]. intros [= <-].
    split; [done|]. split; [cbn [snd]; congruence|]. split; [exact Hflag|].
    exists u. split; [done|]. by apply list_elem_of_singleton in Hrole.
  - rewrite bool_decide_eq_false_2 by done. discriminate.
Qed.

End Pipelines.

(** ** The repository's writes and how they compose with its reads *)

Section RepositoryWrites.
Context `{Env}.

Lemma selected_app (q : option Where) (l1 l2 : list row) :
  selected q (l1 ++ l2) = (selected q l1 ++ selected q l2)%list.
Proof. unfold selected. apply filter_app. Qed.

Lemma selected_cons_hit (q : option Where) (r : row) (l : list row) :
  matches q r = true → selected q (r :: l) = r :: selected q l.
Proof. intros Hm. unfold selected. by rewrite filter_cons_True. Qed.

Lemma selected_cons_miss (q : option Where) (r : row) (l : list row) :
  matches q r ≠ true → selected q (r :: l) = selected q l.
Proof. intros Hm. unfold selected. by rewrite filter_cons_False. Qed.

(** The scoped re-read finds the first row with the id when that row
    belongs to the tenant. *)
Lemma reread_hits (m : ModelName) (id : string) (t : value) (pre post : list row)
    (u : row) (w : World) :
  table m (db w) = (pre ++ u :: post)%list →
  (∀ r, r ∈ pre → column r "id" ≠ VStr id) →
  column u "id" = VStr id →
  (truthy t = true → column u "tenantId" = t) →
  Model.findFirst m
    (mkFindArgs (BaseRepository.addTenantFilter (Some {["id" := CEq (VStr id)]}) t)
       None None no_options) w
  = (Ok (Some u),
     mkWorld (db w)
       (calls w ++ [CallFindFirst m
          (mkFindArgs (BaseRepository.addTenantFilter (Some {["id" := CEq (VStr id)]}) t)
             None None no_options)])).
Proof.
  intros Htable Hpre Hid Hten.
  rewrite findFirst_run, find_rows_plain, Htable, selected_app.
  rewrite (nothing_selected _ pre), selected_cons_hit; [done| |].
  - destruct (truthy t) eqn:Ht.
    + rewrite addTenantFilter_truthy by done. apply by_id_matches; [done..|].
      split; [done|]. by apply Hten.
    + rewrite addTenantFilter_falsy by done. by apply by_one_key_matches.
  - intros r Hr Hm. apply (Hpre r Hr).
    destruct (truthy t) eqn:Ht.
    + rewrite addTenantFilter_truthy in Hm by done.
      by apply by_id_matches in Hm as [? _].
    + rewrite addTenantFilter_falsy in Hm by done.
      by apply by_one_key_matches in Hm.
Qed.

Lemma delete_first_found (id : value) (pre post : list row) (u : row) :
  (∀ r, r ∈ pre → column r "id" ≠ id) →
  column u "id" = id →
  Model.delete_first id (pre ++ u :: post)%list = Some (u, (pre ++ post)%list).
Proof.
  intros Hpre Hu. induction pre as [|r pre IH]; simpl.
  - unfold Model.has_id. by rewrite bool_decide_eq_true_2.
  - unfold Model.has_id at 1. rewrite bool_decide_eq_false_2.
    + rewrite IH; [done|]. intros r' Hr'. apply Hpre. by right.
    + apply Hpre. by left.
Qed.

Lemma delete_run (m : ModelName) (id : value) (w : World) :
  id ≠ VUndefined →
  Model.delete m id w
  = match Model.delete_first id (table m (db w)) with
    | Some (r, t) =>
        (Ok r, mkWorld (set_table m t (db w)) (calls w ++ [CallDelete m id]))
    | None =>
        (Throw Model.record_not_found,
         mkWorld (db w) (calls w ++ [CallDelete m id]))
    end.
Proof.
  intros Hid. unfold Model.delete.
  rewrite bind_run. cbn [record_call]. rewrite bind_run. cbn [get_db db calls].
  rewrite bool_decide_eq_false_2 by done.
  by destruct (Model.delete_first id (table m (db w))) as [[r t]|].
Qed.

Lemma table_set_same (m : ModelName) (t : list row) (d : DB) :
  table m (set_table m t d) = t.
Proof. by destruct m. Qed.

Lemma table_set_other (m m' : ModelName) (t : list row) (d : DB) :
  m' ≠ m → table m' (set_table m t d) = table m' d.
Proof. by destruct m, m'. Qed.

(** X8: update on a row the tenant owns: the row takes every defined property
    of the data, the tenantId and the id included when the data carries
    them, keeps its other columns, and no other row of any table changes. *)
Theorem update_writes_the_owned_row (m : ModelName) (id : string) (t : value)
    (patch : object) (d : DB) (pre post : list row) (u : row) :
  table m d = (pre ++ u :: post)%list →
  (∀ r, r ∈ pre → column r "id" ≠ VStr id) →
  column u "id" = VStr id →
  (truthy t = true → column u "tenantId" = t) →
  ∃ u',
    outcome (BaseRepository.update m (VStr id) patch t) d = Ok u'
    ∧ table m (db_after (BaseRepository.update m (VStr id) patch t) d)
      = (pre ++ u' :: post)%list
    ∧ (∀ m', m' ≠ m →
         table m' (db_after (BaseRepository.update m (VStr id) patch t) d) = table m' d)
    ∧ (∀ k v, patch !! k = Some v → v ≠ VUndefined → column u' k = v)
    ∧ (∀ k, (patch !! k = None ∨ patch !! k = Some VUndefined) → column u' k = column u k).
Proof.
  intros Htable Hpre Hid Hten.
  exists (spread u (Model.defined_props patch)).
  unfold outcome, db_after, run, BaseRepository.update.
  rewrite bind_run, (reread_hits m id t pre post u) by done.
  cbv iota beta. rewrite update_run by done. cbn [db calls].
  rewrite Htable, update_first_found by done. cbn [fst snd db].
  split; [done|]. split; [apply table_set_same|].
  split; [intros m' Hm'; by apply table_set_other|].
  split.
  - intros k v Hk Hv. unfold column, spread.
    erewrite lookup_union_Some_l; [done|]. by apply map_lookup_filter_Some_2.
  - intros k Hk. unfold column, spread.
    rewrite lookup_union_r; [done|].
    apply map_lookup_filter_None. destruct Hk as [Hk|Hk]; [by left|].
    right. intros v Hv. rewrite Hk in Hv. injection Hv as <-. simpl. by intros ?.
Qed.

(** X9: delete on a row the tenant owns removes that row and nothing else;
    when no other row shares the id, a later findById finds nothing. *)
Theorem delete_removes_the_owned_row (m : ModelName) (id : string) (t : value)
    (d : DB) (pre post : list row) (u : row) :
  table m d = (pre ++ u :: post)%list →
  (∀ r, r ∈ pre → column r "id" ≠ VStr id) →
  column u "id" = VStr id →
  (truthy t = true → column u "tenantId" = t) →
  outcome (BaseRepository.delete m (VStr id) t) d = Ok u
  ∧ table m (db_after (BaseRepository.delete m (VStr id) t) d) = (pre ++ post)%list
  ∧ (∀ m', m' ≠ m →
       table m' (db_after (BaseRepository.delete m (VStr id) t) d) = table m' d)
  ∧ ((∀ r, r ∈ post → column r "id" ≠ VStr id) →
     outcome (BaseRepository.findById m (VStr id) t no_options)
       (db_after (BaseRepository.delete m (VStr id) t) d) = Ok None).
Proof.
  intros Htable Hpre Hid Hten.
  unfold outcome, db_after, run, BaseRepository.delete.
  rewrite bind_run, (reread_hits m id t pre post u) by done.
  cbv iota beta. rewrite delete_run by done. cbn [db calls].
  rewrite Htable, delete_first_found by done. cbn [fst snd db].
  split; [done|]. split; [apply table_set_same|].
  split; [intros m' Hm'; by apply table_set_other|].
  intros Hpost. unfold BaseRepository.findById. rewrite with_no_options.
  rewrite findFirst_run, find_rows_plain. cbn [db].
  rewrite table_set_same, nothing_selected; [done|].
  intros r Hr Hm. apply elem_of_app in Hr.
  assert (Hne : column r "id" ≠ VStr id) by (destruct Hr; eauto).
  apply Hne. destruct (truthy t) eqn:Ht.
  - rewrite addTenantFilter_truthy in Hm by done.
    by apply by_id_matches in Hm as [? _].
  - rewrite addTenantFilter_falsy in Hm by done.
    by apply by_one_key_matches in Hm.
Qed.

(** What create hands to the store. *)
Lemma create_run (m : ModelName) (data : object) (t : value) (w : World) :
  let finalData :=
    if truthy t && Model.fields_tenantId m then <["tenantId" := t]> data else data in
  let r := Model.new_row m finalData (next_id (db w)) in
  BaseRepository.create m data t w
  = (Ok r,
     mkWorld
       (set_table m (table m (db w) ++ [r])
          (mkDB (users (db w)) (todos (db w)) (tenants (db w)) (S (next_id (db w)))))
       (calls w ++ [CallCreate m finalData])).
Proof. unfold BaseRepository.create. by destruct m, (truthy t). Qed.

Lemma new_row_id_defined (m : ModelName) (data : object) (n : nat) :
  column (Model.new_row m data n) "id" ≠ VUndefined.
Proof.
  unfold column, Model.new_row.
  destruct (Model.defined_props data !! "id") as [v|] eqn:Hid.
  - erewrite lookup_union_Some_l; [|done]. simpl.
    apply map_lookup_filter_Some in Hid as [_ Hv]. exact Hv.
  - erewrite lookup_union_Some_l; [|apply lookup_insert_eq]. done.
Qed.

(** X10: create stamps the tenant: for the user and todo models and a truthy
    tenant id the new row belongs to that tenant whatever tenantId the data
    carried, keeps every other defined property of the data, and is
    appended to its table, all other rows staying as they were.  When no
    row had its id, findById returns it under the same tenant and nothing
    under any other. *)
Theorem create_stamps_the_tenant (m : ModelName) (data : object) (t : value) (d : DB) :
  truthy t = true →
  m ≠ MTenant →
  ∃ r,
    outcome (BaseRepository.create m data t) d = Ok r
    ∧ column r "tenantId" = t
    ∧ (∀ k v, k ≠ "tenantId" → data !! k = Some v → v ≠ VUndefined → column r k = v)
    ∧ table m (db_after (BaseRepository.create m data t) d) = (table m d ++ [r])%list
    ∧ (∀ m', m' ≠ m →
         table m' (db_after (BaseRepository.create m data t) d) = table m' d)
    ∧ ((∀ r0, r0 ∈ table m d → column r0 "id" ≠ column r "id") →
       outcome (BaseRepository.findById m (column r "id") t no_options)
         (db_after (BaseRepository.create m data t) d) = Ok (Some r)
       ∧ ∀ t', truthy t' = true → t' ≠ t →
           outcome (BaseRepository.findById m (column r "id") t' no_options)
             (db_after (BaseRepository.create m data t) d) = Ok None).
Proof.
  intros Ht Hm.
  assert (Hfield : Model.fields_tenantId m = true) by by destruct m.
  pose proof (create_run m data t (mkWorld d [])) as Hrun.
  cbv zeta in Hrun. rewrite Ht, Hfield in Hrun. cbn [andb db calls] in Hrun.
  set (r := Model.new_row m (<["tenantId" := t]> data) (next_id d)) in *.
  exists r. unfold outcome, db_after, run. rewrite Hrun. cbn [fst snd db].
  assert (Htenant : column r "tenantId" = t).
  { apply new_row_column; [apply lookup_insert_eq|by apply truthy_defined]. }
  assert (Htable : table m (set_table m (table m d ++ [r])
                      (mkDB (users d) (todos d) (tenants d) (S (next_id d))))
                   = (table m d ++ [r])%list) by apply table_set_same.
  split; [done|]. split; [done|]. split.
  { intros k v Hk Hdata Hv. apply new_row_column; [|done]. by rewrite lookup_insert_ne. }
  split; [done|]. split.
  { intros m' Hm'. rewrite table_set_other by done. by destruct m'. }
  intros Hfresh.
  assert (Hold : ∀ t', truthy t' = true →
            selected (scoped (Some {["id" := CEq (column r "id")]}) t') (table m d) = []).
  { intros t' Ht'. apply nothing_selected. intros r0 Hr0 Hmatch.
    apply (Hfresh r0 Hr0).
    by apply by_id_matches in Hmatch as [? _]; [|done|apply new_row_id_defined]. }
  unfold BaseRepository.findById. split.
  - rewrite with_no_options.
    rewrite findFirst_run, find_rows_plain, addTenantFilter_truthy by done.
    cbn [db]. rewrite Htable, selected_app, Hold by done.
    rewrite selected_cons_hit; [done|].
    apply by_id_matches; [done|apply new_row_id_defined|done].
  - intros t' Ht' Hne. rewrite with_no_options.
    rewrite findFirst_run, find_rows_plain, addTenantFilter_truthy by done.
    cbn [db]. rewrite Htable, selected_app, Hold by done.
    rewrite selected_cons_miss; [done|].
    intros Hmatch. apply by_id_matches in Hmatch as [_ Hten];
      [|done|apply new_row_id_defined]. congruence.
Qed.

(** X11: a count and a findMany with the same where and tenant id agree
    when the only keys of the options of findMany are orderBy and select,
    so that they carry no where, skip or take key: findMany does not
    fail, and count is the number of rows it returns. *)
Theorem count_is_length_of_findMany (m : ModelName) (q : option Where) (t : value)
    (o : Options) (d : DB) :
  ordering_is_permutation →
  plain_options o →
  ∃ rows,
    outcome (BaseRepository.findMany m q t o) d = Ok rows
    ∧ outcome (BaseRepository.count m q t) d = Ok (Z.of_nat (length rows)).
Proof.
  intros Hperm Hplain. unfold outcome, run, BaseRepository.findMany.
  rewrite with_options_plain by done.
  eexists. split; [reflexivity|].
  unfold BaseRepository.count. rewrite count_run. cbn [fst].
  unfold Model.find_rows, Model.select_rows. cbn [fa_take fa_skip take_rows skip_rows].
  rewrite length_fmap. cbn [fa_options fa_where db].
  fold (selected (BaseRepository.addTenantFilter q t) (table m d)).
  destruct (orderBy o) as [ob|]; [|done].
  by rewrite (Permutation_length (Hperm ob _)).
Qed.

End RepositoryWrites.

(** ** Pages, profile updates and the other statistics *)

Section MoreRepository.
Context `{Env}.

Lemma findPaginated_run (m : ModelName) (q : option Where) (t : value)
    (page pageSize : Z) (o : Options) (d : DB) :
  plain_options o →
  (1 ≤ page)%Z → (1 ≤ pageSize)%Z →
  let found := selected (BaseRepository.addTenantFilter q t) (table m d) in
  let listing := project (select o) <$> listed o found in
  outcome (BaseRepository.findPaginated m q t (Some page) (Some pageSize) o) d
  = Ok (BaseRepository.mkPage
          (take (Z.to_nat pageSize) (drop (Z.to_nat ((page - 1) * pageSize)) listing))
          (BaseRepository.mkPagination (Z.of_nat (length found)) page pageSize
             (BaseRepository.ceil_div (Z.of_nat (length found)) pageSize))).
Proof.
  intros Hplain Hpage Hsize found listing.
  unfold outcome, run, BaseRepository.findPaginated.
  rewrite with_options_plain by done.
  unfold both, Model.findMany, Model.count. simpl.
  destruct ((page - 1) * pageSize <? 0)%Z eqn:Hneg; [nia|]. simpl.
  unfold Model.find_rows, Model.select_rows. simpl.
  destruct (pageSize <? 0)%Z eqn:Hps; [lia|].
  unfold listing, listed, found, selected.
  by rewrite fmap_take, fmap_drop.
Qed.

Lemma slices_join (A : Type) (k n : nat) (l : list A) :
  mjoin ((fun i => take k (drop (i * k) l)) <$> seq 0 n) = take (n * k) l.
Proof.
  induction n as [|n IH]; [done|].
  rewrite seq_S, fmap_app, join_app, IH. simpl.
  rewrite app_nil_r, take_take_drop. f_equal. lia.
Qed.

(** X12: for options whose only keys are orderBy and select, so that
    they carry no where, skip or take key, the pages 1 .. totalPages, one
    after the other, are the listing: no row is skipped and none is
    repeated. *)
Theorem pages_make_up_the_listing (m : ModelName) (q : option Where) (t : value)
    (pageSize : Z) (o : Options) (d : DB) :
  ordering_is_permutation →
  plain_options o →
  (1 ≤ pageSize)%Z →
  let found := selected (BaseRepository.addTenantFilter q t) (table m d) in
  let totalPages := BaseRepository.ceil_div (Z.of_nat (length found)) pageSize in
  mjoin ((fun i => page_data m q t pageSize o d (Z.of_nat (S i)))
           <$> seq 0 (Z.to_nat totalPages))
  = project (select o) <$> listed o found.
Proof.
  intros Hperm Hplain Hsize found totalPages.
  set (listing := project (select o) <$> listed o found).
  assert (Hpages : ∀ i : nat,
            page_data m q t pageSize o d (Z.of_nat (S i))
            = take (Z.to_nat pageSize) (drop (i * Z.to_nat pageSize) listing)).
  { intros i. unfold page_data. rewrite findPaginated_run by (done || lia).
    cbn [BaseRepository.data]. do 2 f_equal. nia. }
  erewrite list_fmap_ext; [|intros ? i _; apply Hpages].
  rewrite slices_join, take_ge; [done|].
  unfold listing. rewrite length_fmap, listed_length by done.
  pose proof (ceil_div_bounds (Z.of_nat (length found)) pageSize Hsize) as [_ Hup].
  fold totalPages in Hup. nia.
Qed.

(** What the loop over the allowed fields collects. *)
Lemma pick_lookup (fields : list string) (source : object) (k : string) :
  UserRepository.pick fields source !! k
  = if decide (k ∈ fields ∧ prop source k ≠ VUndefined)
    then Some (prop source k) else None.
Proof.
  unfold UserRepository.pick.
  assert (Hgen : ∀ acc : object,
    fold_left
      (fun updateData field =>
         if strict_ne (prop source field) VUndefined
         then <[field := prop source field]> updateData
         else updateData) fields acc !! k
    = if decide (k ∈ fields ∧ prop source k ≠ VUndefined)
      then Some (prop source k) else acc !! k).
  { induction fields as [|f fields IH]; intros acc; simpl.
    - destruct (decide (k ∈ [] ∧ prop source k ≠ VUndefined)) as [[Hk _]|_];
        [by apply elem_of_nil in Hk|done].
    - rewrite IH. unfold strict_ne, strict_eq.
      destruct (decide (k ∈ fields ∧ prop source k ≠ VUndefined)) as [[Hin Hdef]|Hno].
      + rewrite decide_True; [done|]. split; [by right|done].
      + destruct (decide (prop source f = VUndefined)) as [Hf|Hf].
        * rewrite bool_decide_eq_true_2 by done. simpl.
          rewrite decide_False; [done|].
          intros [Hin Hdef]. apply elem_of_cons in Hin as [->|Hin]; [done|].
          by apply Hno.
        * rewrite bool_decide_eq_false_2 by done. simpl.
          destruct (decide (k = f)) as [->|Hkf].
          -- rewrite lookup_insert_eq, decide_True; [done|]. split; [by left|done].
          -- rewrite lookup_insert_ne by done.
             rewrite decide_False; [done|].
             intros [Hin Hdef]. apply elem_of_cons in Hin as [->|Hin]; [done|].
             by apply Hno. }
  rewrite Hgen. by destruct (decide (k ∈ fields ∧ prop source k ≠ VUndefined)).
Qed.

(** X13: updateProfile changes the name and the email of the user and no
    other column, whatever else the profile data carries (a role, a
    password, a tenantId); a field the data leaves undefined keeps its
    value, and no other row changes. *)
Theorem updateProfile_writes_name_and_email_only (id : string) (t : value)
    (profileData : object) (d : DB) (pre post : list row) (u : row) :
  users d = (pre ++ u :: post)%list →
  (∀ r, r ∈ pre → column r "id" ≠ VStr id) →
  column u "id" = VStr id →
  (truthy t = true → column u "tenantId" = t) →
  ∃ u',
    outcome (UserRepository.updateProfile (VStr id) profileData t) d = Ok u'
    ∧ users (db_after (UserRepository.updateProfile (VStr id) profileData t) d)
      = (pre ++ u' :: post)%list
    ∧ (∀ k, k ≠ "name" → k ≠ "email" → column u' k = column u k)
    ∧ (∀ k, k = "name" ∨ k = "email" →
         column u' k
         = if decide (prop profileData k = VUndefined) then column u k
           else prop profileData k).
Proof.
  intros Husers Hpre Hid Hten.
  set (patch := UserRepository.pick ["name"; "email"] profileData).
  exists (spread u (Model.defined_props patch)).
  unfold outcome, db_after, run, UserRepository.updateProfile, BaseRepository.update.
  fold patch.
  rewrite bind_run, (reread_hits MUser id t pre post u) by done.
  cbv iota beta. rewrite update_run by done. cbn [db calls table].
  rewrite Husers, update_first_found by done. cbn [fst snd db set_table users].
  split; [done|]. split; [done|].
  assert (Hdefined : Model.defined_props patch = patch).
  { apply map_eq. intros k. unfold Model.defined_props.
    destruct (patch !! k) as [v|] eqn:Hk.
    - apply map_lookup_filter_Some_2; [done|]. simpl.
      unfold patch in Hk. rewrite pick_lookup in Hk.
      destruct (decide (k ∈ ["name"; "email"] ∧ prop profileData k ≠ VUndefined))
        as [[_ Hdef]|_]; [|done]. by injection Hk as <-.
    - apply map_lookup_filter_None. by left. }
  rewrite Hdefined. unfold column, spread. split.
  - intros k Hname Hemail. rewrite lookup_union_r; [done|].
    unfold patch. rewrite pick_lookup, decide_False; [done|].
    intros [Hin _]. rewrite !elem_of_cons in Hin.
    destruct Hin as [->|[->|Hin]]; [done|done|by apply elem_of_nil in Hin].
  - intros k Hk.
    assert (Hin : k ∈ ["name"; "email"]).
    { destruct Hk as [-> | ->]; [by left|by right; left]. }
    destruct (decide (prop profileData k = VUndefined)) as [Hundef|Hdef].
    + rewrite lookup_union_r; [done|].
      unfold patch. rewrite pick_lookup, decide_False; [done|]. by intros [_ ?].
    + erewrite lookup_union_Some_l; [done|].
      unfold patch. by rewrite pick_lookup, decide_True.
Qed.

(** A predicate that already carries the tenant condition passes the
    filter unchanged. *)
Lemma addTenantFilter_again (q : Where) (t : value) :
  (truthy t = true → q !! "tenantId" = Some (CEq t)) →
  BaseRepository.addTenantFilter (Some q) t = Some q.
Proof.
  intros Hq. unfold BaseRepository.addTenantFilter.
  destruct (truthy t); simpl; [|done]. rewrite insert_id; [done|]. by apply Hq.
Qed.

Lemma todos_of_base (u t : value) :
  ∃ base : Where, todos_of u t = Some base
    ∧ (∀ k, k ≠ "userId" → k ≠ "tenantId" → base !! k = None)
    ∧ (truthy t = true → base !! "tenantId" = Some (CEq t)).
Proof.
  unfold todos_of, BaseRepository.addTenantFilter.
  destruct (truthy t); simpl.
  - exists (<["tenantId" := CEq t]> {["userId" := CEq u]}).
    split; [done|]. split.
    + intros k Hk1 Hk2. by rewrite lookup_insert_ne, lookup_singleton_ne.
    + intros _. apply lookup_insert_eq.
  - exists {["userId" := CEq u]}. split; [done|]. split; [|done].
    intros k Hk1 Hk2. by rewrite lookup_singleton_ne.
Qed.

Lemma count_value (q : Where) (t : value) (w : World) :
  (truthy t = true → q !! "tenantId" = Some (CEq t)) →
  BaseRepository.count MTodo (Some q) t w
  = (Ok (tally (Some q) (todos (db w))),
     mkWorld (db w) (calls w ++ [CallCount MTodo (Some q)])).
Proof.
  intros Hq. unfold BaseRepository.count.
  by rewrite addTenantFilter_again, count_run.
Qed.

(** A row counted as not completed under a further condition is one of
    the user's rows and is not counted as completed. *)
Lemma open_and_completed_are_apart (base : Where) (k : string) (c : cond) (l : list row) :
  base !! "status" = None → base !! k = None → k ≠ "status" →
  (tally (Some (<["status" := CFilter [OpNot (VStr "COMPLETED")]]> (<[k := c]> base))) l
   + tally (Some (<["status" := CEq (VStr "COMPLETED")]> base)) l
   ≤ tally (Some base) l)%Z.
Proof.
  intros Hstatus Hk Hne. induction l as [|r l IH]; [done|].
  rewrite !tally_cons. simpl matches.
  rewrite !satisfies_insert_fresh by (done || by rewrite lookup_insert_ne).
  simpl cond_holds.
  destruct (satisfies base r); rewrite ?andb_true_r, ?andb_false_r; [|lia].
  destruct (bool_decide (column r "status" = VStr "COMPLETED")); simpl.
  - lia.
  - destruct (_ && _); lia.
Qed.

(** X14: the statistics never count a completed todo as overdue or as high
    priority: overdue + completed and highPriority + completed stay within
    total, and reading the statistics writes nothing. *)
Theorem statistics_keep_open_and_completed_apart (now : Z) (u t : value) (d : DB) :
  ∃ s,
    outcome (TodoRepository.getStatistics now u t) d = Ok s
    ∧ db_after (TodoRepository.getStatistics now u t) d = d
    ∧ TodoRepository.overdue s = tally (overdue_todos now u t) (todos d)
    ∧ TodoRepository.highPriority s = tally (pressing_todos u t) (todos d)
    ∧ (0 ≤ TodoRepository.overdue s)%Z
    ∧ (0 ≤ TodoRepository.highPriority s)%Z
    ∧ (TodoRepository.overdue s + TodoRepository.completed s ≤ TodoRepository.total s)%Z
    ∧ (TodoRepository.highPriority s + TodoRepository.completed s
       ≤ TodoRepository.total s)%Z.
Proof.
  destruct (todos_of_base u t) as (base & Hbase & Hkeys & Hten).
  assert (Hin : ∀ k c, k ≠ "tenantId" →
            truthy t = true → (<[k := c]> base : Where) !! "tenantId" = Some (CEq t)).
  { intros k c Hk Ht. rewrite lookup_insert_ne by done. by apply Hten. }
  assert (Hin2 : ∀ k1 c1 k2 c2, k1 ≠ "tenantId" → k2 ≠ "tenantId" →
            truthy t = true →
            (<[k2 := c2]> (<[k1 := c1]> base) : Where) !! "tenantId" = Some (CEq t)).
  { intros k1 c1 k2 c2 Hk1 Hk2 Ht. rewrite !lookup_insert_ne by done. by apply Hten. }
  set (w0 := mkWorld d []).
  eexists. split.
  { unfold outcome, run, TodoRepository.getStatistics. fold (todos_of u t).
    rewrite Hbase. unfold TodoRepository.and_also. cbn [default from_option id].
    rewrite bind_run.
    erewrite (both_run _ _ w0); cycle 1.
    { erewrite (both_run _ _ w0); cycle 1.
      { erewrite (both_run _ _ w0); cycle 1.
        { erewrite (both_run _ _ w0); cycle 1.
          { erewrite (both_run _ _ w0); cycle 1.
            - by apply count_value.
            - apply count_value. by apply Hin.
            - reflexivity. }
          { apply count_value. by apply Hin. }
          reflexivity. }
        { apply count_value. by apply Hin. }
        reflexivity. }
      { apply count_value. by apply Hin2. }
      reflexivity. }
    { apply count_value. by apply Hin2. }
    reflexivity. }
  unfold db_after, run, TodoRepository.getStatistics. fold (todos_of u t).
  rewrite Hbase. unfold TodoRepository.and_also. cbn [default from_option id].
  rewrite bind_run.
  erewrite (both_run _ _ w0); cycle 1.
  { erewrite (both_run _ _ w0); cycle 1.
    { erewrite (both_run _ _ w0); cycle 1.
      { erewrite (both_run _ _ w0); cycle 1.
        { erewrite (both_run _ _ w0); cycle 1.
          - by apply count_value.
          - apply count_value. by apply Hin.
          - reflexivity. }
        { apply count_value. by apply Hin. }
        reflexivity. }
      { apply count_value. by apply Hin. }
      reflexivity. }
    { apply count_value. by apply Hin2. }
    reflexivity. }
  { apply count_value. by apply Hin2. }
  cbn [fst snd db TodoRepository.overdue TodoRepository.highPriority
       TodoRepository.completed TodoRepository.total].
  unfold overdue_todos, pressing_todos, TodoRepository.and_also. rewrite Hbase.
  cbn [default from_option id].
  split; [done|]. split; [done|]. split; [done|].
  split; [unfold tally; lia|]. split; [unfold tally; lia|].
  split; apply open_and_completed_are_apart; auto.
Qed.

End MoreRepository.

(** ** Sessions: login, profile, refresh and password reset *)

Section Sessions.
Context `{Env}.
Variable bcrypt_compare : string → string → bool.

Lemma head_selected_first (q : option Where) (l : list row) (u : row) :
  head (selected q l) = Some u →
  ∃ pre post,
    l = (pre ++ u :: post)%list ∧ matches q u = true ∧ ∀ r, r ∈ pre → matches q r ≠ true.
Proof.
  unfold selected. induction l as [|r l IH]; [done|].
  rewrite filter_cons. destruct (decide (matches q r = true)) as [Hm|Hm].
  - intros [= ->]. exists [], l. split; [done|]. split; [done|].
    intros r' Hr'. by apply elem_of_nil in Hr'.
  - intros Hh. destruct (IH Hh) as (pre & post & -> & Hu & Hpre).
    exists (r :: pre), post. split; [done|]. split; [done|].
    intros r' Hr'. apply elem_of_cons in Hr' as [-> | Hr']; [done|by apply Hpre].
Qed.

Lemma first_selected (q : option Where) (pre post : list row) (u : row) :
  matches q u = true → (∀ r, r ∈ pre → matches q r ≠ true) →
  head (selected q (pre ++ u :: post)) = Some u.
Proof.
  intros Hu Hpre. rewrite selected_app, (nothing_selected q pre Hpre).
  by rewrite selected_cons_hit.
Qed.

(** The lookup by email finds the first row registered under it. *)
Lemma findByEmail_first (e : string) (t : value) (l : list row) (u : row) :
  truthy t = true →
  head (selected (scoped (Some {["email" := CEq (VStr e)]}) t) l) = Some u
  ↔ first_registered e t l u.
Proof.
  intros Ht. split.
  - intros Hh. destruct (head_selected_first _ _ _ Hh) as (pre & post & -> & Hu & Hpre).
    exists pre, post. split; [done|]. split.
    + by apply (by_key_matches "email" (VStr e) t u).
    + intros r Hr Hreg. apply (Hpre r Hr).
      by apply (by_key_matches "email" (VStr e) t r).
  - intros (pre & post & -> & Hu & Hpre). apply first_selected.
    + by apply (by_key_matches "email" (VStr e) t u).
    + intros r Hr Hm. apply (Hpre r Hr).
      by apply (by_key_matches "email" (VStr e) t r).
Qed.

Lemma compare_run (s h : string) (w : World) :
  AuthService.compare bcrypt_compare (VStr s) (VStr h) w = (Ok (bcrypt_compare s h), w).
Proof. reflexivity. Qed.

(** The login on a string email and password under a tenant id. *)
Lemma loginUser_run (e s : string) (t : value) (w : World) :
  truthy t = true →
  AuthService.loginUser bcrypt_compare (VStr e) (VStr s) t w
  = (let w' := mkWorld (db w) (calls w ++ [email_lookup e t]) in
     match head (selected (scoped (Some {["email" := CEq (VStr e)]}) t) (users (db w))) with
     | None => (Throw (mkErr UnauthorizedError "Invalid email or password"), w')
     | Some u =>
         match column u "password" with
         | VStr h =>
             if bcrypt_compare s h then
               if truthy (column u "isActive")
               then (Ok (AuthService.mkRegistered u
                           (Jwt.generateToken (AuthService.access_payload u) None)), w')
               else (Throw (mkErr UnauthorizedError "Account is deactivated"), w')
             else (Throw (mkErr UnauthorizedError "Invalid email or password"), w')
         | other =>
             (Throw (mkErr PlainError ("Illegal arguments: string, " +:+ typeof other)), w')
         end
     end).
Proof.
  intros Ht. unfold AuthService.loginUser.
  rewrite bind_run, findByEmail_run, addTenantFilter_truthy by done.
  cbv zeta.
  destruct (head (selected (scoped (Some {["email" := CEq (VStr e)]}) t) (users (db w))))
    as [u|]; [|done].
  rewrite bind_run. destruct (column u "password") as [| |b|n|h]; try done.
  rewrite compare_run. destruct (bcrypt_compare s h); [|done].
  cbn [negb]. by destruct (truthy (column u "isActive")).
Qed.

(** X15: under a tenant id, a login is refused with the one message
    Invalid email or password, after the one lookup by email and without
    a write, both when no user of the tenant has the email and when the
    first such user has another password, whether or not that account is
    active. *)
Theorem loginUser_failures_look_alike (e s : string) (t : value) (d : DB) :
  truthy t = true →
  (∀ u, first_registered e t (users d) u →
        ∃ h, column u "password" = VStr h ∧ bcrypt_compare s h = false) →
  outcome (AuthService.loginUser bcrypt_compare (VStr e) (VStr s) t) d
  = Throw (mkErr UnauthorizedError "Invalid email or password")
  ∧ db_after (AuthService.loginUser bcrypt_compare (VStr e) (VStr s) t) d = d
  ∧ calls_of (AuthService.loginUser bcrypt_compare (VStr e) (VStr s) t) d
    = [email_lookup e t].
Proof.
  intros Ht Hwrong.
  unfold outcome, db_after, calls_of, run. rewrite loginUser_run by done.
  cbn [db calls].
  destruct (head (selected (scoped (Some {["email" := CEq (VStr e)]}) t) (users d)))
    as [u|] eqn:Hhead; [|done].
  apply (findByEmail_first e t (users d) u Ht) in Hhead.
  destruct (Hwrong u Hhead) as (h & Hpw & Hcmp).
  by rewrite Hpw, Hcmp.
Qed.

(** A column the data leaves out, other than the id, is the schema's
    default in the new row. *)
Lemma new_row_default (m : ModelName) (data : object) (n : nat) (k : string) :
  k ≠ "id" → data !! k = None →
  column (Model.new_row m data n) k = column (schema_defaults m) k.
Proof.
  intros Hk Hnone. unfold column, Model.new_row.
  assert (Hgiven : Model.defined_props data !! k = None).
  { unfold Model.defined_props. apply map_lookup_filter_None. by left. }
  rewrite lookup_union_r; [done|].
  destruct (Model.defined_props data !! "id"); [done|].
  by rewrite lookup_insert_ne.
Qed.

(** The row a first registration stores. *)
Lemma register_fresh_row (userData : object) (e p : string) (t : value) (w : World) :
  truthy t = true →
  userData !! "email" = Some (VStr e) →
  userData !! "password" = Some (VStr p) →
  (∀ r, r ∈ users (db w) → ¬ registered e t r) →
  ∃ token log,
    AuthService.registerUser userData t w
    = (let u :=
         Model.new_row MUser
           (<["tenantId" := t]>
              (<["role" := VStr "USER"]>
                 (<["password" := VStr (bcrypt_hash p (bcryptRounds config))]> userData)))
           (next_id (db w)) in
       (Ok (AuthService.mkRegistered u token),
        mkWorld (mkDB (users (db w) ++ [u]) (todos (db w)) (tenants (db w))
                   (S (next_id (db w)))) log)).
Proof.
  intros Ht He Hp Hfree.
  unfold AuthService.registerUser.
  rewrite bind_run, findByEmail_run, addTenantFilter_truthy by done.
  unfold prop. rewrite He, Hp.
  rewrite nothing_selected; cycle 1.
  { intros r Hr Hm. apply (Hfree r Hr).
    by apply (by_key_matches "email" (VStr e) t r). }
  simpl (head _). simpl (default _ _). cbv iota beta.
  rewrite bind_run, hash_run. cbv iota beta.
  rewrite bind_run, create_user_run by done. cbv zeta iota beta.
  do 2 eexists. reflexivity.
Qed.

(** X16: a user who registers in a tenant, with an account the schema
    makes active, can log in there with the same password, and the login
    writes nothing; any other password that bcrypt tells apart from the
    hash, and the same credentials under another tenant that has no such
    email, are refused. *)
Theorem register_then_login (userData : object) (e p : string) (t t' : value) (d : DB) :
  truthy t = true → truthy t' = true → t' ≠ t →
  userData !! "email" = Some (VStr e) → userData !! "password" = Some (VStr p) →
  userData !! "isActive" = None →
  truthy (column (schema_defaults MUser) "isActive") = true →
  bcrypt_compare p (bcrypt_hash p (bcryptRounds config)) = true →
  (∀ r, r ∈ users d → ¬ registered e t r) →
  (∀ r, r ∈ users d → ¬ registered e t' r) →
  let d1 := db_after (AuthService.registerUser userData t) d in
  ∃ u token token',
    outcome (AuthService.registerUser userData t) d = Ok (AuthService.mkRegistered u token)
    ∧ outcome (AuthService.loginUser bcrypt_compare (VStr e) (VStr p) t) d1
      = Ok (AuthService.mkRegistered u token')
    ∧ db_after (AuthService.loginUser bcrypt_compare (VStr e) (VStr p) t) d1 = d1
    ∧ (∀ p', bcrypt_compare p' (bcrypt_hash p (bcryptRounds config)) = false →
         outcome (AuthService.loginUser bcrypt_compare (VStr e) (VStr p') t) d1
         = Throw (mkErr UnauthorizedError "Invalid email or password"))
    ∧ outcome (AuthService.loginUser bcrypt_compare (VStr e) (VStr p) t') d1
      = Throw (mkErr UnauthorizedError "Invalid email or password").
Proof.
  intros Ht Ht' Hne He Hp Hact Hdef Hcmp Hfree Hfree'.
  destruct (register_fresh_row userData e p t (mkWorld d []) Ht He Hp Hfree)
    as (token & log & Hrun).
  cbv zeta in Hrun. cbn [db] in Hrun.
  set (u := Model.new_row MUser _ _) in Hrun.
  pose proof (truthy_defined t Ht) as Htdef.
  assert (Hreg : registered e t u).
  { split; apply new_row_column; try done.
    - by do 3 rewrite lookup_insert_ne by done.
    - by rewrite lookup_insert_eq. }
  assert (Hpw : column u "password" = VStr (bcrypt_hash p (bcryptRounds config))).
  { apply new_row_column; [|done].
    do 2 rewrite lookup_insert_ne by done. by rewrite lookup_insert_eq. }
  assert (Hon : truthy (column u "isActive") = true).
  { unfold u. rewrite new_row_default; [done|done|].
    by do 3 rewrite lookup_insert_ne by done. }
  assert (Hfirst : head (selected (scoped (Some {["email" := CEq (VStr e)]}) t)
                           (users d ++ [u])) = Some u).
  { apply (findByEmail_first e t _ u Ht). exists (users d), []. done. }
  assert (Hnone : head (selected (scoped (Some {["email" := CEq (VStr e)]}) t')
                          (users d ++ [u])) = None).
  { rewrite nothing_selected; [done|].
    intros r Hr Hm. apply (by_key_matches "email" (VStr e) t' r) in Hm; [|done..].
    apply elem_of_app in Hr as [Hr|Hr]; [by apply (Hfree' r)|].
    apply list_elem_of_singleton in Hr as ->.
    destruct Hreg as [_ Hu], Hm as [_ Hu']. congruence. }
  exists u, token, (Jwt.generateToken (AuthService.access_payload u) None).
  unfold outcome, db_after, run. rewrite Hrun. cbn [fst snd db].
  split; [done|].
  rewrite !loginUser_run by done. cbn [db users].
  rewrite Hfirst, Hnone, Hpw, Hcmp, Hon. cbn [fst snd db].
  repeat (split; [done|]). split; [|done].
  intros p' Hp'. rewrite loginUser_run by done. cbn [db users].
  by rewrite Hfirst, Hpw, Hp'.
Qed.

Lemma requestPasswordReset_run (e : string) (t : value) (w : World) :
  truthy t = true →
  AuthService.requestPasswordReset (VStr e) t w
  = (Ok ((fun u => Jwt.generateToken (AuthService.reset_payload u) (Some "1h"))
           <$> head (selected (scoped (Some {["email" := CEq (VStr e)]}) t) (users (db w)))),
     mkWorld (db w) (calls w ++ [email_lookup e t])).
Proof.
  intros Ht. unfold AuthService.requestPasswordReset.
  rewrite bind_run, findByEmail_run, addTenantFilter_truthy by done.
  by destruct (head _).
Qed.

(** X17: the token issued for a password reset is accepted by the token
    refresh.  When jsonwebtoken reads back the user id it signed, and no
    tenant id since none was signed, the refresh looks the user up by id
    alone and answers with that user and an access token, without a
    write. *)
Theorem refreshToken_accepts_a_reset_token (e id : string) (t : value) (u : row)
    (decoded : object) (d : DB) :
  truthy t = true →
  first_registered e t (users d) u →
  column u "id" = VStr id →
  (∀ r, r ∈ users d → column r "id" = VStr id → r = u) →
  truthy (column u "isActive") = true →
  jwt_verify (Jwt.generateToken (AuthService.reset_payload u) (Some "1h")) (jwt_secret config)
  = inr decoded →
  decoded !! "userId" = AuthService.reset_payload u !! "userId" →
  decoded !! "tenantId" = AuthService.reset_payload u !! "tenantId" →
  ∃ resetToken access,
    outcome (AuthService.requestPasswordReset (VStr e) t) d = Ok (Some resetToken)
    ∧ outcome (AuthService.refreshToken (VStr resetToken)) d
      = Ok (AuthService.mkRegistered u access)
    ∧ db_after (AuthService.refreshToken (VStr resetToken)) d = d.
Proof.
  intros Ht Hfirst Hid Huniq Hon Hverify Huser Htenant.
  exists (Jwt.generateToken (AuthService.reset_payload u) (Some "1h")),
    (Jwt.generateToken (AuthService.access_payload u) None).
  unfold outcome, db_after, run.
  rewrite requestPasswordReset_run by done. cbn [db fst].
  apply (findByEmail_first e t (users d) u Ht) in Hfirst as Hhead. rewrite Hhead.
  split; [done|].
  unfold AuthService.reset_payload in Huser, Htenant.
  rewrite lookup_insert_eq in Huser.
  rewrite lookup_insert_ne, lookup_singleton_ne in Htenant by done.
  unfold AuthService.refreshToken.
  rewrite try_catch_run, bind_run, (verifyToken_run _ decoded) by done.
  assert (Hu : prop decoded "userId" = VStr id) by (unfold prop; by rewrite Huser, Hid).
  assert (Hten : prop decoded "tenantId" = VUndefined) by (unfold prop; by rewrite Htenant).
  rewrite Hu, Hten, bind_run, findById_run, addTenantFilter_falsy by done.
  cbn [db table].
  assert (Hbyid : head (selected (Some {["id" := CEq (VStr id)]}) (users d)) = Some u).
  { destruct Hfirst as (pre & post & Husers & _ & _).
    destruct (something_selected (Some {["id" := CEq (VStr id)]}) (users d) u) as [r Hr].
    - rewrite Husers. apply elem_of_app. right. by left.
    - by apply by_one_key_matches.
    - rewrite Hr. f_equal.
      destruct (head_selected_first _ _ _ Hr) as (pre' & post' & Heq & Hm & _).
      apply Huniq.
      + rewrite Heq. apply elem_of_app. right. by left.
      + by apply by_one_key_matches in Hm. }
  rewrite Hbyid, Hon. done.
Qed.

Lemma verifyToken_pure (token : value) (w w' : World) (r : result object) :
  Jwt.verifyToken token w = (r, w') → w' = w.
Proof.
  unfold Jwt.verifyToken. rewrite try_catch_run.
  destruct (Jwt.verify token w) as [[decoded|error] w1] eqn:Hverify;
    apply verify_pure in Hverify as ->.
  - by intros [= _ <-].
  - unfold throw. repeat case_match; by intros [= _ <-].
Qed.

Lemma hash_pure (plaintext : value) (w w' : World) (r : result string) :
  AuthService.hash plaintext w = (r, w') → w' = w.
Proof. unfold AuthService.hash, throw. destruct plaintext; by intros [= _ <-]. Qed.

(** A store update that fails has written nothing. *)
Lemma update_throws_unchanged (m : ModelName) (id : value) (patch : object)
    (w w' : World) (e : Err) :
  Model.update m id patch w = (Throw e, w') → db w' = db w.
Proof.
  unfold Model.update.
  rewrite bind_run. cbn [record_call]. rewrite bind_run. cbn [get_db db calls].
  destruct (bool_decide (id = VUndefined)); [by intros [= _ <-]|].
  destruct (Model.update_first id patch (table m (db w))) as [[r t]|].
  - rewrite bind_run. cbn [put_db]. discriminate.
  - by intros [= _ <-].
Qed.

(** A rethrowing handler keeps a result and replaces any error. *)
Lemma try_catch_rethrow {A} (body : M A) (e : Err) (w : World) :
  try_catch body (fun _ => throw e) w
  = match body w with
    | (Ok a, w') => (Ok a, w')
    | (Throw _, w') => (Throw e, w')
    end.
Proof. rewrite try_catch_run. by destruct (body w) as [[a|e'] w']. Qed.

(** X18: whatever token and password they are given, the token refresh
    and the password reset report every failure with one fixed error
    each: an expired token, a forged one, one that names no user, and a
    failure of bcrypt or of the store are not told apart.  The refresh
    never writes, and a failed reset has written nothing. *)
Theorem token_failures_look_alike (token newPassword : value) (d : DB) :
  ((∃ r, outcome (AuthService.refreshToken token) d = Ok r)
   ∨ outcome (AuthService.refreshToken token) d
     = Throw (mkErr UnauthorizedError "Invalid or expired refresh token"))
  ∧ db_after (AuthService.refreshToken token) d = d
  ∧ (outcome (AuthService.resetPassword token newPassword) d = Ok true
     ∨ (outcome (AuthService.resetPassword token newPassword) d
        = Throw (mkErr ValidationError "Invalid or expired reset token")
        ∧ db_after (AuthService.resetPassword token newPassword) d = d)).
Proof.
  unfold outcome, db_after, run.
  unfold AuthService.refreshToken, AuthService.resetPassword.
  rewrite !try_catch_rethrow, !bind_run.
  destruct (Jwt.verifyToken token (mkWorld d [])) as [[decoded|error] w1] eqn:Hverify;
    apply verifyToken_pure in Hverify as ->; cycle 1.
  { split; [by right|]. split; [done|]. by right. }
  rewrite bind_run, findById_run. cbn [db calls table].
  split; [|split].
  - destruct (head _) as [u|]; [|by right].
    destruct (truthy (column u "isActive")); [left; by eexists|by right].
  - destruct (head _) as [u|]; [|done].
    by destruct (truthy (column u "isActive")).
  - destruct (strict_ne (prop decoded "purpose") (VStr "password-reset")); [by right|].
    rewrite bind_run.
    destruct (AuthService.hash newPassword (mkWorld d [])) as [[hashed|error] w1] eqn:Hhash;
      apply hash_pure in Hhash as ->; [|by right].
    rewrite bind_run. unfold UserRepository.updatePassword.
    destruct (Model.update MUser (prop decoded "userId") _ (mkWorld d []))
      as [[r|error] w1] eqn:Hupdate; [by left|].
    right. split; [done|]. by apply update_throws_unchanged in Hupdate.
Qed.

(** X19: the forgot-password endpoint answers every request that names
    an email with the same 200 message, after one lookup and without a
    write, whether or not the tenant has a user with the email; the reset
    token the service makes is not part of the answer. *)
Theorem forgotPassword_answers_alike (req : Request) (e : string) (d : DB) :
  prop (body req) "email" = VStr e →
  outcome (AuthController.forgotPassword req) d
  = Ok (mkResponse 200 {["message" := VStr "Password reset instructions sent to email"]})
  ∧ db_after (AuthController.forgotPassword req) d = d
  ∧ length (calls_of (AuthController.forgotPassword req) d) = 1%nat.
Proof.
  intros _. unfold outcome, db_after, calls_of, run.
  unfold AuthController.forgotPassword, AuthService.requestPasswordReset.
  rewrite try_catch_run, !bind_run, findByEmail_run.
  by destruct (head _).
Qed.

(** X20: the profile lookup serves a user only within the tenant it is
    asked for: what it returns is a stored user with that id and tenant,
    and an id that no user of the tenant has gives NotFoundError, also
    when a user of another tenant has it.  Nothing is written. *)
Theorem getUserProfile_stays_in_tenant (id : string) (t : value) (d : DB) :
  truthy t = true →
  (∀ u, outcome (AuthService.getUserProfile (VStr id) t) d = Ok u →
        u ∈ users d ∧ owned_by (VStr id) t u)
  ∧ ((∀ r, r ∈ users d → ¬ owned_by (VStr id) t r) →
     outcome (AuthService.getUserProfile (VStr id) t) d
     = Throw (mkErr NotFoundError "User not found"))
  ∧ db_after (AuthService.getUserProfile (VStr id) t) d = d.
Proof.
  intros Ht. unfold outcome, db_after, run, AuthService.getUserProfile.
  rewrite bind_run, findById_run, addTenantFilter_truthy by done. cbn [db calls table].
  destruct (head (selected (scoped (Some {["id" := CEq (VStr id)]}) t) (users d)))
    as [u|] eqn:Hhead.
  - destruct (head_selected_first _ _ _ Hhead) as (pre & post & Husers & Hm & _).
    apply by_id_matches in Hm; [|done..].
    assert (Hin : u ∈ users d).
    { rewrite Husers. apply elem_of_app. right. by left. }
    split; [|split; [|done]].
    + by intros u' [= <-].
    + intros Hnone. by destruct (Hnone u Hin).
  - split; [done|]. done.
Qed.

End Sessions.

(** ** The todo service *)

Section TodoOperations.
Context `{Env}.
Variable invalid_date : value → bool.

Lemma title_missing_pure (title : value) (w w' : World) (r : result bool) :
  TodoService.title_missing title w = (r, w') → w' = w.
Proof.
  unfold TodoService.title_missing, throw.
  destruct (negb (truthy title)); [by intros [= _ <-]|].
  destruct title; by intros [= _ <-].
Qed.

Lemma validateTodoData_pure (todoData : object) (w w' : World) (r : result unit) :
  TodoService.validateTodoData invalid_date todoData w = (r, w') → w' = w.
Proof.
  unfold TodoService.validateTodoData. rewrite bind_run.
  destruct (TodoService.title_missing (prop todoData "title") w) as [[b|e] w1] eqn:Htitle;
    apply title_missing_pure in Htitle as ->; [|by intros [= _ <-]].
  unfold throw.
  destruct b; [by intros [= _ <-]|].
  destruct (TodoService.longer_than 255 _); [by intros [= _ <-]|].
  destruct (truthy (prop todoData "description") && _); [by intros [= _ <-]|].
  cbv zeta.
  destruct (truthy (prop todoData "priority") && _); [by intros [= _ <-]|].
  destruct (truthy (prop todoData "dueDate") && _); by intros [= _ <-].
Qed.

Lemma or_else_defined (a b : value) : b ≠ VUndefined → TodoService.or_else a b ≠ VUndefined.
Proof.
  intros Hb. unfold TodoService.or_else.
  destruct (truthy a) eqn:Ha; [by apply truthy_defined|done].
Qed.

(** X21: a todo that passes validation is created for the caller and the
    caller's tenant: the new row carries the user id and tenant id the
    service was called with, whatever userId or tenantId the data named,
    the status and priority of the data or else PENDING and MEDIUM, and
    every other property of the data; it is appended to the todos, and
    users and tenants stay as they were. *)
Theorem createTodo_stamps_owner_and_tenant (todoData : object) (u t : value) (d : DB) :
  truthy t = true → u ≠ VUndefined →
  outcome (TodoService.validateTodoData invalid_date todoData) d = Ok tt →
  ∃ r,
    outcome (TodoService.createTodo invalid_date todoData u t) d = Ok r
    ∧ column r "userId" = u
    ∧ column r "tenantId" = t
    ∧ column r "status" = TodoService.or_else (prop todoData "status") (VStr "PENDING")
    ∧ column r "priority" = TodoService.or_else (prop todoData "priority") (VStr "MEDIUM")
    ∧ (∀ k v, k ∉ ["tenantId"; "userId"; "status"; "priority"; "dueDate"] →
              todoData !! k = Some v → v ≠ VUndefined → column r k = v)
    ∧ todos (db_after (TodoService.createTodo invalid_date todoData u t) d)
      = (todos d ++ [r])%list
    ∧ users (db_after (TodoService.createTodo invalid_date todoData u t) d) = users d
    ∧ tenants (db_after (TodoService.createTodo invalid_date todoData u t) d) = tenants d.
Proof.
  intros Ht Hu Hvalid.
  unfold outcome, db_after, run in *. unfold TodoService.createTodo.
  rewrite bind_run.
  destruct (TodoService.validateTodoData invalid_date todoData (mkWorld d []))
    as [[[]|e] w1] eqn:Hrun; [|done].
  apply validateTodoData_pure in Hrun as ->. cbv zeta.
  set (todo := <["priority" := _]> (<["status" := _]> (<["userId" := u]> todoData))).
  set (final := if truthy (prop todo "dueDate") then _ else todo).
  pose proof (create_run MTodo final t (mkWorld d [])) as Hcreate.
  cbv zeta in Hcreate. rewrite Ht in Hcreate. cbn [andb Model.fields_tenantId db calls] in Hcreate.
  rewrite Hcreate. cbn [fst snd db]. eexists. split; [reflexivity|].
  assert (Hfinal : ∀ k, k ≠ "dueDate" → final !! k = todo !! k).
  { intros k Hk. unfold final. destruct (truthy (prop todo "dueDate")); [|done].
    by rewrite lookup_insert_ne. }
  pose proof (truthy_defined t Ht) as Htdef.
  split; [|split; [|split; [|split; [|split]]]].
  - apply new_row_column; [|done]. rewrite lookup_insert_ne, Hfinal by done.
    unfold todo. do 2 rewrite lookup_insert_ne by done. by rewrite lookup_insert_eq.
  - apply new_row_column; [|done]. by rewrite lookup_insert_eq.
  - apply new_row_column; [|by apply or_else_defined].
    rewrite lookup_insert_ne, Hfinal by done.
    unfold todo. rewrite lookup_insert_ne by done. by rewrite lookup_insert_eq.
  - apply new_row_column; [|by apply or_else_defined].
    rewrite lookup_insert_ne, Hfinal by done.
    unfold todo. by rewrite lookup_insert_eq.
  - intros k v Hk Hdata Hv.
    assert (k ≠ "tenantId" ∧ k ≠ "userId" ∧ k ≠ "status" ∧ k ≠ "priority" ∧ k ≠ "dueDate")
      as (? & ? & ? & ? & ?).
    { repeat split; intros ->; apply Hk; set_solver. }
    apply new_row_column; [|done]. rewrite lookup_insert_ne, Hfinal by done.
    unfold todo. by do 3 rewrite lookup_insert_ne by done.
  - done.
Qed.

Lemma trim_start_spaces (s : string) :
  (∀ a, a ∈ list_ascii_of_string s → TodoService.is_space a = true) →
  TodoService.trim_start false s = "".
Proof.
  induction s as [|a s IH]; [done|]. intros Hall.
  cbn [TodoService.trim_start]. rewrite (Hall a) by (simpl; by left).
  apply IH. intros b Hb. apply Hall. simpl. by right.
Qed.

(** X22: a todo without a title, or with a title made of white space
    only, is refused with ValidationError before the store is asked
    anything. *)
Theorem createTodo_refuses_blank_title (todoData : object) (u t : value) (d : DB) :
  (truthy (prop todoData "title") = false
   ∨ ∃ s, prop todoData "title" = VStr s
          ∧ ∀ a, a ∈ list_ascii_of_string s → TodoService.is_space a = true) →
  outcome (TodoService.createTodo invalid_date todoData u t) d
  = Throw (mkErr ValidationError "Title is required")
  ∧ calls_of (TodoService.createTodo invalid_date todoData u t) d = []
  ∧ db_after (TodoService.createTodo invalid_date todoData u t) d = d.
Proof.
  intros Hblank.
  assert (Hmissing : TodoService.title_missing (prop todoData "title") (mkWorld d [])
                     = (Ok true, mkWorld d [])).
  { unfold TodoService.title_missing.
    destruct Hblank as [Hfalsy|(s & Hs & Hspaces)]; [by rewrite Hfalsy|].
    rewrite Hs. destruct (truthy (VStr s)); [|done]. cbn [negb].
    unfold TodoService.trim. by rewrite (trim_start_spaces s Hspaces). }
  unfold outcome, calls_of, db_after, run, TodoService.createTodo,
    TodoService.validateTodoData.
  by rewrite !bind_run, Hmissing.
Qed.

(** The owner's load of a todo. *)
Lemma getTodoById_owner (id : string) (u t : value) (pre post : list row) (todo : row)
    (w : World) :
  todos (db w) = (pre ++ todo :: post)%list →
  (∀ r, r ∈ pre → column r "id" ≠ VStr id) →
  column todo "id" = VStr id →
  (truthy t = true → column todo "tenantId" = t) →
  column todo "userId" = u →
  TodoService.getTodoById (VStr id) u t w
  = (Ok todo,
     mkWorld (db w)
       (calls w ++ [CallFindFirst MTodo
          (mkFindArgs (BaseRepository.addTenantFilter (Some {["id" := CEq (VStr id)]}) t)
             None None no_options)])).
Proof.
  intros Htodos Hpre Hid Hten Hown.
  unfold TodoService.getTodoById, TodoRepository.findById, BaseRepository.findById.
  rewrite with_no_options.
  rewrite bind_run, (reread_hits MTodo id t pre post todo) by done.
  unfold strict_ne, strict_eq. by rewrite bool_decide_eq_true_2.
Qed.

(** The repository's update of a row the tenant owns. *)
Lemma update_owned_run (m : ModelName) (id : string) (t : value) (patch : object)
    (pre post : list row) (u : row) (w : World) :
  table m (db w) = (pre ++ u :: post)%list →
  (∀ r, r ∈ pre → column r "id" ≠ VStr id) →
  column u "id" = VStr id →
  (truthy t = true → column u "tenantId" = t) →
  ∃ log,
    BaseRepository.update m (VStr id) patch t w
    = (Ok (spread u (Model.defined_props patch)),
       mkWorld (set_table m (pre ++ spread u (Model.defined_props patch) :: post) (db w)) log).
Proof.
  intros Htable Hpre Hid Hten. eexists. unfold BaseRepository.update.
  rewrite bind_run, (reread_hits m id t pre post u) by done.
  cbv iota beta. rewrite update_run by done. cbn [db calls].
  by rewrite Htable, update_first_found.
Qed.

Lemma spread_patch (u : row) (patch : object) (k : string) :
  column (spread u (Model.defined_props patch)) k
  = match patch !! k with
    | Some v => if bool_decide (v = VUndefined) then column u k else v
    | None => column u k
    end.
Proof.
  unfold column, spread.
  destruct (patch !! k) as [v|] eqn:Hk.
  - destruct (bool_decide_reflect (v = VUndefined)) as [->|Hv].
    + rewrite lookup_union_r; [done|]. apply map_lookup_filter_None. right.
      intros v Hv. rewrite Hk in Hv. injection Hv as <-. simpl. by intros ?.
    + erewrite lookup_union_Some_l; [done|]. by apply map_lookup_filter_Some_2.
  - rewrite lookup_union_r; [done|]. apply map_lookup_filter_None. by left.
Qed.

(** X23: the owner of a todo reaches it through the service.  Loading it
    returns the stored row and writes nothing; deleting it removes that
    row and no other; setting one of the four statuses changes the status
    column of that row and nothing else.  A status outside the four is
    refused before the store is asked anything. *)
Theorem owner_operations_reach_the_todo (id : string) (u t : value) (d : DB)
    (pre post : list row) (todo : row) :
  todos d = (pre ++ todo :: post)%list →
  (∀ r, r ∈ pre → column r "id" ≠ VStr id) →
  column todo "id" = VStr id →
  (truthy t = true → column todo "tenantId" = t) →
  column todo "userId" = u →
  outcome (TodoService.getTodoById (VStr id) u t) d = Ok todo
  ∧ db_after (TodoService.getTodoById (VStr id) u t) d = d
  ∧ outcome (TodoService.deleteTodo (VStr id) u t) d = Ok todo
  ∧ todos (db_after (TodoService.deleteTodo (VStr id) u t) d) = (pre ++ post)%list
  ∧ users (db_after (TodoService.deleteTodo (VStr id) u t) d) = users d
  ∧ (∀ s, s ∈ statuses →
       ∃ todo',
         outcome (TodoService.updateTodoStatus (VStr id) s u t) d = Ok todo'
         ∧ column todo' "status" = s
         ∧ (∀ k, k ≠ "status" → column todo' k = column todo k)
         ∧ todos (db_after (TodoService.updateTodoStatus (VStr id) s u t) d)
           = (pre ++ todo' :: post)%list)
  ∧ (∀ s, s ∉ statuses →
       outcome (TodoService.updateTodoStatus (VStr id) s u t) d
       = Throw (mkErr ValidationError
                  "Invalid status. Must be one of: PENDING, IN_PROGRESS, COMPLETED, CANCELLED")
       ∧ calls_of (TodoService.updateTodoStatus (VStr id) s u t) d = []).
Proof.
  intros Htodos Hpre Hid Hten Hown.
  pose proof (getTodoById_owner id u t pre post todo (mkWorld d []) Htodos Hpre Hid Hten Hown)
    as Hget. cbn [db calls] in Hget.
  unfold outcome, db_after, calls_of, run.
  rewrite Hget. cbn [fst snd db].
  split; [done|]. split; [done|].
  unfold TodoService.deleteTodo, TodoService.updateTodoStatus.
  rewrite bind_run, Hget. cbv iota beta.
  unfold TodoRepository.delete, BaseRepository.delete.
  rewrite bind_run, (reread_hits MTodo id t pre post todo) by done.
  cbv iota beta. rewrite delete_run by done. cbn [db calls table].
  rewrite Htodos, delete_first_found by done. cbn [fst snd db set_table todos users].
  split; [done|]. split; [done|]. split; [done|]. split.
  - intros s Hs. rewrite bool_decide_eq_true_2 by done. cbn [negb].
    rewrite bind_run, Hget. cbv iota beta.
    destruct (update_owned_run MTodo id t {["status" := s]} pre post todo
                (mkWorld d [CallFindFirst MTodo
                   (mkFindArgs
                      (BaseRepository.addTenantFilter (Some {["id" := CEq (VStr id)]}) t)
                      None None no_options)]))
      as [log Hupdate]; [done..|].
    unfold TodoRepository.updateStatus, TodoRepository.update.
    cbn [app] in *. rewrite Hupdate. cbn [fst snd db set_table todos].
    eexists. split; [reflexivity|].
    assert (Hdef : s ≠ VUndefined).
    { intros ->. unfold statuses in Hs.
      repeat (apply elem_of_cons in Hs as [Hs|Hs]; [discriminate|]).
      by apply elem_of_nil in Hs. }
    split; [|split; [|done]].
    + rewrite spread_patch, lookup_singleton_eq. by rewrite bool_decide_eq_false_2.
    + intros k Hk. by rewrite spread_patch, lookup_singleton_ne.
  - intros s Hs. by rewrite bool_decide_eq_false_2.
Qed.

(** X24: the service hands the caller's whole patch to the store.  A
    patch without a title and a due date, sent by the owner, sets every
    column it names on the owner's todo, the userId and tenantId columns
    among them, and leaves the other columns and rows as they were: after
    a patch that names another tenant the todo belongs to that tenant. *)
Theorem updateTodo_writes_any_column (id : string) (u t : value) (patch : object)
    (d : DB) (pre post : list row) (todo : row) :
  todos d = (pre ++ todo :: post)%list →
  (∀ r, r ∈ pre → column r "id" ≠ VStr id) →
  column todo "id" = VStr id →
  (truthy t = true → column todo "tenantId" = t) →
  column todo "userId" = u →
  patch !! "title" = None → patch !! "dueDate" = None →
  ∃ todo',
    outcome (TodoService.updateTodo (VStr id) patch u t) d = Ok todo'
    ∧ (∀ k v, patch !! k = Some v → v ≠ VUndefined → column todo' k = v)
    ∧ (∀ k, patch !! k = None → column todo' k = column todo k)
    ∧ todos (db_after (TodoService.updateTodo (VStr id) patch u t) d)
      = (pre ++ todo' :: post)%list.
Proof.
  intros Htodos Hpre Hid Hten Hown Htitle Hdue.
  pose proof (getTodoById_owner id u t pre post todo (mkWorld d []) Htodos Hpre Hid Hten Hown)
    as Hget. cbn [db calls app] in Hget.
  destruct (update_owned_run MTodo id t patch pre post todo
              (mkWorld d [CallFindFirst MTodo
                 (mkFindArgs
                    (BaseRepository.addTenantFilter (Some {["id" := CEq (VStr id)]}) t)
                    None None no_options)]))
    as [log Hupdate]; [done..|].
  exists (spread todo (Model.defined_props patch)).
  unfold outcome, db_after, run, TodoService.updateTodo.
  rewrite bind_run, Hget. cbv iota beta.
  unfold prop. rewrite Htitle, Hdue. cbn [default from_option].
  unfold TodoRepository.update.
  replace (strict_ne VUndefined VUndefined) with false by done.
  rewrite bind_run. cbn [truthy].
  change ((mret false : M bool) (mkWorld d [CallFindFirst MTodo
            (mkFindArgs (BaseRepository.addTenantFilter (Some {["id" := CEq (VStr id)]}) t)
               None None no_options)]))
    with (Ok false, mkWorld d [CallFindFirst MTodo
            (mkFindArgs (BaseRepository.addTenantFilter (Some {["id" := CEq (VStr id)]}) t)
               None None no_options)]).
  cbv iota beta. rewrite Hupdate. cbn [fst snd db set_table todos].
  split; [done|]. split; [|split; [|done]].
  - intros k v Hk Hv. by rewrite spread_patch, Hk, bool_decide_eq_false_2.
  - intros k Hk. by rewrite spread_patch, Hk.
Qed.

End TodoOperations.

(** ** Tenants: creation, status and the resolver *)

Section Tenants.
Context `{Env}.

Lemma findBySubdomain_run (s : string) (w : World) :
  TenantRepository.findBySubdomain (VStr s) w
  = (Ok (head (selected (Some {["subdomain" := CEq (VStr s)]}) (tenants (db w)))),
     mkWorld (db w)
       (calls w ++ [CallFindFirst MTenant
          (mkFindArgs (Some {["subdomain" := CEq (VStr s)]}) None None no_options)])).
Proof.
  unfold TenantRepository.findBySubdomain, BaseRepository.findOne. rewrite with_no_options.
  rewrite addTenantFilter_falsy by done.
  by rewrite findFirst_run, find_rows_plain.
Qed.

Lemma subdomain_free (s : string) (l : list row) :
  (∀ r, r ∈ l → column r "subdomain" ≠ VStr s) →
  selected (Some {["subdomain" := CEq (VStr s)]}) l = [].
Proof.
  intros Hfree. apply nothing_selected. intros r Hr Hm.
  apply (Hfree r Hr). by apply by_one_key_matches in Hm.
Qed.

Lemma subdomain_taken (s : string) (l : list row) (r : row) :
  r ∈ l → column r "subdomain" = VStr s →
  ∃ r', head (selected (Some {["subdomain" := CEq (VStr s)]}) l) = Some r'.
Proof.
  intros Hr Hs. apply (something_selected _ l r Hr). by apply by_one_key_matches.
Qed.

Lemma createTenant_taken (tenantData : object) (s : string) (r : row) (w : World) :
  tenantData !! "subdomain" = Some (VStr s) →
  Validators.subdomainRegex_test s = true →
  r ∈ tenants (db w) → column r "subdomain" = VStr s →
  ∃ log,
    TenantService.createTenant tenantData w
    = (Throw (mkErr ConflictError "Subdomain already exists"), mkWorld (db w) log).
Proof.
  intros Hsub Hformat Hr Hs. unfold TenantService.createTenant, prop.
  rewrite Hsub. cbn [default from_option id TenantService.subdomain_format].
  rewrite Hformat. cbn [negb]. rewrite bind_run, findBySubdomain_run.
  destruct (subdomain_taken s (tenants (db w)) r Hr Hs) as [r' ->].
  by eexists.
Qed.

Lemma checkSubdomainAvailability_run (s : string) (w : World) :
  Validators.subdomainRegex_test s = true →
  ∃ log,
    TenantService.checkSubdomainAvailability (VStr s) w
    = (Ok (match head (selected (Some {["subdomain" := CEq (VStr s)]}) (tenants (db w))) with
           | Some _ => false
           | None => true
           end), mkWorld (db w) log).
Proof.
  intros Hformat. unfold TenantService.checkSubdomainAvailability.
  cbn [TenantService.subdomain_format]. rewrite Hformat. cbn [negb].
  rewrite bind_run, findBySubdomain_run. by eexists.
Qed.

(** X25: a subdomain names at most one tenant.  Creating a tenant under
    a well-formed subdomain that no tenant has appends one row with that
    subdomain and touches nothing else; the subdomain was reported
    available before and is reported taken afterwards; and every later
    creation under the same subdomain fails with ConflictError and stores
    nothing, whether or not the first tenant is active. *)
Theorem createTenant_subdomain_is_unique (tenantData again : object) (s : string) (d : DB) :
  tenantData !! "subdomain" = Some (VStr s) →
  again !! "subdomain" = Some (VStr s) →
  Validators.subdomainRegex_test s = true →
  (∀ r, r ∈ tenants d → column r "subdomain" ≠ VStr s) →
  let d1 := db_after (TenantService.createTenant tenantData) d in
  ∃ r,
    outcome (TenantService.createTenant tenantData) d = Ok r
    ∧ column r "subdomain" = VStr s
    ∧ tenants d1 = (tenants d ++ [r])%list
    ∧ users d1 = users d
    ∧ todos d1 = todos d
    ∧ outcome (TenantService.checkSubdomainAvailability (VStr s)) d = Ok true
    ∧ outcome (TenantService.checkSubdomainAvailability (VStr s)) d1 = Ok false
    ∧ outcome (TenantService.createTenant again) d1
      = Throw (mkErr ConflictError "Subdomain already exists")
    ∧ db_after (TenantService.createTenant again) d1 = d1.
Proof.
  intros Hsub Hagain Hformat Hfree.
  assert (Hrun : TenantService.createTenant tenantData (mkWorld d [])
                 = BaseRepository.create MTenant tenantData VUndefined
                     (mkWorld d [CallFindFirst MTenant
                        (mkFindArgs (Some {["subdomain" := CEq (VStr s)]})
                           None None no_options)])).
  { unfold TenantService.createTenant, prop.
    rewrite Hsub. cbn [default from_option id TenantService.subdomain_format].
    rewrite Hformat. cbn [negb]. rewrite bind_run, findBySubdomain_run.
    cbn [db calls]. by rewrite subdomain_free. }
  rewrite create_run in Hrun. cbn [truthy andb db calls] in Hrun.
  set (r := Model.new_row MTenant tenantData (next_id d)) in *.
  intros d1. exists r. unfold d1, outcome, db_after, run. rewrite Hrun.
  cbn [fst snd db set_table table tenants users todos next_id].
  assert (Hr : column r "subdomain" = VStr s) by by apply new_row_column.
  split; [done|]. split; [done|]. split; [done|]. split; [done|]. split; [done|].
  set (db1 := mkDB (users d) (todos d) (tenants d ++ [r]) (S (next_id d))).
  destruct (checkSubdomainAvailability_run s (mkWorld d []) Hformat) as [log0 ->].
  destruct (checkSubdomainAvailability_run s (mkWorld db1 []) Hformat) as [log1 ->].
  destruct (createTenant_taken again s r (mkWorld db1 []) Hagain Hformat) as [log2 ->];
    [cbn; apply elem_of_app; right; by left|done|].
  unfold db1. cbn [fst snd db tenants]. rewrite subdomain_free by done.
  destruct (subdomain_taken s (tenants d ++ [r]) r) as [r' ->];
    [apply elem_of_app; right; by left|done|].
  done.
Qed.

Lemma regex_no_dot (s : string) :
  Validators.subdomainRegex_test s = true → "."%char ∉ list_ascii_of_string s.
Proof.
  unfold Validators.subdomainRegex_test. intros Htest.
  apply andb_prop in Htest as [_ Hall]. intros Hdot.
  rewrite forallb_forall in Hall.
  apply list_elem_of_In in Hdot. by apply Hall in Hdot.
Qed.

Lemma subdomain_of_label (s rest : string) :
  "."%char ∉ list_ascii_of_string s →
  TenantMiddleware.subdomain_of (s +:+ String "."%char rest) = s.
Proof.
  unfold TenantMiddleware.subdomain_of.
  induction s as [|a s IH]; intros Hfree; simpl.
  - done.
  - simpl in Hfree. apply not_elem_of_cons in Hfree as [Ha Hfree].
    rewrite bool_decide_eq_false_2 by congruence. simpl.
    by rewrite (IH Hfree).
Qed.

(** X26: a tenant created active is resolved at once.  Before the
    creation a request to a host whose leftmost label is the new subdomain
    is answered 404; after it the resolver passes the request on with the
    new tenant's id as tenantId, outside the main domain. *)
Theorem created_tenant_is_resolved (tenantData : object) (s rest : string) (req : Request)
    (d : DB) :
  tenantData !! "subdomain" = Some (VStr s) →
  tenantData !! "isActive" = None →
  column (schema_defaults MTenant) "isActive" = VBool true →
  Validators.subdomainRegex_test s = true →
  (∀ r, r ∈ tenants d → column r "subdomain" ≠ VStr s) →
  hostname req = s +:+ String "."%char rest →
  TenantMiddleware.on_main_domain (hostname req) = false →
  let d1 := db_after (TenantService.createTenant tenantData) d in
  ∃ r req',
    outcome (TenantService.createTenant tenantData) d = Ok r
    ∧ outcome (TenantMiddleware.tenantMiddleware req) d
      = Ok (req, Respond (mkResponse 404
              (error_body "Tenant not found"
                 ("Tenant with subdomain '" +:+ s +:+ "' not found"))))
    ∧ outcome (TenantMiddleware.tenantMiddleware req) d1 = Ok (req', Next)
    ∧ tenantId req' = column r "id"
    ∧ isMainDomain req' = VBool false.
Proof.
  intros Hsub Hact Hdefault Hformat Hfree Hhost Hmain.
  assert (Hrun : TenantService.createTenant tenantData (mkWorld d [])
                 = BaseRepository.create MTenant tenantData VUndefined
                     (mkWorld d [CallFindFirst MTenant
                        (mkFindArgs (Some {["subdomain" := CEq (VStr s)]})
                           None None no_options)])).
  { unfold TenantService.createTenant, prop.
    rewrite Hsub. cbn [default from_option id TenantService.subdomain_format].
    rewrite Hformat. cbn [negb]. rewrite bind_run, findBySubdomain_run.
    cbn [db calls]. by rewrite subdomain_free. }
  rewrite create_run in Hrun. cbn [truthy andb db calls] in Hrun.
  set (r := Model.new_row MTenant tenantData (next_id d)) in *.
  assert (Hlabel : TenantMiddleware.subdomain_of (hostname req) = s).
  { rewrite Hhost. by apply subdomain_of_label, regex_no_dot. }
  assert (Hr : active_tenant s r).
  { split; [by apply new_row_column|].
    unfold r. by rewrite new_row_default. }
  assert (Hold : selected (fa_where (active_tenant_lookup s)) (tenants d) = []).
  { apply nothing_selected. intros r0 Hr0 Hm. apply subdomain_matches in Hm as [Hs _].
    by apply (Hfree r0 Hr0). }
  intros d1.
  exists r, (TenantMiddleware.with_tenant req (project TenantMiddleware.tenant_select r) false).
  unfold d1, outcome, db_after, run. rewrite Hrun.
  cbn [fst snd db set_table table tenants next_id].
  rewrite !tenantMiddleware_subdomain_at by done. cbv zeta. rewrite Hlabel.
  cbn [db tenants fst]. rewrite selected_app, Hold.
  rewrite selected_cons_hit by by apply subdomain_matches.
  cbn [app head]. split; [done|]. split; [done|]. split; [done|].
  split; [|done]. cbn [tenantId TenantMiddleware.with_tenant].
  apply project_column. by left.
Qed.

(** X27: a tenant switched off drops out of the resolver and keeps its
    subdomain.  After the status update the stored row is inactive, a
    request to the tenant's host is answered 404, and creating another
    tenant under the same subdomain still fails with ConflictError. *)
Theorem deactivated_tenant_is_not_resolved (id s : string) (again : object) (req : Request)
    (d : DB) (pre post : list row) (r : row) :
  tenants d = (pre ++ r :: post)%list →
  (∀ r', r' ∈ pre → column r' "id" ≠ VStr id) →
  column r "id" = VStr id →
  column r "subdomain" = VStr s →
  (∀ r', r' ∈ (pre ++ post)%list → column r' "subdomain" ≠ VStr s) →
  Validators.subdomainRegex_test s = true →
  again !! "subdomain" = Some (VStr s) →
  TenantMiddleware.on_main_domain (hostname req) = false →
  TenantMiddleware.subdomain_of (hostname req) = s →
  let d1 := db_after (TenantService.updateTenantStatus (VStr id) (VBool false)) d in
  ∃ r',
    outcome (TenantService.updateTenantStatus (VStr id) (VBool false)) d = Ok r'
    ∧ tenants d1 = (pre ++ r' :: post)%list
    ∧ column r' "isActive" = VBool false
    ∧ column r' "subdomain" = VStr s
    ∧ outcome (TenantMiddleware.tenantMiddleware req) d1
      = Ok (req, Respond (mkResponse 404
              (error_body "Tenant not found"
                 ("Tenant with subdomain '" +:+ s +:+ "' not found"))))
    ∧ outcome (TenantService.createTenant again) d1
      = Throw (mkErr ConflictError "Subdomain already exists").
Proof.
  intros Htenants Hpre Hid Hsub Hothers Hformat Hagain Hmain Hlabel.
  set (lookup := CallFindFirst MTenant
         (mkFindArgs (BaseRepository.addTenantFilter (Some {["id" := CEq (VStr id)]}) VUndefined)
            None None no_options)).
  assert (Hget : TenantService.getTenantById (VStr id) (mkWorld d [])
                 = (Ok r, mkWorld d [lookup])).
  { unfold TenantService.getTenantById, BaseRepository.findById. rewrite with_no_options.
    by rewrite bind_run, (reread_hits MTenant id VUndefined pre post r). }
  destruct (update_owned_run MTenant id VUndefined {["isActive" := VBool false]} pre post r
              (mkWorld d [lookup])) as [log Hupdate]; [done..|].
  set (r' := spread r (Model.defined_props {["isActive" := VBool false]})) in *.
  assert (Hoff : column r' "isActive" = VBool false).
  { unfold r'. by rewrite spread_patch, lookup_singleton_eq. }
  assert (Hkept : column r' "subdomain" = VStr s).
  { unfold r'. by rewrite spread_patch, lookup_singleton_ne. }
  intros d1. exists r'.
  unfold d1, outcome, db_after, run, TenantService.updateTenantStatus.
  rewrite bind_run, Hget. cbv iota beta. rewrite Hupdate.
  cbn [fst snd db set_table tenants].
  split; [done|]. split; [done|]. split; [done|]. split; [done|].
  rewrite tenantMiddleware_subdomain_at by done. cbv zeta. rewrite Hlabel.
  cbn [db tenants fst].
  destruct (createTenant_taken again s r'
              (mkWorld (mkDB (users d) (todos d) (pre ++ r' :: post) (next_id d)) [])
              Hagain Hformat) as [log2 ->];
    [cbn; apply elem_of_app; right; by left|done|].
  split; [|done].
  rewrite nothing_selected; [done|].
  intros r0 Hr0 Hm. apply subdomain_matches in Hm as [Hs Hact].
  apply elem_of_app in Hr0 as [Hr0|Hr0].
  - apply (Hothers r0); [apply elem_of_app; by left|done].
  - apply elem_of_cons in Hr0 as [-> | Hr0]; [congruence|].
    apply (Hothers r0); [apply elem_of_app; by right|done].
Qed.

Lemma prefix_app (p s r : string) :
  String.prefix p s = true → String.prefix p (s +:+ r) = true.
Proof.
  revert s. induction p as [|a p IH]; intros s.
  - intros _. by destruct (s +:+ r).
  - destruct s as [|b s]; [done|]. simpl.
    destruct (Ascii.ascii_dec a b); [apply IH|done].
Qed.

Lemma includes_app (p s r : string) :
  includes p s = true → includes p (s +:+ r) = true.
Proof.
  induction s as [|b s IH]; simpl.
  - rewrite orb_false_r. destruct p; [|done]. intros _. by destruct r.
  - intros Hin. apply orb_prop in Hin as [Hin|Hin]; apply orb_true_intro.
    + left. by apply (prefix_app p (String b s) r).
    + right. by apply IH.
Qed.

(** X28: a subdomain the tenant form accepts passes the service's format
    check and is the leftmost label of the hosts built from it, so the
    resolver looks the tenant up under the name it was registered with.
    The exception is a subdomain that contains the word localhost: it is
    accepted all the same, and every host built from it is taken for the
    main domain. *)
Theorem valid_subdomain_names_its_hosts (s rest : string) :
  Validators.isValidSubdomain (VStr s) = true →
  TenantService.subdomain_format (VStr s) = true
  ∧ TenantMiddleware.subdomain_of (s +:+ String "."%char rest) = s
  ∧ (includes "localhost" s = true →
     TenantMiddleware.on_main_domain (s +:+ String "."%char rest) = true).
Proof.
  unfold Validators.isValidSubdomain. intros Hvalid.
  apply andb_prop in Hvalid as [Hvalid _]. apply andb_prop in Hvalid as [Hvalid _].
  apply andb_prop in Hvalid as [_ Hformat].
  split; [done|]. split; [by apply subdomain_of_label, regex_no_dot|].
  intros Hlocal. unfold TenantMiddleware.on_main_domain.
  apply orb_true_intro. right. by apply includes_app.
Qed.

End Tenants.

(** ** The global error handler *)

Section ErrorHandling.

Lemma prisma_code (c : string) :
  ErrorHandler.errorHandler (mkErr (PrismaClientKnownRequestError c) "")
  = if bool_decide (c = "P2002") then
      mkResponse 409 (error_body "ConflictError" "Record with unique constraint already exists")
    else if bool_decide (c = "P2025") then
      mkResponse 404 (error_body "NotFoundError" "Record not found")
    else mkResponse 500 (error_body "InternalServerError" "An unexpected error occurred").
Proof.
  unfold ErrorHandler.errorHandler, strict_eq. cbn [cls ErrorHandler.code error_name].
  replace (instanceof (mkErr (PrismaClientKnownRequestError c) "") BaseError) with false
    by done.
  rewrite !(bool_decide_eq_true_2 (_ = "PrismaClientKnownRequestError")) by done.
  cbn [andb].
  destruct (decide (c = "P2002")) as [->|Hc].
  { by rewrite !(bool_decide_eq_true_2 (_ = _)). }
  rewrite (bool_decide_eq_false_2 (VStr c = _)) by congruence.
  rewrite (bool_decide_eq_false_2 (c = "P2002")) by done.
  destruct (decide (c = "P2025")) as [->|Hc'].
  { by rewrite !(bool_decide_eq_true_2 (_ = _)). }
  rewrite (bool_decide_eq_false_2 (VStr c = _)) by congruence.
  by rewrite (bool_decide_eq_false_2 (c = "P2025")).
Qed.

Lemma other_error (name msg : string) :
  ErrorHandler.errorHandler (mkErr (OtherError name) msg)
  = if bool_decide (name = "ValidationError")
    then mkResponse 400 (error_body "ValidationError" msg)
    else mkResponse 500 (error_body "InternalServerError" "An unexpected error occurred").
Proof.
  unfold ErrorHandler.errorHandler, strict_eq. cbn [cls ErrorHandler.code error_name message].
  replace (instanceof (mkErr (OtherError name) msg) BaseError) with false by done.
  rewrite !(bool_decide_eq_false_2 (VUndefined = _)) by done.
  by rewrite !andb_false_r.
Qed.

(** X29: the global handler answers an error of utils/errors.js, also
    one of a subclass, with the status code its constructor fixed and with
    its class name and message; of the other errors, the store's two
    request errors P2002 and P2025 with 409 and 404, an error whose name
    is ValidationError with 400 and its message, and every other one, an
    [Error] thrown by a repository among them, with 500 and a fixed body
    that repeats nothing of the error. *)
Theorem errorHandler_classifies (err : Err) :
  let res := ErrorHandler.errorHandler err in
  (instanceof err BaseError = true →
     statusCode (cls err) = Some (status res)
     ∧ json res = error_body (error_name (cls err)) (message err)
     ∧ (400 ≤ status res ≤ 503)%Z)
  ∧ (instanceof err BaseError = false →
     (cls err = PrismaClientKnownRequestError "P2002" ∧ status res = 409%Z)
     ∨ (cls err = PrismaClientKnownRequestError "P2025" ∧ status res = 404%Z)
     ∨ (error_name (cls err) = "ValidationError"
        ∧ res = mkResponse 400 (error_body "ValidationError" (message err)))
     ∨ (error_name (cls err) ≠ "ValidationError"
        ∧ res = mkResponse 500
                  (error_body "InternalServerError" "An unexpected error occurred"))).
Proof.
  destruct err as [c msg]. cbv zeta.
  destruct c as [| | | | | | | | | | | | | | |code| |name];
    try (split; [intros _; repeat split; done|discriminate]);
    try (split; [discriminate|intros _; right; right; right; split;
                              [discriminate|reflexivity]]).
  - split; [discriminate|]. intros _.
    assert (Hsame : ErrorHandler.errorHandler (mkErr (PrismaClientKnownRequestError code) msg)
                    = ErrorHandler.errorHandler
                        (mkErr (PrismaClientKnownRequestError code) ""))
      by done.
    rewrite Hsame, prisma_code.
    destruct (bool_decide_reflect (code = "P2002")) as [->|_]; [by left|].
    destruct (bool_decide_reflect (code = "P2025")) as [->|_]; [right; by left|].
    right. right. right. split; [discriminate|done].
  - split; [discriminate|]. intros _. rewrite other_error. cbn [cls error_name message].
    destruct (bool_decide_reflect (name = "ValidationError")) as [->|Hname].
    + right. right. left. done.
    + right. right. right. done.
Qed.

End ErrorHandling.

(** * The properties on the sample deployment *)

#[local] Existing Instance Sample.sample_env.
Import Sample.

Lemma sample_order_is_permutation : ordering_is_permutation.
Proof. intros ob l. reflexivity. Qed.

(** Settle a closed decidable proposition by evaluation. *)
Ltac by_evaluation := refine (bool_decide_unpack _ _); vm_compute; exact I.

(** Case analysis over the rows of a concrete table. *)
Ltac each_row Hin :=
  cbn in Hin; rewrite ?elem_of_cons in Hin;
  repeat (destruct Hin as [-> | Hin]); [.. | by apply elem_of_nil in Hin].

(** *** C1 *)

Lemma alice_authenticates : authenticates alice_at_other sample_db alice_as_read.
Proof.
  exists "Bearer alice-access", "alice-access",
    {["userId" := VStr "u1"; "tenantId" := VStr "t-acme"; "role" := VStr "USER"]}.
  repeat split; vm_compute; reflexivity.
Defined.

Lemma authMiddleware_enforces_tenant_match_witness :
  truthy (isMainDomain alice_at_other) = false
  ∧ authenticates alice_at_other sample_db alice_as_read
  ∧ column alice_as_read "tenantId" ≠ tenantId alice_at_other
  ∧ outcome (AuthMiddleware.authMiddleware alice_at_other) sample_db
    = Ok (alice_at_other,
          Respond (mkResponse 403
            (error_body "ForbiddenError" "User does not belong to this tenant"))).
Proof.
  assert (Hne : column alice_as_read "tenantId" ≠ tenantId alice_at_other)
    by (vm_compute; discriminate).
  split; [reflexivity|]. split; [exact alice_authenticates|]. split; [exact Hne|].
  exact (proj1 (authMiddleware_enforces_tenant_match alice_at_other sample_db
                  alice_as_read eq_refl alice_authenticates) Hne).
Defined.

(** *** C2 and C9 *)



(** C9 fails as stated: an empty tenant id is not null, yet the tenantId
    the caller embedded stays in the predicate. *)
Lemma empty_tenant_id_keeps_embedded_tenant :
  VStr "" ≠ VNull
  ∧ BaseRepository.addTenantFilter (Some {["tenantId" := CEq (VStr "t-other")]}) (VStr "")
    = Some {["tenantId" := CEq (VStr "t-other")]}
  ∧ ({["tenantId" := CEq (VStr "t-other")]} : Where) !! "tenantId" ≠ Some (CEq (VStr "")).
Proof.
  split; [discriminate|]. split; [reflexivity|]. vm_compute. discriminate.
Qed.

Lemma addTenantFilter_overrides_embedded_tenant_witness :
  ({["tenantId" := CEq (VStr "t-other")]} : Where) !! "tenantId"
    = Some (CEq (VStr "t-other"))
  ∧ truthy (VStr "t-acme") = true
  ∧ ∃ w', BaseRepository.addTenantFilter
            (Some {["tenantId" := CEq (VStr "t-other")]}) (VStr "t-acme") = Some w'
          ∧ w' !! "tenantId" = Some (CEq (VStr "t-acme"))
          ∧ ∀ k, k ≠ "tenantId" →
              w' !! k = ({["tenantId" := CEq (VStr "t-other")]} : Where) !! k.
Proof.
  split; [reflexivity|]. split; [reflexivity|].
  apply (addTenantFilter_overrides_embedded_tenant
           {["tenantId" := CEq (VStr "t-other")]} (CEq (VStr "t-other")) (VStr "t-acme"));
    reflexivity.
Defined.

(** *** C3 *)

(** C3 fails as stated: updating a todo of another tenant fails with a
    plain Error, which is not a NotFoundError and which the todo
    controller answers with 500, not 404. *)
Lemma update_of_foreign_row_is_not_NotFoundError :
  truthy (VStr "t-acme") = true
  ∧ ∃ e, outcome (BaseRepository.update MTodo (VStr "d4") {["title" := VStr "mine"]}
                    (VStr "t-acme")) sample_db = Throw e
         ∧ e = mkErr PlainError "todo not found"
         ∧ instanceof e NotFoundError = false
         ∧ status (TodoController.handleError e) = 500%Z.
Proof.
  split; [reflexivity|]. eexists. split; [vm_compute; reflexivity|].
  repeat split.
Qed.

Lemma update_delete_fail_alike_when_not_owned_witness :
  truthy (VStr "t-acme") = true
  ∧ (∀ r, r ∈ table MTodo db_without_d4 → column r "id" ≠ VStr "d4")
  ∧ (∀ r, r ∈ table MTodo sample_db →
       column r "id" = VStr "d4" → column r "tenantId" ≠ VStr "t-acme")
  ∧ outcome (BaseRepository.update MTodo (VStr "d4") {["title" := VStr "mine"]}
               (VStr "t-acme")) db_without_d4
    = outcome (BaseRepository.update MTodo (VStr "d4") {["title" := VStr "mine"]}
                 (VStr "t-acme")) sample_db
  ∧ db_after (BaseRepository.delete MTodo (VStr "d4") (VStr "t-acme")) sample_db
    = sample_db.
Proof.
  assert (Hmissing : ∀ r, r ∈ table MTodo db_without_d4 → column r "id" ≠ VStr "d4").
  { intros r Hr. each_row Hr; vm_compute; discriminate. }
  assert (Hforeign : ∀ r, r ∈ table MTodo sample_db →
            column r "id" = VStr "d4" → column r "tenantId" ≠ VStr "t-acme").
  { intros r Hr. each_row Hr; vm_compute; intros; discriminate. }
  pose proof (update_delete_fail_alike_when_not_owned MTodo "d4" (VStr "t-acme")
                {["title" := VStr "mine"]} db_without_d4 sample_db
                eq_refl Hmissing Hforeign) as Halike.
  split; [reflexivity|]. split; [exact Hmissing|]. split; [exact Hforeign|]. split.
  - rewrite (proj1 (Halike db_without_d4 (or_introl eq_refl))).
    by rewrite (proj1 (Halike sample_db (or_intror eq_refl))).
  - exact (proj1 (proj2 (proj2 (proj2 (proj2 (Halike sample_db (or_intror eq_refl))))))).
Defined.

(** *** C4 *)

(** C4 on the code: Alice asks for Bob's todo d3 inside their common
    tenant.  The todo is found, the ownership check fires, and the throw
    statement raises a ReferenceError, because todoService.js never binds
    ForbiddenError; the todo controller answers it with 500, where the
    claim has Forbidden (403).  The same happens on update and delete; the
    todo is neither returned nor changed. *)
Theorem other_users_todo_raises_ReferenceError :
  let refused : result row :=
    Throw (mkErr ReferenceError "ForbiddenError is not defined") in
  outcome (TodoService.getTodoById (VStr "d3") (VStr "u1") (VStr "t-acme")) sample_db
    = refused
  ∧ outcome (TodoService.updateTodo (VStr "d3") {["title" := VStr "mine"]}
               (VStr "u1") (VStr "t-acme")) sample_db = refused
  ∧ outcome (TodoService.deleteTodo (VStr "d3") (VStr "u1") (VStr "t-acme")) sample_db
    = refused
  ∧ instanceof (mkErr ReferenceError "ForbiddenError is not defined") ForbiddenError
    = false
  ∧ status (TodoController.handleError
              (mkErr ReferenceError "ForbiddenError is not defined")) = 500%Z
  ∧ db_after (TodoService.updateTodo (VStr "d3") {["title" := VStr "mine"]}
                (VStr "u1") (VStr "t-acme")) sample_db = sample_db
  ∧ db_after (TodoService.deleteTodo (VStr "d3") (VStr "u1") (VStr "t-acme")) sample_db
    = sample_db.
Proof. repeat split; vm_compute; reflexivity. Qed.

(** *** C5 *)

(** C5 fails as stated: acme.localhost is not the main domain
    (meuapp.com) and its leftmost label names an active tenant, yet the
    resolver treats it as the main domain and looks nothing up. *)
Lemma localhost_subdomain_is_not_resolved :
  "acme.localhost" ≠ domain_main config
  ∧ leftmost_label "acme" "acme.localhost"
  ∧ acme ∈ tenants sample_db
  ∧ active_tenant "acme" acme
  ∧ ∃ req', run (TenantMiddleware.tenantMiddleware (request_to "acme.localhost" VUndefined))
              sample_db
            = (Ok (req', Next), mkWorld sample_db [])
            ∧ isMainDomain req' = VBool true
            ∧ tenant req' = None
            ∧ tenantId req' = VUndefined.
Proof.
  split; [vm_compute; discriminate|]. split.
  { split; [by_evaluation|]. right. by exists "localhost". }
  split; [cbn; set_solver|]. split; [split; vm_compute; reflexivity|].
  eexists. split; [vm_compute; reflexivity|]. repeat split.
Qed.

Lemma tenantMiddleware_resolves_subdomain_witness :
  TenantMiddleware.on_main_domain (hostname (request_to "acme.meuapp.com" VUndefined))
    = false
  ∧ (∃ t, t ∈ tenants sample_db ∧ active_tenant "acme" t)
  ∧ (∀ t, t ∈ tenants sample_db → ¬ active_tenant "closed" t)
  ∧ (∃ t req',
       t ∈ tenants sample_db ∧ active_tenant "acme" t
       ∧ outcome (TenantMiddleware.tenantMiddleware (request_to "acme.meuapp.com" VUndefined))
           sample_db = Ok (req', Next)
       ∧ tenant req' = Some (project TenantMiddleware.tenant_select t)
       ∧ tenantId req' = column t "id"
       ∧ isMainDomain req' = VBool false)
  ∧ outcome (TenantMiddleware.tenantMiddleware (request_to "closed.meuapp.com" VUndefined))
      sample_db
    = Ok (request_to "closed.meuapp.com" VUndefined,
          Respond (mkResponse 404
            (error_body "Tenant not found" "Tenant with subdomain 'closed' not found"))).
Proof.
  assert (Hacme : ∃ t, t ∈ tenants sample_db ∧ active_tenant "acme" t).
  { exists acme. split; [cbn; set_solver|]. split; vm_compute; reflexivity. }
  assert (Hclosed : ∀ t, t ∈ tenants sample_db → ¬ active_tenant "closed" t).
  { intros t Ht [Hsub Hact]. each_row Ht; vm_compute in Hsub, Hact; discriminate. }
  split; [vm_compute; reflexivity|]. split; [exact Hacme|]. split; [exact Hclosed|].
  split.
  - exact (proj1 (proj2 (proj2
      (tenantMiddleware_resolves_subdomain (request_to "acme.meuapp.com" VUndefined)
         sample_db eq_refl))) Hacme).
  - exact (proj2 (proj2 (proj2
      (tenantMiddleware_resolves_subdomain (request_to "closed.meuapp.com" VUndefined)
         sample_db eq_refl))) Hclosed).
Defined.

(** *** C6 *)

Lemma registration_is_unique_per_tenant_witness :
  let dave : object := {["email" := VStr "dave@x.com"; "password" := VStr "Secret1!"]} in
  (∀ r, r ∈ users sample_db → ¬ registered "dave@x.com" (VStr "t-acme") r)
  ∧ (∀ r, r ∈ users sample_db → ¬ registered "dave@x.com" (VStr "t-other") r)
  ∧ ∃ u token,
      outcome (AuthService.registerUser dave (VStr "t-acme")) sample_db
        = Ok (AuthService.mkRegistered u token)
      ∧ column u "password" = VStr "$2a$Secret1!"
      ∧ column u "role" = VStr "USER"
      ∧ outcome (AuthService.registerUser dave (VStr "t-acme"))
          (db_after (AuthService.registerUser dave (VStr "t-acme")) sample_db)
        = Throw (mkErr ConflictError "Email already registered in this organization")
      ∧ ∃ u' token',
          outcome (AuthService.registerUser dave (VStr "t-other"))
            (db_after (AuthService.registerUser dave (VStr "t-acme")) sample_db)
          = Ok (AuthService.mkRegistered u' token').
Proof.
  intros dave.
  assert (Hfree : ∀ t r, r ∈ users sample_db → ¬ registered "dave@x.com" t r).
  { intros t r Hr [He _]. each_row Hr; vm_compute in He; discriminate. }
  split; [apply Hfree|]. split; [apply Hfree|].
  assert (Hemail : dave !! "email" = Some (VStr "dave@x.com"))
    by (vm_compute; reflexivity).
  assert (Hpassword : dave !! "password" = Some (VStr "Secret1!"))
    by (vm_compute; reflexivity).
  destruct (registration_is_unique_per_tenant dave dave "dave@x.com" "Secret1!" "Secret1!"
              (VStr "t-acme") (VStr "t-other") sample_db
              eq_refl eq_refl ltac:(discriminate) Hemail Hpassword Hemail Hpassword
              (Hfree (VStr "t-acme")) (Hfree (VStr "t-other")))
    as (u & token & Hok & _ & Hpw & Hrole & _ & Htaken & _ & u' & token' & Hok' & _).
  exists u, token.
  split; [exact Hok|]. split; [exact Hpw|]. split; [exact Hrole|].
  split; [exact Htaken|]. exists u', token'. exact Hok'.
Defined.

(** *** C7 *)

Lemma no_options_plain : plain_options no_options.
Proof. by split. Qed.

(** C7 fails as stated: findPaginated spreads its options after skip and
    take, so options that carry these keys replace the window of the page.
    Alice has three todos; page 2 of size 2 is the third alone, but with
    the options [{ skip: 0, take: 5 }] all three come back, under the
    pagination data of page 2. *)
Lemma options_replace_the_page_window :
  let o := mkOptions None None None (Some (Some 0%Z)) (Some (Some 5%Z)) in
  let listing := [mk_todo "d1" "write" "PENDING" "u1" "t-acme";
                  mk_todo "d2" "review" "COMPLETED" "u1" "t-acme";
                  mk_todo "d5" "drop" "CANCELLED" "u1" "t-acme"] in
  outcome (BaseRepository.findMany MTodo (Some {["userId" := CEq (VStr "u1")]})
             (VStr "t-acme") no_options) sample_db = Ok listing
  ∧ ∃ pg,
      outcome (BaseRepository.findPaginated MTodo (Some {["userId" := CEq (VStr "u1")]})
                 (VStr "t-acme") (Some 2%Z) (Some 2%Z) o) sample_db = Ok pg
      ∧ BaseRepository.pagination pg = BaseRepository.mkPagination 3 2 2 2
      ∧ BaseRepository.data pg = listing
      ∧ BaseRepository.data pg !! 0%nat ≠ listing !! (Z.to_nat ((2 - 1) * 2) + 0)%nat.
Proof.
  intros o listing. split; [vm_compute; reflexivity|].
  eexists. split; [vm_compute; reflexivity|].
  split; [reflexivity|]. split; [reflexivity|]. vm_compute. discriminate.
Qed.

Lemma findPaginated_returns_the_page_witness :
  ordering_is_permutation
  ∧ plain_options no_options
  ∧ (1 ≤ 2)%Z
  ∧ ∃ pg,
      outcome (BaseRepository.findPaginated MTodo (Some {["userId" := CEq (VStr "u1")]})
                 (VStr "t-acme") (Some 2%Z) (Some 2%Z) no_options) sample_db = Ok pg
      ∧ BaseRepository.pagination pg = BaseRepository.mkPagination 3 2 2 2
      ∧ BaseRepository.data pg = [mk_todo "d5" "drop" "CANCELLED" "u1" "t-acme"].
Proof.
  split; [exact sample_order_is_permutation|]. split; [exact no_options_plain|].
  split; [lia|].
  destruct (findPaginated_returns_the_page MTodo (Some {["userId" := CEq (VStr "u1")]})
              (VStr "t-acme") 2 2 no_options sample_db
              sample_order_is_permutation no_options_plain ltac:(lia) ltac:(lia))
    as (pg & Hok & _).
  exists pg. split; [exact Hok|].
  assert (Hpg : Ok pg = Ok (BaseRepository.mkPage
                              [mk_todo "d5" "drop" "CANCELLED" "u1" "t-acme"]
                              (BaseRepository.mkPagination 3 2 2 2))).
  { rewrite <- Hok. vm_compute. reflexivity. }
  injection Hpg as ->. by split.
Defined.

(** *** C8 *)



(** *** C10 *)

Lemma resetPassword_rewrites_one_password_witness :
  let decoded : object :=
    {["userId" := VStr "u1"; "purpose" := VStr "password-reset"]} in
  jwt_verify "alice-reset" (jwt_secret config) = inr decoded
  ∧ users sample_db = ([] ++ alice :: [bob; carol])%list
  ∧ run (AuthService.resetPassword (VStr "alice-reset") (VStr "Fresh1!")) sample_db
    = (Ok true,
       mkWorld
         (mkDB [<["password" := VStr "$2a$Fresh1!"]> alice; bob; carol]
            (todos sample_db) (tenants sample_db) 0)
         [CallUpdate MUser (VStr "u1") {["password" := VStr "$2a$Fresh1!"]}]).
Proof.
  intros decoded.
  split; [reflexivity|]. split; [reflexivity|].
  refine (proj1 (resetPassword_rewrites_one_password "alice-reset" "Fresh1!" decoded
                   sample_db [] [bob; carol] alice _ _ _ _ _ _ _)).
  - reflexivity.
  - reflexivity.
  - discriminate.
  - discriminate.
  - reflexivity.
  - reflexivity.
  - intros r Hr. by apply elem_of_nil in Hr.
Defined.

(** * The further properties on the sample deployment *)

(** *** X1 to X3 *)

Lemma sample_verify_throws_jwt_errors : verify_throws_jwt_errors.
Proof.
  intros token secret e. cbn [jwt_verify sample_env]. unfold sample_verify.
  repeat case_match; intros [= <-]; reflexivity.
Qed.

Lemma authMiddleware_never_reports_expiry_witness :
  let req := request_to "acme.meuapp.com" (VStr "Bearer stale") in
  let res := mkResponse 401 (error_body "Invalid token" "The provided token is invalid") in
  jwt_verify "stale" (jwt_secret config) = inl (mkErr TokenExpiredError "jwt expired")
  ∧ outcome (AuthMiddleware.authMiddleware req) sample_db = Ok (req, Respond res)
  ∧ prop (json res) "error" ≠ VStr "Token expired".
Proof.
  intros req res.
  assert (Hverify : jwt_verify "stale" (jwt_secret config)
                    = inl (mkErr TokenExpiredError "jwt expired")) by reflexivity.
  destruct (authMiddleware_never_reports_expiry req sample_db) as [Hfield Hstale].
  destruct (Hstale "Bearer stale" "stale" (mkErr TokenExpiredError "jwt expired")
              eq_refl eq_refl eq_refl Hverify eq_refl) as [Hrun _].
  split; [exact Hverify|]. split; [exact Hrun|].
  exact (Hfield req res Hrun).
Defined.

Lemma authMiddleware_refuses_with_401_or_403_witness :
  verify_throws_jwt_errors
  ∧ ∃ req' action,
      outcome (AuthMiddleware.authMiddleware alice_at_other) sample_db = Ok (req', action)
      ∧ db_after (AuthMiddleware.authMiddleware alice_at_other) sample_db = sample_db
      ∧ match action with
        | Next => ∃ u, req' = AuthMiddleware.with_user alice_at_other u
        | Respond res =>
            req' = alice_at_other
            ∧ (status res = 401%Z
               ∨ (status res = 403%Z ∧ truthy (isMainDomain alice_at_other) = false))
        end.
Proof.
  split; [exact sample_verify_throws_jwt_errors|].
  exact (authMiddleware_refuses_with_401_or_403 alice_at_other sample_db
           sample_verify_throws_jwt_errors).
Defined.

Lemma optionalAuth_always_passes_witness :
  authenticates alice_at_other sample_db alice_as_read
  ∧ column alice_as_read "tenantId" ≠ tenantId alice_at_other
  ∧ outcome (AuthMiddleware.optionalAuth alice_at_other) sample_db
    = Ok (AuthMiddleware.with_user alice_at_other alice_as_read, Next).
Proof.
  split; [exact alice_authenticates|]. split; [vm_compute; discriminate|].
  exact (proj2 (optionalAuth_always_passes alice_at_other sample_db)
           alice_as_read alice_authenticates).
Defined.

(** *** X4 to X7 *)

Lemma dev_order_is_permutation : @ordering_is_permutation dev_env.
Proof. intros ob l. reflexivity. Qed.

Lemma tenantMiddleware_on_main_domain_witness :
  let req := request_to "meuapp.com" VUndefined in
  let local := request_to "localhost" VUndefined in
  TenantMiddleware.on_main_domain (hostname req) = true
  ∧ run (TenantMiddleware.tenantMiddleware req) sample_db
    = (Ok (TenantMiddleware.mark_main req, Next), mkWorld sample_db [])
  ∧ @TenantMiddleware.on_main_domain dev_env (hostname local) = true
  ∧ ∃ req',
      run (@TenantMiddleware.tenantMiddleware dev_env local) sample_db
      = (Ok (req', Next), mkWorld sample_db [CallFindFirst MTenant default_tenant_lookup])
      ∧ isMainDomain req' = VBool true.
Proof.
  intros req local.
  split; [reflexivity|]. split.
  - apply (proj1 (tenantMiddleware_on_main_domain req sample_db
                    sample_order_is_permutation eq_refl)).
    vm_compute. discriminate.
  - split; [reflexivity|].
    destruct (proj2 (@tenantMiddleware_on_main_domain dev_env local sample_db
                       dev_order_is_permutation eq_refl) eq_refl)
      as (req' & Hrun & Hmain & _).
    exists req'. split; [exact Hrun | exact Hmain].
Defined.

Lemma todoRoutes_production_isolation_witness :
  let req := request_to "acme.meuapp.com" (VStr "Bearer alice-access") in
  let req' :=
    AuthMiddleware.with_user
      (TenantMiddleware.with_tenant req (project TenantMiddleware.tenant_select acme) false)
      alice_as_read in
  nodeEnv config ≠ "development"
  ∧ truthy (tenantId req) = false
  ∧ outcome (Routes.todoRoutes "/" req) sample_db = Ok (req', Next)
  ∧ db_after (Routes.todoRoutes "/" req) sample_db = sample_db
  ∧ ∃ t u,
      t ∈ tenants sample_db
      ∧ active_tenant "acme" t
      ∧ tenantId req' = column t "id"
      ∧ user req' = Some u
      ∧ column u "tenantId" = column t "id".
Proof.
  intros req req'.
  assert (Hprod : nodeEnv config ≠ "development") by (vm_compute; discriminate).
  assert (Hrun : outcome (Routes.todoRoutes "/" req) sample_db = Ok (req', Next))
    by (vm_compute; reflexivity).
  split; [exact Hprod|]. split; [reflexivity|]. split; [exact Hrun|].
  destruct (todoRoutes_production_isolation "/" req req' sample_db Hprod eq_refl Hrun)
    as (_ & Hdb & t & u & Hin & Hact & _ & Hid & _ & Huser & Hsame).
  split; [exact Hdb|]. exists t, u.
  split; [exact Hin|]. split; [exact Hact|]. split; [exact Hid|].
  split; [exact Huser | exact Hsame].
Defined.

Lemma alice_authenticates_on_localhost :
  @authenticates dev_env (request_to "localhost" (VStr "Bearer alice-access")) sample_db
    alice_as_read.
Proof.
  exists "Bearer alice-access", "alice-access",
    {["userId" := VStr "u1"; "tenantId" := VStr "t-acme"; "role" := VStr "USER"]}.
  repeat split; vm_compute; reflexivity.
Qed.

Lemma todoRoutes_development_default_tenant_witness :
  let req := request_to "localhost" (VStr "Bearer alice-access") in
  let t := project TenantMiddleware.tenant_select acme in
  @nodeEnv (@config dev_env) = "development"
  ∧ @TenantMiddleware.on_main_domain dev_env (hostname req) = true
  ∧ head (@Model.find_rows dev_env default_tenant_lookup (tenants sample_db)) = Some t
  ∧ truthy (column t "id") = true
  ∧ @authenticates dev_env req sample_db alice_as_read
  ∧ outcome (@Routes.todoRoutes dev_env "/" req) sample_db
    = Ok (AuthMiddleware.with_user (TenantMiddleware.with_tenant req t true) alice_as_read,
          Next).
Proof.
  intros req t.
  assert (Hhead : head (@Model.find_rows dev_env default_tenant_lookup (tenants sample_db))
                  = Some t) by (vm_compute; reflexivity).
  split; [reflexivity|]. split; [reflexivity|]. split; [exact Hhead|].
  split; [reflexivity|]. split; [exact alice_authenticates_on_localhost|].
  exact (@todoRoutes_development_default_tenant dev_env "/" req sample_db t alice_as_read
           eq_refl eq_refl Hhead eq_refl alice_authenticates_on_localhost).
Defined.

Lemma tenantRoutes_admit_admins_on_main_domain_witness :
  let req := request_to "meuapp.com" (VStr "Bearer root-access") in
  let req' := AuthMiddleware.with_user (TenantMiddleware.mark_main req) root_as_read in
  outcome (@Routes.tenantRoutes office_env req) office_db = Ok (req', Next)
  ∧ @TenantMiddleware.on_main_domain office_env (hostname req) = true
  ∧ db_after (@Routes.tenantRoutes office_env req) office_db = office_db
  ∧ ∃ u, user req' = Some u ∧ column u "role" = VStr "ADMIN".
Proof.
  intros req req'.
  assert (Hrun : outcome (@Routes.tenantRoutes office_env req) office_db = Ok (req', Next))
    by (vm_compute; reflexivity).
  split; [exact Hrun|].
  destruct (@tenantRoutes_admit_admins_on_main_domain office_env req req' office_db Hrun)
    as (Hmain & Hdb & _ & Hadmin).
  split; [exact Hmain|]. split; [exact Hdb | exact Hadmin].
Defined.

(** *** X8 to X13 *)

Lemma update_writes_the_owned_row_witness :
  let d1 := mk_todo "d1" "write" "PENDING" "u1" "t-acme" in
  let d2 := mk_todo "d2" "review" "COMPLETED" "u1" "t-acme" in
  let d3 := mk_todo "d3" "ship" "PENDING" "u2" "t-acme" in
  let d4 := mk_todo "d4" "plan" "IN_PROGRESS" "u3" "t-other" in
  let d5 := mk_todo "d5" "drop" "CANCELLED" "u1" "t-acme" in
  let patch : object := {["title" := VStr "ship it"; "tenantId" := VStr "t-other"]} in
  let call := BaseRepository.update MTodo (VStr "d3") patch (VStr "t-acme") in
  table MTodo sample_db = [d1; d2; d3; d4; d5]
  ∧ ∃ u',
      outcome call sample_db = Ok u'
      ∧ table MTodo (db_after call sample_db) = [d1; d2; u'; d4; d5]
      ∧ column u' "title" = VStr "ship it"
      ∧ column u' "tenantId" = VStr "t-other"
      ∧ column u' "userId" = VStr "u2".
Proof.
  intros d1 d2 d3 d4 d5 patch call.
  split; [reflexivity|].
  destruct (update_writes_the_owned_row MTodo "d3" (VStr "t-acme") patch sample_db
              [d1; d2] [d4; d5] d3 eq_refl)
    as (u' & Hok & Htable & _ & Hset & Hkept).
  - intros r Hr Hid. each_row Hr; vm_compute in Hid; discriminate.
  - reflexivity.
  - reflexivity.
  - exists u'. split; [exact Hok|]. split; [exact Htable|].
    split; [apply Hset; [vm_compute; reflexivity|discriminate]|].
    split; [apply Hset; [vm_compute; reflexivity|discriminate]|].
    rewrite (Hkept "userId"); [reflexivity|]. left. vm_compute. reflexivity.
Defined.

Lemma delete_removes_the_owned_row_witness :
  let d1 := mk_todo "d1" "write" "PENDING" "u1" "t-acme" in
  let d2 := mk_todo "d2" "review" "COMPLETED" "u1" "t-acme" in
  let d3 := mk_todo "d3" "ship" "PENDING" "u2" "t-acme" in
  let d4 := mk_todo "d4" "plan" "IN_PROGRESS" "u3" "t-other" in
  let d5 := mk_todo "d5" "drop" "CANCELLED" "u1" "t-acme" in
  let call := BaseRepository.delete MTodo (VStr "d3") (VStr "t-acme") in
  table MTodo sample_db = [d1; d2; d3; d4; d5]
  ∧ outcome call sample_db = Ok d3
  ∧ table MTodo (db_after call sample_db) = [d1; d2; d4; d5]
  ∧ outcome (BaseRepository.findById MTodo (VStr "d3") (VStr "t-acme") no_options)
      (db_after call sample_db) = Ok None.
Proof.
  intros d1 d2 d3 d4 d5 call.
  split; [reflexivity|].
  destruct (delete_removes_the_owned_row MTodo "d3" (VStr "t-acme") sample_db
              [d1; d2] [d4; d5] d3 eq_refl)
    as (Hok & Htable & _ & Hgone).
  - intros r Hr Hid. each_row Hr; vm_compute in Hid; discriminate.
  - reflexivity.
  - reflexivity.
  - split; [exact Hok|]. split; [exact Htable|].
    apply Hgone. intros r Hr Hid. each_row Hr; vm_compute in Hid; discriminate.
Defined.

Lemma create_stamps_the_tenant_witness :
  let data : object := {["title" := VStr "call"; "tenantId" := VStr "t-other"]} in
  let call := BaseRepository.create MTodo data (VStr "t-acme") in
  ∃ r,
    outcome call sample_db = Ok r
    ∧ column r "tenantId" = VStr "t-acme"
    ∧ column r "title" = VStr "call"
    ∧ table MTodo (db_after call sample_db) = (table MTodo sample_db ++ [r])%list.
Proof.
  intros data call.
  destruct (create_stamps_the_tenant MTodo data (VStr "t-acme") sample_db eq_refl
              ltac:(discriminate))
    as (r & Hok & Htenant & Hkept & Htable & _).
  exists r. split; [exact Hok|]. split; [exact Htenant|]. split; [|exact Htable].
  apply Hkept; [discriminate|vm_compute; reflexivity|discriminate].
Defined.

Lemma count_is_length_of_findMany_witness :
  ordering_is_permutation
  ∧ plain_options no_options
  ∧ ∃ rows,
      outcome (BaseRepository.findMany MTodo (Some {["userId" := CEq (VStr "u1")]})
                 (VStr "t-acme") no_options) sample_db = Ok rows
      ∧ outcome (BaseRepository.count MTodo (Some {["userId" := CEq (VStr "u1")]})
                   (VStr "t-acme")) sample_db = Ok (Z.of_nat (length rows)).
Proof.
  split; [exact sample_order_is_permutation|]. split; [exact no_options_plain|].
  exact (count_is_length_of_findMany MTodo (Some {["userId" := CEq (VStr "u1")]})
           (VStr "t-acme") no_options sample_db sample_order_is_permutation
           no_options_plain).
Defined.

Lemma pages_make_up_the_listing_witness :
  ordering_is_permutation
  ∧ plain_options no_options
  ∧ (1 ≤ 2)%Z
  ∧ mjoin ((fun i => page_data MTodo None (VStr "t-acme") 2 no_options sample_db
                       (Z.of_nat (S i)))
             <$> seq 0 (Z.to_nat (BaseRepository.ceil_div
                          (Z.of_nat (length (selected
                             (BaseRepository.addTenantFilter None (VStr "t-acme"))
                             (table MTodo sample_db)))) 2)))
    = project (select no_options)
        <$> listed no_options
              (selected (BaseRepository.addTenantFilter None (VStr "t-acme"))
                 (table MTodo sample_db)).
Proof.
  assert (Hsize : (1 ≤ 2)%Z) by lia.
  split; [exact sample_order_is_permutation|]. split; [exact no_options_plain|].
  split; [exact Hsize|].
  exact (pages_make_up_the_listing MTodo None (VStr "t-acme") 2 no_options sample_db
           sample_order_is_permutation no_options_plain Hsize).
Defined.

Lemma updateProfile_writes_name_and_email_only_witness :
  let profileData : object :=
    {["name" := VStr "Robert"; "role" := VStr "ADMIN"; "tenantId" := VStr "t-other"]} in
  let call := UserRepository.updateProfile (VStr "u2") profileData (VStr "t-acme") in
  users sample_db = [alice; bob; carol]
  ∧ ∃ u',
      outcome call sample_db = Ok u'
      ∧ users (db_after call sample_db) = [alice; u'; carol]
      ∧ column u' "name" = VStr "Robert"
      ∧ column u' "email" = column bob "email"
      ∧ column u' "role" = column bob "role"
      ∧ column u' "tenantId" = column bob "tenantId".
Proof.
  intros profileData call.
  split; [reflexivity|].
  destruct (updateProfile_writes_name_and_email_only "u2" (VStr "t-acme") profileData
              sample_db [alice] [carol] bob eq_refl)
    as (u' & Hok & Husers & Hother & Hfields).
  - intros r Hr Hid. each_row Hr; vm_compute in Hid; discriminate.
  - reflexivity.
  - reflexivity.
  - exists u'. split; [exact Hok|]. split; [exact Husers|].
    split; [exact (Hfields "name" (or_introl eq_refl))|].
    split; [exact (Hfields "email" (or_intror eq_refl))|].
    split; apply Hother; discriminate.
Defined.

(** *** X15 to X20 *)

Lemma loginUser_failures_look_alike_witness :
  let wrong := AuthService.loginUser sample_compare (VStr "alice@x.com") (VStr "guess")
                 (VStr "t-acme") in
  let unknown := AuthService.loginUser sample_compare (VStr "carol@x.com") (VStr "old")
                   (VStr "t-acme") in
  first_registered "alice@x.com" (VStr "t-acme") (users sample_db) alice
  ∧ (∀ u, ¬ first_registered "carol@x.com" (VStr "t-acme") (users sample_db) u)
  ∧ outcome wrong sample_db = Throw (mkErr UnauthorizedError "Invalid email or password")
  ∧ outcome unknown sample_db = Throw (mkErr UnauthorizedError "Invalid email or password")
  ∧ db_after wrong sample_db = sample_db
  ∧ db_after unknown sample_db = sample_db.
Proof.
  intros wrong unknown.
  assert (Hmember : ∀ e t u, first_registered e t (users sample_db) u →
            u ∈ users sample_db ∧ registered e t u).
  { intros e t u (pre & post & Husers & Hreg & _). split; [|exact Hreg].
    rewrite Husers. apply elem_of_app. right. by left. }
  assert (Halice : first_registered "alice@x.com" (VStr "t-acme") (users sample_db) alice).
  { exists [], [bob; carol]. split; [reflexivity|]. split; [by split|].
    intros r Hr. by apply elem_of_nil in Hr. }
  assert (Hcarol : ∀ u, ¬ first_registered "carol@x.com" (VStr "t-acme") (users sample_db) u).
  { intros u Hu. apply Hmember in Hu as [Hin [He Ht]].
    each_row Hin; vm_compute in He, Ht; discriminate. }
  split; [exact Halice|]. split; [exact Hcarol|].
  destruct (loginUser_failures_look_alike sample_compare "alice@x.com" "guess"
              (VStr "t-acme") sample_db eq_refl) as (Hwrong & Hdb & _).
  { intros u Hu. apply Hmember in Hu as [Hin [He Ht]]. exists "$2a$old".
    each_row Hin; vm_compute in He, Ht; try discriminate. by split. }
  destruct (loginUser_failures_look_alike sample_compare "carol@x.com" "old"
              (VStr "t-acme") sample_db eq_refl) as (Hunknown & Hdb' & _).
  { intros u Hu. destruct (Hcarol u Hu). }
  split; [exact Hwrong|]. split; [exact Hunknown|]. split; [exact Hdb | exact Hdb'].
Defined.

Lemma register_then_login_witness :
  let dave : object := {["email" := VStr "dave@x.com"; "password" := VStr "Secret1!"]} in
  let d1 := db_after (AuthService.registerUser dave (VStr "t-acme")) sample_db in
  (∀ r, r ∈ users sample_db → ¬ registered "dave@x.com" (VStr "t-acme") r)
  ∧ (∀ r, r ∈ users sample_db → ¬ registered "dave@x.com" (VStr "t-other") r)
  ∧ sample_compare "Secret1!" (bcrypt_hash "Secret1!" (bcryptRounds config)) = true
  ∧ sample_compare "secret1!" (bcrypt_hash "Secret1!" (bcryptRounds config)) = false
  ∧ ∃ u token token',
      outcome (AuthService.registerUser dave (VStr "t-acme")) sample_db
        = Ok (AuthService.mkRegistered u token)
      ∧ outcome (AuthService.loginUser sample_compare (VStr "dave@x.com") (VStr "Secret1!")
                   (VStr "t-acme")) d1
        = Ok (AuthService.mkRegistered u token')
      ∧ outcome (AuthService.loginUser sample_compare (VStr "dave@x.com") (VStr "secret1!")
                   (VStr "t-acme")) d1
        = Throw (mkErr UnauthorizedError "Invalid email or password")
      ∧ outcome (AuthService.loginUser sample_compare (VStr "dave@x.com") (VStr "Secret1!")
                   (VStr "t-other")) d1
        = Throw (mkErr UnauthorizedError "Invalid email or password").
Proof.
  intros dave d1.
  assert (Hfree : ∀ t r, r ∈ users sample_db → ¬ registered "dave@x.com" t r).
  { intros t r Hr [He _]. each_row Hr; vm_compute in He; discriminate. }
  assert (Hright : sample_compare "Secret1!" (bcrypt_hash "Secret1!" (bcryptRounds config))
                   = true) by (vm_compute; reflexivity).
  assert (Hwrong : sample_compare "secret1!" (bcrypt_hash "Secret1!" (bcryptRounds config))
                   = false) by (vm_compute; reflexivity).
  assert (Hemail : dave !! "email" = Some (VStr "dave@x.com"))
    by (vm_compute; reflexivity).
  assert (Hpassword : dave !! "password" = Some (VStr "Secret1!"))
    by (vm_compute; reflexivity).
  assert (Hactive : dave !! "isActive" = None) by (vm_compute; reflexivity).
  split; [apply Hfree|]. split; [apply Hfree|]. split; [exact Hright|].
  split; [exact Hwrong|].
  destruct (register_then_login sample_compare dave "dave@x.com" "Secret1!"
              (VStr "t-acme") (VStr "t-other") sample_db
              eq_refl eq_refl ltac:(discriminate) Hemail Hpassword Hactive eq_refl Hright
              (Hfree (VStr "t-acme")) (Hfree (VStr "t-other")))
    as (u & token & token' & Hregister & Hlogin & _ & Hother & Helsewhere).
  exists u, token, token'.
  split; [exact Hregister|]. split; [exact Hlogin|].
  split; [exact (Hother "secret1!" Hwrong) | exact Helsewhere].
Defined.

Lemma refreshToken_accepts_a_reset_token_witness :
  let decoded : object := {["userId" := VStr "u1"; "purpose" := VStr "password-reset"]} in
  first_registered "alice@x.com" (VStr "t-acme") (users sample_db) alice
  ∧ @jwt_verify office_env
      (@Jwt.generateToken office_env (AuthService.reset_payload alice) (Some "1h"))
      (@jwt_secret (@config office_env)) = inr decoded
  ∧ ∃ resetToken access,
      outcome (@AuthService.requestPasswordReset office_env (VStr "alice@x.com")
                 (VStr "t-acme")) sample_db = Ok (Some resetToken)
      ∧ outcome (@AuthService.refreshToken office_env (VStr resetToken)) sample_db
        = Ok (AuthService.mkRegistered alice access).
Proof.
  intros decoded.
  assert (Halice : first_registered "alice@x.com" (VStr "t-acme") (users sample_db) alice).
  { exists [], [bob; carol]. split; [reflexivity|]. split; [by split|].
    intros r Hr. by apply elem_of_nil in Hr. }
  assert (Hverify : @jwt_verify office_env
            (@Jwt.generateToken office_env (AuthService.reset_payload alice) (Some "1h"))
            (@jwt_secret (@config office_env)) = inr decoded)
    by (vm_compute; reflexivity).
  split; [exact Halice|]. split; [exact Hverify|].
  destruct (@refreshToken_accepts_a_reset_token office_env "alice@x.com" "u1" (VStr "t-acme")
              alice decoded sample_db eq_refl Halice eq_refl)
    as (resetToken & access & Hrequest & Hrefresh & _).
  - intros r Hr Hid. each_row Hr; vm_compute in Hid; try discriminate. reflexivity.
  - reflexivity.
  - exact Hverify.
  - vm_compute. reflexivity.
  - vm_compute. reflexivity.
  - exists resetToken, access. split; [exact Hrequest | exact Hrefresh].
Defined.

Lemma getUserProfile_stays_in_tenant_witness :
  (∀ r, r ∈ users sample_db → ¬ owned_by (VStr "u3") (VStr "t-acme") r)
  ∧ outcome (AuthService.getUserProfile (VStr "u3") (VStr "t-acme")) sample_db
    = Throw (mkErr NotFoundError "User not found")
  ∧ outcome (AuthService.getUserProfile (VStr "u3") (VStr "t-other")) sample_db = Ok carol
  ∧ owned_by (VStr "u3") (VStr "t-other") carol.
Proof.
  assert (Hnone : ∀ r, r ∈ users sample_db → ¬ owned_by (VStr "u3") (VStr "t-acme") r).
  { intros r Hr [Hid Ht]. each_row Hr; vm_compute in Hid, Ht; discriminate. }
  assert (Hcarol : outcome (AuthService.getUserProfile (VStr "u3") (VStr "t-other")) sample_db
                   = Ok carol) by (vm_compute; reflexivity).
  split; [exact Hnone|].
  split; [exact (proj1 (proj2 (getUserProfile_stays_in_tenant "u3" (VStr "t-acme")
                                 sample_db eq_refl)) Hnone)|].
  split; [exact Hcarol|].
  exact (proj2 (proj1 (getUserProfile_stays_in_tenant "u3" (VStr "t-other")
                         sample_db eq_refl) carol Hcarol)).
Defined.

Lemma forgotPassword_answers_alike_witness :
  let known :=
    mkRequest "acme.meuapp.com" VUndefined ∅ {["email" := VStr "alice@x.com"]}
      (VBool false) (Some acme) (VStr "t-acme") None VUndefined in
  let unknown :=
    mkRequest "acme.meuapp.com" VUndefined ∅ {["email" := VStr "carol@x.com"]}
      (VBool false) (Some acme) (VStr "t-acme") None VUndefined in
  prop (body known) "email" = VStr "alice@x.com"
  ∧ prop (body unknown) "email" = VStr "carol@x.com"
  ∧ outcome (AuthController.forgotPassword known) sample_db
    = outcome (AuthController.forgotPassword unknown) sample_db
  ∧ db_after (AuthController.forgotPassword known) sample_db = sample_db.
Proof.
  intros known unknown.
  assert (Hknown : prop (body known) "email" = VStr "alice@x.com")
    by (vm_compute; reflexivity).
  assert (Hunknown : prop (body unknown) "email" = VStr "carol@x.com")
    by (vm_compute; reflexivity).
  split; [exact Hknown|]. split; [exact Hunknown|].
  destruct (forgotPassword_answers_alike known "alice@x.com" sample_db Hknown)
    as (Hok & Hdb & _).
  destruct (forgotPassword_answers_alike unknown "carol@x.com" sample_db Hunknown)
    as (Hok' & _).
  split; [exact (eq_trans Hok (eq_sym Hok')) | exact Hdb].
Defined.

(** *** X21 to X24 *)

Lemma createTodo_stamps_owner_and_tenant_witness :
  let todoData : object :=
    {["title" := VStr "call"; "userId" := VStr "u3"; "tenantId" := VStr "t-other"]} in
  let call := TodoService.createTodo sample_invalid_date todoData (VStr "u1")
                (VStr "t-acme") in
  outcome (TodoService.validateTodoData sample_invalid_date todoData) sample_db = Ok tt
  ∧ ∃ r,
      outcome call sample_db = Ok r
      ∧ column r "userId" = VStr "u1"
      ∧ column r "tenantId" = VStr "t-acme"
      ∧ column r "status" = VStr "PENDING"
      ∧ column r "priority" = VStr "MEDIUM"
      ∧ column r "title" = VStr "call"
      ∧ todos (db_after call sample_db) = (todos sample_db ++ [r])%list.
Proof.
  intros todoData call.
  assert (Hvalid : outcome (TodoService.validateTodoData sample_invalid_date todoData)
                     sample_db = Ok tt) by (vm_compute; reflexivity).
  split; [exact Hvalid|].
  destruct (createTodo_stamps_owner_and_tenant sample_invalid_date todoData (VStr "u1")
              (VStr "t-acme") sample_db eq_refl ltac:(discriminate) Hvalid)
    as (r & Hok & Huser & Htenant & Hstatus & Hpriority & Hkept & Htodos & _).
  exists r. split; [exact Hok|]. split; [exact Huser|]. split; [exact Htenant|].
  split; [exact Hstatus|]. split; [exact Hpriority|]. split; [|exact Htodos].
  apply Hkept; [by_evaluation|vm_compute; reflexivity|discriminate].
Defined.

(** A title of one no-break space trims to the empty string and is
    refused; a letter of two bytes counts as one character. *)
Lemma createTodo_refuses_no_break_space :
  let nbsp := String "194"%char (String "160"%char "") in
  let e_acute := String "195"%char (String "169"%char "") in
  let call := TodoService.createTodo sample_invalid_date {["title" := VStr nbsp]}
                (VStr "u1") (VStr "t-acme") in
  TodoService.trim nbsp = ""
  ∧ outcome call sample_db = Throw (mkErr ValidationError "Title is required")
  ∧ calls_of call sample_db = []
  ∧ utf16_length e_acute = 1%nat
  ∧ String.length e_acute = 2%nat.
Proof. repeat split; vm_compute; reflexivity. Qed.

Lemma createTodo_refuses_blank_title_witness :
  let todoData : object := {["title" := VStr "   "; "priority" := VStr "HIGH"]} in
  let call := TodoService.createTodo sample_invalid_date todoData (VStr "u1")
                (VStr "t-acme") in
  (∀ a, a ∈ list_ascii_of_string "   " → TodoService.is_space a = true)
  ∧ outcome call sample_db = Throw (mkErr ValidationError "Title is required")
  ∧ calls_of call sample_db = []
  ∧ db_after call sample_db = sample_db.
Proof.
  intros todoData call.
  assert (Hspaces : ∀ a, a ∈ list_ascii_of_string "   " → TodoService.is_space a = true).
  { intros a Ha. each_row Ha; reflexivity. }
  split; [exact Hspaces|].
  apply (createTodo_refuses_blank_title sample_invalid_date todoData (VStr "u1")
           (VStr "t-acme") sample_db).
  right. exists "   ". split; [vm_compute; reflexivity | exact Hspaces].
Defined.

Lemma owner_operations_reach_the_todo_witness :
  let d1 := mk_todo "d1" "write" "PENDING" "u1" "t-acme" in
  let d2 := mk_todo "d2" "review" "COMPLETED" "u1" "t-acme" in
  let d3 := mk_todo "d3" "ship" "PENDING" "u2" "t-acme" in
  let d4 := mk_todo "d4" "plan" "IN_PROGRESS" "u3" "t-other" in
  let d5 := mk_todo "d5" "drop" "CANCELLED" "u1" "t-acme" in
  let bob_id := VStr "u2" in
  let t := VStr "t-acme" in
  todos sample_db = [d1; d2; d3; d4; d5]
  ∧ outcome (TodoService.getTodoById (VStr "d3") bob_id t) sample_db = Ok d3
  ∧ outcome (TodoService.deleteTodo (VStr "d3") bob_id t) sample_db = Ok d3
  ∧ todos (db_after (TodoService.deleteTodo (VStr "d3") bob_id t) sample_db)
    = [d1; d2; d4; d5]
  ∧ (∃ todo',
       outcome (TodoService.updateTodoStatus (VStr "d3") (VStr "COMPLETED") bob_id t)
         sample_db = Ok todo'
       ∧ column todo' "status" = VStr "COMPLETED"
       ∧ column todo' "title" = VStr "ship")
  ∧ outcome (TodoService.updateTodoStatus (VStr "d3") (VStr "DONE") bob_id t) sample_db
    = Throw (mkErr ValidationError
               "Invalid status. Must be one of: PENDING, IN_PROGRESS, COMPLETED, CANCELLED").
Proof.
  intros d1 d2 d3 d4 d5 bob_id t.
  split; [reflexivity|].
  destruct (owner_operations_reach_the_todo "d3" bob_id t sample_db [d1; d2] [d4; d5] d3
              eq_refl)
    as (Hget & _ & Hdelete & Htodos & _ & Hstatus & Hinvalid).
  - intros r Hr Hid. each_row Hr; vm_compute in Hid; discriminate.
  - reflexivity.
  - reflexivity.
  - reflexivity.
  - split; [exact Hget|]. split; [exact Hdelete|]. split; [exact Htodos|]. split.
    + destruct (Hstatus (VStr "COMPLETED")) as (todo' & Hok & Hset & Hkept & _).
      { unfold statuses. rewrite !elem_of_cons. right. right. by left. }
      exists todo'. split; [exact Hok|]. split; [exact Hset|].
      rewrite (Hkept "title"); [reflexivity|discriminate].
    + apply (Hinvalid (VStr "DONE")). by_evaluation.
Defined.

Lemma updateTodo_writes_any_column_witness :
  let d1 := mk_todo "d1" "write" "PENDING" "u1" "t-acme" in
  let rest := [mk_todo "d2" "review" "COMPLETED" "u1" "t-acme";
               mk_todo "d3" "ship" "PENDING" "u2" "t-acme";
               mk_todo "d4" "plan" "IN_PROGRESS" "u3" "t-other";
               mk_todo "d5" "drop" "CANCELLED" "u1" "t-acme"] in
  let patch : object := {["tenantId" := VStr "t-other"; "userId" := VStr "u3"]} in
  let call := TodoService.updateTodo (VStr "d1") patch (VStr "u1") (VStr "t-acme") in
  todos sample_db = d1 :: rest
  ∧ ∃ todo',
      outcome call sample_db = Ok todo'
      ∧ column todo' "tenantId" = VStr "t-other"
      ∧ column todo' "userId" = VStr "u3"
      ∧ column todo' "title" = VStr "write"
      ∧ todos (db_after call sample_db) = todo' :: rest.
Proof.
  intros d1 rest patch call.
  split; [reflexivity|].
  destruct (updateTodo_writes_any_column "d1" (VStr "u1") (VStr "t-acme") patch sample_db
              [] rest d1 eq_refl)
    as (todo' & Hok & Hset & Hkept & Htodos).
  - intros r Hr. by apply elem_of_nil in Hr.
  - reflexivity.
  - reflexivity.
  - reflexivity.
  - vm_compute. reflexivity.
  - vm_compute. reflexivity.
  - exists todo'. split; [exact Hok|].
    split; [apply Hset; [vm_compute; reflexivity|discriminate]|].
    split; [apply Hset; [vm_compute; reflexivity|discriminate]|].
    split; [|exact Htodos].
    rewrite (Hkept "title"); [reflexivity|vm_compute; reflexivity].
Defined.

(** *** X25 to X29 *)

Lemma createTenant_subdomain_is_unique_witness :
  let newco : object := {["name" := VStr "New Co"; "subdomain" := VStr "newco"]} in
  let again : object :=
    {["name" := VStr "Copy"; "subdomain" := VStr "newco"; "isActive" := VBool false]} in
  let d1 := db_after (TenantService.createTenant newco) sample_db in
  Validators.subdomainRegex_test "newco" = true
  ∧ (∀ r, r ∈ tenants sample_db → column r "subdomain" ≠ VStr "newco")
  ∧ ∃ r,
      outcome (TenantService.createTenant newco) sample_db = Ok r
      ∧ tenants d1 = (tenants sample_db ++ [r])%list
      ∧ outcome (TenantService.checkSubdomainAvailability (VStr "newco")) sample_db = Ok true
      ∧ outcome (TenantService.checkSubdomainAvailability (VStr "newco")) d1 = Ok false
      ∧ outcome (TenantService.createTenant again) d1
        = Throw (mkErr ConflictError "Subdomain already exists").
Proof.
  intros newco again d1.
  assert (Hfree : ∀ r, r ∈ tenants sample_db → column r "subdomain" ≠ VStr "newco").
  { intros r Hr Hs. each_row Hr; vm_compute in Hs; discriminate. }
  split; [reflexivity|]. split; [exact Hfree|].
  destruct (createTenant_subdomain_is_unique newco again "newco" sample_db)
    as (r & Hok & _ & Htenants & _ & _ & Hbefore & Hafter & Htaken & _).
  - vm_compute. reflexivity.
  - vm_compute. reflexivity.
  - reflexivity.
  - exact Hfree.
  - exists r. split; [exact Hok|]. split; [exact Htenants|]. split; [exact Hbefore|].
    split; [exact Hafter | exact Htaken].
Defined.

Lemma created_tenant_is_resolved_witness :
  let newco : object := {["name" := VStr "New Co"; "subdomain" := VStr "newco"]} in
  let req := request_to "newco.meuapp.com" VUndefined in
  let d1 := db_after (TenantService.createTenant newco) sample_db in
  TenantMiddleware.on_main_domain (hostname req) = false
  ∧ (∀ r, r ∈ tenants sample_db → column r "subdomain" ≠ VStr "newco")
  ∧ ∃ r req',
      outcome (TenantService.createTenant newco) sample_db = Ok r
      ∧ outcome (TenantMiddleware.tenantMiddleware req) sample_db
        = Ok (req, Respond (mkResponse 404
                (error_body "Tenant not found" "Tenant with subdomain 'newco' not found")))
      ∧ outcome (TenantMiddleware.tenantMiddleware req) d1 = Ok (req', Next)
      ∧ tenantId req' = column r "id".
Proof.
  intros newco req d1.
  assert (Hfree : ∀ r, r ∈ tenants sample_db → column r "subdomain" ≠ VStr "newco").
  { intros r Hr Hs. each_row Hr; vm_compute in Hs; discriminate. }
  split; [reflexivity|]. split; [exact Hfree|].
  destruct (created_tenant_is_resolved newco "newco" "meuapp.com" req sample_db)
    as (r & req' & Hok & Hbefore & Hafter & Hid & _).
  - vm_compute. reflexivity.
  - vm_compute. reflexivity.
  - reflexivity.
  - reflexivity.
  - exact Hfree.
  - reflexivity.
  - reflexivity.
  - exists r, req'. split; [exact Hok|]. split; [exact Hbefore|].
    split; [exact Hafter | exact Hid].
Defined.

Lemma deactivated_tenant_is_not_resolved_witness :
  let again : object := {["name" := VStr "Acme II"; "subdomain" := VStr "acme"]} in
  let req := request_to "acme.meuapp.com" VUndefined in
  let d1 := db_after (TenantService.updateTenantStatus (VStr "t-acme") (VBool false))
              sample_db in
  tenants sample_db = [acme; other; closed_shop]
  ∧ (∃ req', outcome (TenantMiddleware.tenantMiddleware req) sample_db = Ok (req', Next))
  ∧ ∃ r',
      outcome (TenantService.updateTenantStatus (VStr "t-acme") (VBool false)) sample_db
        = Ok r'
      ∧ tenants d1 = [r'; other; closed_shop]
      ∧ column r' "isActive" = VBool false
      ∧ outcome (TenantMiddleware.tenantMiddleware req) d1
        = Ok (req, Respond (mkResponse 404
                (error_body "Tenant not found" "Tenant with subdomain 'acme' not found")))
      ∧ outcome (TenantService.createTenant again) d1
        = Throw (mkErr ConflictError "Subdomain already exists").
Proof.
  intros again req d1.
  split; [reflexivity|]. split; [eexists; vm_compute; reflexivity|].
  destruct (deactivated_tenant_is_not_resolved "t-acme" "acme" again req sample_db
              [] [other; closed_shop] acme eq_refl)
    as (r' & Hok & Htenants & Hoff & _ & Hgone & Htaken).
  - intros r Hr. by apply elem_of_nil in Hr.
  - reflexivity.
  - reflexivity.
  - intros r Hr Hs. each_row Hr; vm_compute in Hs; discriminate.
  - reflexivity.
  - vm_compute. reflexivity.
  - reflexivity.
  - reflexivity.
  - exists r'. split; [exact Hok|]. split; [exact Htenants|]. split; [exact Hoff|].
    split; [exact Hgone | exact Htaken].
Defined.

Lemma valid_subdomain_names_its_hosts_witness :
  Validators.isValidSubdomain (VStr "localhost-team") = true
  ∧ includes "localhost" "localhost-team" = true
  ∧ TenantService.subdomain_format (VStr "localhost-team") = true
  ∧ TenantMiddleware.subdomain_of "localhost-team.meuapp.com" = "localhost-team"
  ∧ TenantMiddleware.on_main_domain "localhost-team.meuapp.com" = true.
Proof.
  split; [reflexivity|]. split; [reflexivity|].
  destruct (valid_subdomain_names_its_hosts "localhost-team" "meuapp.com" eq_refl)
    as (Hformat & Hlabel & Hmain).
  split; [exact Hformat|]. split; [exact Hlabel|]. exact (Hmain eq_refl).
Defined.

Lemma errorHandler_classifies_witness :
  instanceof (mkErr TenantNotFoundError "No such tenant") BaseError = true
  ∧ instanceof (mkErr PlainError "todo not found") BaseError = false
  ∧ instanceof (mkErr (OtherError "ValidationError") "name is required") BaseError = false
  ∧ status (ErrorHandler.errorHandler (mkErr TenantNotFoundError "No such tenant")) = 404%Z
  ∧ json (ErrorHandler.errorHandler (mkErr TenantNotFoundError "No such tenant"))
    = error_body "TenantNotFoundError" "No such tenant"
  ∧ ErrorHandler.errorHandler (mkErr PlainError "todo not found")
    = mkResponse 500 (error_body "InternalServerError" "An unexpected error occurred")
  ∧ ErrorHandler.errorHandler (mkErr (OtherError "ValidationError") "name is required")
    = mkResponse 400 (error_body "ValidationError" "name is required").
Proof.
  split; [reflexivity|]. split; [reflexivity|]. split; [reflexivity|].
  destruct (proj1 (errorHandler_classifies (mkErr TenantNotFoundError "No such tenant"))
              eq_refl) as (Hstatus & Hjson & _).
  split; [exact (f_equal (default 0%Z) (eq_sym Hstatus))|]. split; [exact Hjson|].
  split.
  - destruct (proj2 (errorHandler_classifies (mkErr PlainError "todo not found")) eq_refl)
      as [[Hcls _]|[[Hcls _]|[[Hname _]|[_ Hres]]]];
      [discriminate Hcls|discriminate Hcls|discriminate Hname|exact Hres].
  - destruct (proj2 (errorHandler_classifies
                       (mkErr (OtherError "ValidationError") "name is required")) eq_refl)
      as [[Hcls _]|[[Hcls _]|[[_ Hres]|[Hname _]]]];
      [discriminate Hcls|discriminate Hcls|exact Hres|by destruct Hname].
Defined.
